(** * signal_message_processor: the JSON-RPC correlation and ingestion engine

    A shallow embedding of [signal_message_processor.py]: the frame dispatch
    of [main], [process_incoming_message], [process_attachment_response] and
    [get_extension_from_content_type], over decoded JSON values, with the
    interpreter's exceptions, the pending-request dict, the SQLite table,
    the attachment directory, the agent's stdin and the log written out as
    explicit state. *)

From Stdlib Require Import ZArith String Ascii List Bool SpecFloat.
From stdpp Require Import base gmap strings list fin_maps pretty.

Set Warnings "-register-all".
Local Open Scope string_scope.
Local Open Scope Z_scope.

(** ** Decoded JSON values *)

(** What [json.loads] returns: [None], [bool], [int], [float] (an IEEE 754
    value), [str], [list], or a [dict] given by its items (keys distinct,
    as the decoder builds them). A str is given by its UTF-8 bytes; a str
    with a lone surrogate has none and is not among these values. *)
Inductive json : Type :=
| JNull
| JBool (b : bool)
| JInt (z : Z)
| JFloat (f : spec_float)
| JStr (s : string)
| JArr (l : list json)
| JObj (items : list (string * json)).

(** [d.get(k)] on the items of a dict. *)
Fixpoint dict_get (items : list (string * json)) (k : string) : option json :=
  match items with
  | [] => None
  | (k', v) :: rest => if String.eqb k' k then Some v else dict_get rest k
  end.

(** Python truth value, as tested by [if x] and [not x]. *)
Definition truthy (v : json) : bool :=
  match v with
  | JNull => false
  | JBool b => b
  | JInt z => negb (Z.eqb z 0)
  | JFloat f => match f with S754_zero _ => false | _ => true end
  | JStr s => negb (String.eqb s "")
  | JArr l => match l with [] => false | _ => true end
  | JObj items => match items with [] => false | _ => true end
  end.

(** [x == 'receive'] and the like: a [str] equals only an equal [str]. *)
Definition py_eq_str (v : json) (s : string) : bool :=
  match v with
  | JStr s' => String.eqb s' s
  | _ => false
  end.

(** ** Exceptions *)

Inductive exn : Type :=
| AttributeError        (* [.get] or [.append] on a value that has none *)
| TypeError             (* unhashable key, not iterable, not a path, ... *)
| KeyError              (* [pop] of a key the dict lacks *)
| OverflowError         (* int too large for SQLite INTEGER *)
| Sqlite3Error          (* any [sqlite3.Error] *)
| JSONDecodeError
| ValueError            (* [json.loads] on an integer of too many digits *)
| RecursionError        (* [json.loads] on values nested too deep *)
| BinasciiError         (* [base64.b64decode] refusing a str: binascii.Error,
                           or the ValueError a non-ASCII str gets *)
| OSError.              (* file and pipe failures *)

(** ** The persisted table *)

Inductive sqlval : Type :=
| SNull
| SInt (z : Z)
| SReal (f : spec_float)
| SText (s : string).

(** One row of [messages] without its primary key, holding the values the
    table stores. *)
Record row : Type := {
  source : sqlval;
  sourceName : sqlval;
  timestamp : sqlval;
  message : sqlval;
  groupId : sqlval;
  groupName : sqlval;
  attachmentPaths : sqlval;
  attachmentDescriptions : sqlval;
  processedAt : sqlval;
  quoteId : sqlval;
  quoteAuthor : sqlval;
  quoteText : sqlval
}.

Definition set_attachmentPaths (v : sqlval) (r : row) : row :=
  {| source := source r; sourceName := sourceName r; timestamp := timestamp r;
     message := message r; groupId := groupId r; groupName := groupName r;
     attachmentPaths := v;
     attachmentDescriptions := attachmentDescriptions r;
     processedAt := processedAt r; quoteId := quoteId r;
     quoteAuthor := quoteAuthor r; quoteText := quoteText r |}.

(** How the [sqlite3] module binds a Python value to a [?] placeholder. *)
Definition sqlite_bind (v : json) : exn + sqlval :=
  match v with
  | JNull => inr SNull
  | JBool b => inr (SInt (if b then 1 else 0))
  | JInt z =>
      if (- 2 ^ 63 <=? z) && (z <? 2 ^ 63) then inr (SInt z)
      else inl OverflowError
  | JFloat S754_nan => inr SNull      (* SQLite binds NaN as NULL *)
  | JFloat f => inr (SReal f)
  | JStr s => inr (SText s)
  | JArr _ | JObj _ => inl Sqlite3Error
  end.

(** The integer a REAL is stored as in an INTEGER column: SQLite stores the
    integer when the value is one, strictly between the least and the
    greatest 64-bit integer. *)
Definition real_as_integer (f : spec_float) : option Z :=
  match f with
  | S754_zero _ => Some 0
  | S754_finite negative m e =>
      let magnitude :=
        if 0 <=? e then Some (Z.pos m * 2 ^ e)
        else if Z.pos m mod 2 ^ (- e) =? 0 then Some (Z.pos m / 2 ^ (- e))
        else None in
      match magnitude with
      | Some n =>
          if n <? 2 ^ 63 then Some (if negative then - n else n) else None
      | None => None
      end
  | _ => None
  end.

(** Truth value of a column read back from a row ([if row[0]]). *)
Definition sql_truthy (v : sqlval) : bool :=
  match v with
  | SNull => false
  | SInt z => negb (Z.eqb z 0)
  | SReal f => match f with S754_zero _ => false | _ => true end
  | SText s => negb (String.eqb s "")
  end.

(** ** Log records *)

Inductive level : Type := DEBUG | INFO | WARNING | ERROR.

Inductive log_msg : Type :=
| Failed_to_parse_JSON (line : string)
| Received_message (m : json)
| Unknown_message_type (m : json)
| Saved_message (src grp : json) (mid : Z)
| Sending_RPC_request (request : json)
| Error_processing_message (e : exn)
| Unknown_request_id (request_id : json)
| Downloaded_attachment (att : json) (file_path : string)
| Updated_message (mid : Z) (file_path : string)
| Message_id_not_found (mid : Z)
| No_data_in_response (request_id : json)
| No_result_in_response (att : json)
| Error_processing_attachment_response (e : exn).

(** ** The state the loop works on *)

(** A value of the [pending_attachments] dict. *)
Record pending_info : Type := {
  message_id : Z;
  attachment_id : json
}.

Record world : Type := {
  pending_attachments : gmap string pending_info;
  db_rows : gmap Z row;          (* the table, by primary key *)
  db_seq : Z;                    (* AUTOINCREMENT high-water mark *)
  files : gmap string (list Byte.byte);
  agent_stdin : list json;       (* frames written to the agent, oldest first *)
  log : list (level * log_msg);  (* oldest first *)
  clock_reads : nat;             (* evaluations of [time.time()] so far *)
  io_ops : nat                   (* database, file and pipe operations so far *)
}.

Definition set_pending (f : gmap string pending_info -> gmap string pending_info)
    (w : world) : world :=
  {| pending_attachments := f (pending_attachments w);
     db_rows := db_rows w; db_seq := db_seq w; files := files w;
     agent_stdin := agent_stdin w; log := log w;
     clock_reads := clock_reads w; io_ops := io_ops w |}.

Definition set_db (rows : gmap Z row) (seq : Z) (w : world) : world :=
  {| pending_attachments := pending_attachments w;
     db_rows := rows; db_seq := seq; files := files w;
     agent_stdin := agent_stdin w; log := log w;
     clock_reads := clock_reads w; io_ops := io_ops w |}.

Definition set_files (f : gmap string (list Byte.byte)) (w : world) : world :=
  {| pending_attachments := pending_attachments w;
     db_rows := db_rows w; db_seq := db_seq w; files := f;
     agent_stdin := agent_stdin w; log := log w;
     clock_reads := clock_reads w; io_ops := io_ops w |}.

Definition set_stdin (l : list json) (w : world) : world :=
  {| pending_attachments := pending_attachments w;
     db_rows := db_rows w; db_seq := db_seq w; files := files w;
     agent_stdin := l; log := log w;
     clock_reads := clock_reads w; io_ops := io_ops w |}.

Definition set_log (l : list (level * log_msg)) (w : world) : world :=
  {| pending_attachments := pending_attachments w;
     db_rows := db_rows w; db_seq := db_seq w; files := files w;
     agent_stdin := agent_stdin w; log := l;
     clock_reads := clock_reads w; io_ops := io_ops w |}.

Definition tick_clock (w : world) : world :=
  {| pending_attachments := pending_attachments w;
     db_rows := db_rows w; db_seq := db_seq w; files := files w;
     agent_stdin := agent_stdin w; log := log w;
     clock_reads := S (clock_reads w); io_ops := io_ops w |}.

Definition tick_io (w : world) : world :=
  {| pending_attachments := pending_attachments w;
     db_rows := db_rows w; db_seq := db_seq w; files := files w;
     agent_stdin := agent_stdin w; log := log w;
     clock_reads := clock_reads w; io_ops := S (io_ops w) |}.

(** ** What the interpreter, its libraries and the machine decide *)

Record Env : Type := {
  (** the n-th evaluation of [int(time.time() * 1000)] *)
  time_ms : nat -> Z;
  (** whether the n-th database, file or pipe operation raises *)
  io_fault : nat -> bool;
  (** [mimetypes.guess_extension] on a [str] *)
  guess_extension : string -> option string;
  (** [base64.b64decode] on a [str]; [None] when it raises *)
  b64decode : string -> option (list Byte.byte);
  (** [json.dumps], and [json.loads] ([None] when it raises) *)
  json_dumps : json -> string;
  json_loads : string -> option json;
  (** [str] of a float, a list or a dict *)
  py_repr : json -> string;
  (** the text SQLite renders a REAL as when a TEXT column stores it *)
  real_to_text : spec_float -> string;
  (** what an INTEGER column stores for a text: the INTEGER or REAL it
      spells when it is a well-formed number, the text itself otherwise *)
  text_to_numeric : string -> sqlval;
  (** [logger.isEnabledFor(logging.DEBUG)] *)
  debug_enabled : bool
}.

(** ** Computations that read and write the state and may raise *)

Inductive outcome (A : Type) : Type :=
| Ok (a : A)
| Raise (e : exn).
Arguments Ok {A} a.
Arguments Raise {A} e.

Definition M (A : Type) : Type := world -> outcome A * world.

Definition ret {A} (a : A) : M A := fun w => (Ok a, w).
Definition raise {A} (e : exn) : M A := fun w => (Raise e, w).
Definition bind {A B} (m : M A) (k : A -> M B) : M B :=
  fun w => match m w with
           | (Ok a, w') => k a w'
           | (Raise e, w') => (Raise e, w')
           end.

Declare Scope py_scope.
Delimit Scope py_scope with py.
Notation "x <- m ;; k" := (bind m (fun x => k))
  (at level 100, m at next level, right associativity) : py_scope.
Notation "m ;;; k" := (bind m (fun _ => k))
  (at level 100, right associativity) : py_scope.
Local Open Scope py_scope.

Definition lift {A} (r : exn + A) : M A :=
  match r with
  | inl e => raise e
  | inr a => ret a
  end.

Definition when (b : bool) (m : M unit) : M unit :=
  if b then m else ret tt.

(** [for x in l: body(x)] *)
Fixpoint for_each {A} (l : list A) (body : A -> M unit) : M unit :=
  match l with
  | [] => ret tt
  | x :: rest => body x ;;; for_each rest body
  end.

Definition logger (lvl : level) (msg : log_msg) : M unit :=
  fun w => (Ok tt, set_log (log w ++ [(lvl, msg)]) w).

(** ** Python and library primitives *)

(** [d.get(k, default)]: only a dict has [.get]. *)
Definition py_get (d : json) (k : string) (default : json) : M json :=
  match d with
  | JObj items =>
      match dict_get items k with
      | Some v => ret v
      | None => ret default
      end
  | _ => raise AttributeError
  end.

(** [k in d] for a dict [d]. *)
Definition dict_has (items : list (string * json)) (k : string) : bool :=
  match dict_get items k with
  | Some _ => true
  | None => false
  end.

(** The values a [for] loop draws from [v]: the elements of a list, the
    characters of a str, the keys of a dict; anything else is not iterable. *)
Definition py_iter (v : json) : M (list json) :=
  match v with
  | JArr l => ret l
  | JStr s => ret (map (fun c => JStr (String c EmptyString)) (list_ascii_of_string s))
  | JObj items => ret (map (fun kv => JStr (fst kv)) items)
  | _ => raise TypeError
  end.

(** Whether [k] occurs in [s] as a substring. *)
Fixpoint contains_str (k s : string) : bool :=
  String.prefix k s ||
  match s with
  | EmptyString => false
  | String _ rest => contains_str k rest
  end.

(** [k in v] for a str [k]: substring test on a str, membership on a list,
    key test on a dict, [TypeError] on the rest. *)
Definition py_in (k : string) (v : json) : M bool :=
  match v with
  | JStr s => ret (contains_str k s)
  | JArr l => ret (existsb (fun x => py_eq_str x k) l)
  | JObj items => ret (dict_has items k)
  | _ => raise TypeError
  end.

Definition ends_with_slash (s : string) : bool :=
  match rev (list_ascii_of_string s) with
  | c :: _ => Ascii.eqb c "/"%char
  | [] => false
  end.

Definition starts_with_slash (s : string) : bool :=
  match s with
  | String c _ => Ascii.eqb c "/"%char
  | EmptyString => false
  end.

(** [posixpath.join(a, b)] on two strs. *)
Definition path_join (a b : string) : string :=
  if starts_with_slash b then b
  else if String.eqb a "" || ends_with_slash a then a +:+ b
  else a +:+ "/" +:+ b.

(** [os.path.join(attachment_dir, file_name)]: a component that is not a
    str is a [TypeError]. *)
Definition os_path_join (a : string) (b : json) : M string :=
  match b with
  | JStr s => ret (path_join a s)
  | _ => raise TypeError
  end.

(** [l.append(x)] on what [json.loads] returned. *)
Definition py_append (l : json) (x : json) : M json :=
  match l with
  | JArr xs => ret (JArr (xs ++ [x]))
  | _ => raise AttributeError
  end.

(** The largest rowid in the table, [0] for an empty table. *)
Definition max_rowid (rows : gmap Z row) : Z :=
  map_fold (fun k _ acc => Z.max k acc) 0 rows.

(** The rowid an AUTOINCREMENT column gives the next row: one more than the
    largest that ever existed. *)
Definition next_rowid (w : world) : Z :=
  Z.succ (Z.max (db_seq w) (max_rowid (db_rows w))).

Section Engine.

Variable E : Env.

(** [str(v)] *)
Definition py_str (v : json) : string :=
  match v with
  | JNull => "None"
  | JBool true => "True"
  | JBool false => "False"
  | JInt z => pretty z
  | JStr s => s
  | _ => py_repr E v
  end.

(** [int(time.time() * 1000)] *)
Definition now_ms : M Z :=
  fun w => (Ok (time_ms E (clock_reads w)), tick_clock w).

(** One database, file or pipe operation: it raises [e] when the machine
    makes it fail, and counts either way. *)
Definition io (e : exn) : M unit :=
  fun w => if io_fault E (io_ops w) then (Raise e, tick_io w)
           else (Ok tt, tick_io w).

(** [stdin.write(json.dumps(request) + '\n')] *)
Definition stdin_write (request : json) : M unit :=
  io OSError ;;;
  fun w => (Ok tt, set_stdin (agent_stdin w ++ [request]) w).

(** [stdin.flush()] *)
Definition stdin_flush : M unit := io OSError.

(** [with open(file_path, 'wb') as f: f.write(data)]: opening truncates,
    then the data is written. *)
Definition write_file (file_path : string) (data : list Byte.byte) : M unit :=
  io OSError ;;;
  (fun w => (Ok tt, set_files (<[file_path := []]> (files w)) w)) ;;;
  io OSError ;;;
  fun w => (Ok tt, set_files (<[file_path := data]> (files w)) w).

(** [base64.b64decode(v)] *)
Definition base64_b64decode (v : json) : M (list Byte.byte) :=
  match v with
  | JStr s =>
      match b64decode E s with
      | Some bytes => ret bytes
      | None => raise BinasciiError
      end
  | _ => raise TypeError
  end.

(** The table and the AUTOINCREMENT mark at the start of the transaction
    the [sqlite3] module opens before an INSERT or UPDATE. *)
Definition begin_transaction : M (gmap Z row * Z) :=
  fun w => (Ok (db_rows w, db_seq w), w).

(** [conn.commit()] of the transaction that began at [begun]. A commit that
    fails (the disk is full, an I/O error) leaves the transaction rolled
    back: the table and the mark are again what they were at [begun], so a
    row just inserted is gone and its rowid will be given again. The
    database has this one writer, so no commit fails on a lock. *)
Definition conn_commit (begun : gmap Z row * Z) : M unit :=
  fun w => if io_fault E (io_ops w)
           then (Raise Sqlite3Error, set_db (fst begun) (snd begun) (tick_io w))
           else (Ok tt, tick_io w).

(** What a column declared TEXT stores for a bound value: a number as its
    text. *)
Definition text_affinity (v : sqlval) : sqlval :=
  match v with
  | SInt z => SText (pretty z)
  | SReal f => SText (real_to_text E f)
  | _ => v
  end.

(** What a column declared INTEGER stores for a bound value. *)
Definition integer_affinity (v : sqlval) : sqlval :=
  match v with
  | SReal f =>
      match real_as_integer f with
      | Some z => SInt z
      | None => SReal f
      end
  | SText s => text_to_numeric E s
  | _ => v
  end.

(** The row the table of lines 63-78 stores for the twelve bound values:
    [timestamp], [processedAt] and [quoteId] are INTEGER columns, the others
    TEXT. *)
Definition stored_row (v1 v2 v3 v4 v5 v6 v7 v8 v9 v10 v11 v12 : sqlval) : row :=
  {| source := text_affinity v1;
     sourceName := text_affinity v2;
     timestamp := integer_affinity v3;
     message := text_affinity v4;
     groupId := text_affinity v5;
     groupName := text_affinity v6;
     attachmentPaths := text_affinity v7;
     attachmentDescriptions := text_affinity v8;
     processedAt := integer_affinity v9;
     quoteId := integer_affinity v10;
     quoteAuthor := text_affinity v11;
     quoteText := text_affinity v12 |}.

(** [cursor.execute('INSERT INTO messages ...', params)] followed by
    [cursor.lastrowid]: the twelve parameters are bound in order, then the
    row is added under the next rowid. *)
Definition cursor_execute_insert
    (p1 p2 p3 p4 p5 p6 p7 p8 p9 p10 p11 p12 : json) : M Z :=
  v1 <- lift (sqlite_bind p1) ;;
  v2 <- lift (sqlite_bind p2) ;;
  v3 <- lift (sqlite_bind p3) ;;
  v4 <- lift (sqlite_bind p4) ;;
  v5 <- lift (sqlite_bind p5) ;;
  v6 <- lift (sqlite_bind p6) ;;
  v7 <- lift (sqlite_bind p7) ;;
  v8 <- lift (sqlite_bind p8) ;;
  v9 <- lift (sqlite_bind p9) ;;
  v10 <- lift (sqlite_bind p10) ;;
  v11 <- lift (sqlite_bind p11) ;;
  v12 <- lift (sqlite_bind p12) ;;
  io Sqlite3Error ;;;
  fun w =>
    let rowid := next_rowid w in
    (Ok rowid,
     set_db (<[rowid := stored_row v1 v2 v3 v4 v5 v6 v7 v8 v9 v10 v11 v12]>
               (db_rows w)) rowid w).

(** [cursor.execute('SELECT attachmentPaths FROM messages WHERE id=?', (mid,))]
    followed by [cursor.fetchone()]. *)
Definition cursor_select_attachmentPaths (mid : Z) : M (option sqlval) :=
  _ <- lift (sqlite_bind (JInt mid)) ;;
  io Sqlite3Error ;;;
  fun w => (Ok (attachmentPaths <$> db_rows w !! mid), w).

(** [cursor.execute('UPDATE messages SET attachmentPaths=? WHERE id=?',
    (paths, mid))] *)
Definition cursor_execute_update (paths : string) (mid : Z) : M unit :=
  v <- lift (sqlite_bind (JStr paths)) ;;
  _ <- lift (sqlite_bind (JInt mid)) ;;
  io Sqlite3Error ;;;
  fun w => (Ok tt, set_db (alter (set_attachmentPaths (text_affinity v)) mid
                             (db_rows w))
                          (db_seq w) w).

(** [json.loads(v)] on a column read back from the table. *)
Definition json_loads_col (v : sqlval) : M json :=
  match v with
  | SText s =>
      match json_loads E s with
      | Some j => ret j
      | None => raise JSONDecodeError
      end
  | _ => raise TypeError
  end.

(** ** The source's functions *)

Definition get_extension_from_content_type (content_type : json) : M string :=
  match content_type with
  | JStr s =>
      match guess_extension E s with
      | Some extension => ret (if String.eqb extension "" then "" else extension)
      | None => ret ""
      end
  | _ => raise AttributeError
  end.

(** The body of the [for] loop of [process_incoming_message] (lines
    178-202): one fetch request for one attachment. *)
Definition request_attachment (groupId : json) (message_id : Z)
    (attachment : json) : M unit :=
  attachment_id <- py_get attachment "id" JNull ;;
  t <- now_ms ;;
  let request_id := pretty t +:+ py_str attachment_id in
  let request :=
    JObj [("jsonrpc", JStr "2.0");
          ("method", JStr "getAttachment");
          ("params", JObj [("id", attachment_id); ("groupId", groupId)]);
          ("id", JStr request_id)] in
  when (debug_enabled E) (logger DEBUG (Sending_RPC_request request)) ;;;
  stdin_write request ;;;
  stdin_flush ;;;
  fun w => (Ok tt,
            set_pending (<[request_id :=
                             {| message_id := message_id;
                                attachment_id := attachment_id |}]>) w).

(** The body of the [try] of [process_incoming_message]. *)
Definition process_incoming_message_try (message : json) : M unit :=
  params <- py_get message "params" (JObj []) ;;
  envelope <- py_get params "envelope" (JObj []) ;;
  dataMessage <- py_get envelope "dataMessage" (JObj []) ;;
  if negb (truthy dataMessage) then ret tt else
  groupInfo <- py_get dataMessage "groupInfo" JNull ;;
  if negb (truthy groupInfo) then ret tt else
  message_text <- py_get dataMessage "message" JNull ;;
  attachments <- py_get dataMessage "attachments" (JArr []) ;;
  if negb (truthy message_text) && negb (truthy attachments) then ret tt else
  source <- py_get envelope "source" JNull ;;
  sourceName <- py_get envelope "sourceName" JNull ;;
  timestamp <- py_get envelope "timestamp" JNull ;;
  groupId <- py_get groupInfo "groupId" JNull ;;
  groupName <- py_get groupInfo "groupName" JNull ;;
  quote <- py_get dataMessage "quote" JNull ;;
  quote_fields <-
    (if truthy quote then
       quote_id <- py_get quote "id" JNull ;;
       quote_author <- py_get quote "author" JNull ;;
       quote_text <- py_get quote "text" JNull ;;
       ret (quote_id, quote_author, quote_text)
     else ret (JNull, JNull, JNull)) ;;
  let '(quote_id, quote_author, quote_text) := quote_fields in
  begun <- begin_transaction ;;
  message_id <- cursor_execute_insert
    source sourceName timestamp message_text groupId groupName
    (JStr (json_dumps E (JArr []))) (JStr "") JNull
    quote_id quote_author quote_text ;;
  conn_commit begun ;;;
  logger INFO (Saved_message source groupName message_id) ;;;
  attachment_list <- py_iter attachments ;;
  for_each attachment_list (request_attachment groupId message_id).

(** [except Exception as e: logger.exception(...)] *)
Definition process_incoming_message
    (message : json) (attachment_dir : string) (w : world) : world :=
  match process_incoming_message_try message w with
  | (Ok _, w') => w'
  | (Raise e, w') => set_log (log w' ++ [(ERROR, Error_processing_message e)]) w'
  end.

(** [request_id in pending_attachments]: the keys are strs, so only a str
    can be found; a list or a dict cannot be hashed. *)
Definition pending_contains (request_id : json) : M bool :=
  match request_id with
  | JArr _ | JObj _ => raise TypeError
  | JStr k => fun w => (Ok (bool_decide (is_Some (pending_attachments w !! k))), w)
  | _ => ret false
  end.

(** [pending_attachments.pop(request_id)] *)
Definition pending_pop (request_id : json) : M pending_info :=
  match request_id with
  | JArr _ | JObj _ => raise TypeError
  | JStr k =>
      fun w => match pending_attachments w !! k with
               | Some info => (Ok info, set_pending (delete k) w)
               | None => (Raise KeyError, w)
               end
  | _ => raise KeyError
  end.

(** Lines 226-230: the file name of a downloaded attachment. *)
Definition derive_file_name (attachment_id content_type : json) : M json :=
  has_dot <- py_in "." attachment_id ;;
  if has_dot then ret attachment_id
  else
    file_extension <- get_extension_from_content_type content_type ;;
    ret (JStr (py_str attachment_id +:+ file_extension)).

(** The body of the [try] of [process_attachment_response]. *)
Definition process_attachment_response_try
    (message request_id : json) (attachment_dir : string) : M unit :=
  known <- pending_contains request_id ;;
  if negb known then logger ERROR (Unknown_request_id request_id) else
  pending_info <- pending_pop request_id ;;
  let message_id := message_id pending_info in
  let attachment_id := attachment_id pending_info in
  result <- py_get message "result" JNull ;;
  if truthy result then
    attachment_data_base64 <- py_get result "data" JNull ;;
    content_type <-
      py_get result "contentType" (JStr "application/octet-stream") ;;
    if truthy attachment_data_base64 then
      attachment_data <- base64_b64decode attachment_data_base64 ;;
      file_name <- derive_file_name attachment_id content_type ;;
      file_path <- os_path_join attachment_dir file_name ;;
      write_file file_path attachment_data ;;;
      logger INFO (Downloaded_attachment attachment_id file_path) ;;;
      fetched <- cursor_select_attachmentPaths message_id ;;
      match fetched with
      | Some col =>
          attachmentPaths <-
            (if sql_truthy col then json_loads_col col else ret (JArr [])) ;;
          attachmentPaths <- py_append attachmentPaths (JStr file_path) ;;
          begun <- begin_transaction ;;
          cursor_execute_update (json_dumps E attachmentPaths) message_id ;;;
          conn_commit begun ;;;
          logger INFO (Updated_message message_id file_path)
      | None => logger ERROR (Message_id_not_found message_id)
      end
    else logger ERROR (No_data_in_response request_id)
  else logger ERROR (No_result_in_response attachment_id).

Definition process_attachment_response
    (message request_id : json) (attachment_dir : string) (w : world) : world :=
  match process_attachment_response_try message request_id attachment_dir w with
  | (Ok _, w') => w'
  | (Raise e, w') =>
      set_log (log w' ++ [(ERROR, Error_processing_attachment_response e)]) w'
  end.

(** ** The loop of [main] *)

(** What one [readline()] of the agent's stdout yields after [strip()]:
    nothing, a line on which [json.loads] raises JSONDecodeError, a line on
    which it raises [e], or a decoded value. The end of the list is end of
    file. *)
Inductive stdout_line : Type :=
| Blank
| Invalid (line : string)
| Refused (line : string) (e : exn)
| Decoded (message : json).

(** How the loop ends: at end of file, or by an exception nothing catches. *)
Inductive loop_exit : Type :=
| EOF
| Uncaught (e : exn).

(** One pass of the [while] body over a decoded value. *)
Definition dispatch (message : json) (attachment_dir : string) : M unit :=
  when (debug_enabled E) (logger DEBUG (Received_message message)) ;;;
  method <- py_get message "method" JNull ;;
  if py_eq_str method "receive" then
    fun w => (Ok tt, process_incoming_message message attachment_dir w)
  else
    has_id <- py_in "id" message ;;
    if has_id then
      request_id <- py_get message "id" JNull ;;
      fun w => (Ok tt, process_attachment_response message request_id
                         attachment_dir w)
    else logger WARNING (Unknown_message_type message).

Fixpoint main_loop (lines : list stdout_line) (attachment_dir : string)
    (w : world) : loop_exit * world :=
  match lines with
  | [] => (EOF, w)
  | Blank :: rest => main_loop rest attachment_dir w
  | Invalid line :: rest =>
      main_loop rest attachment_dir
        (set_log (log w ++ [(ERROR, Failed_to_parse_JSON line)]) w)
  | Refused line e :: rest =>
      (* [except json.JSONDecodeError] catches nothing else *)
      match e with
      | JSONDecodeError =>
          main_loop rest attachment_dir
            (set_log (log w ++ [(ERROR, Failed_to_parse_JSON line)]) w)
      | _ => (Uncaught e, w)
      end
  | Decoded message :: rest =>
      match dispatch message attachment_dir w with
      | (Ok _, w') => main_loop rest attachment_dir w'
      | (Raise e, w') => (Uncaught e, w')
      end
  end.

End Engine.

(** ** What a notification carries *)

(** The value found at key [k] of [d]; [None] (JSON null) when [d] is not a
    dict or lacks the key. Used to state what a frame carries. *)
Definition jget (d : json) (k : string) : json :=
  match d with
  | JObj items => default JNull (dict_get items k)
  | _ => JNull
  end.

Definition is_obj (v : json) : Prop := exists items, v = JObj items.

Definition envelope_of (message : json) : json :=
  jget (jget message "params") "envelope".

Definition dataMessage_of (message : json) : json :=
  jget (envelope_of message) "dataMessage".

Definition groupInfo_of (message : json) : json :=
  jget (dataMessage_of message) "groupInfo".

Definition quote_of (message : json) : json :=
  jget (dataMessage_of message) "quote".

(** The frame written for one attachment (lines 181-189). *)
Definition getAttachment_frame (request_id : string) (att group : json) : json :=
  JObj [("jsonrpc", JStr "2.0");
        ("method", JStr "getAttachment");
        ("params", JObj [("id", att); ("groupId", group)]);
        ("id", JStr request_id)].

(** The attachment list the ingestor iterates: [dataMessage.get('attachments', [])]. *)
Definition attachments_of (message : json) : json :=
  match dataMessage_of message with
  | JObj items => default (JArr []) (dict_get items "attachments")
  | _ => JArr []
  end.

(** A value the [sqlite3] module can bind, and the value it binds. *)
Definition bindable (v : json) : Prop := exists s, sqlite_bind v = inr s.

Definition bound (v : json) : sqlval :=
  match sqlite_bind v with
  | inr s => s
  | inl _ => SNull
  end.

(** A notification the ingestor persists: it carries a dataMessage with a
    group descriptor (a dict), text or attachments, a quote block that is a
    dict when there is one, and field values SQLite can store. *)
Definition group_message (message : json) : Prop :=
  truthy (groupInfo_of message) = true /\
  is_obj (groupInfo_of message) /\
  truthy (jget (dataMessage_of message) "message")
    || truthy (jget (dataMessage_of message) "attachments") = true /\
  (truthy (quote_of message) = true -> is_obj (quote_of message)) /\
  Forall bindable
    [jget (envelope_of message) "source";
     jget (envelope_of message) "sourceName";
     jget (envelope_of message) "timestamp";
     jget (dataMessage_of message) "message";
     jget (groupInfo_of message) "groupId";
     jget (groupInfo_of message) "groupName";
     jget (quote_of message) "id";
     jget (quote_of message) "author";
     jget (quote_of message) "text"].

(** The record whose fields are the values the notification carries, each
    as its column stores it: [timestamp] and [quoteId] are INTEGER columns,
    the others TEXT. *)
Definition message_record (E : Env) (message : json) : row :=
  {| source := text_affinity E (bound (jget (envelope_of message) "source"));
     sourceName := text_affinity E (bound (jget (envelope_of message) "sourceName"));
     timestamp := integer_affinity E (bound (jget (envelope_of message) "timestamp"));
     message := text_affinity E (bound (jget (dataMessage_of message) "message"));
     groupId := text_affinity E (bound (jget (groupInfo_of message) "groupId"));
     groupName := text_affinity E (bound (jget (groupInfo_of message) "groupName"));
     attachmentPaths := SText (json_dumps E (JArr []));
     attachmentDescriptions := SText "";
     processedAt := SNull;
     quoteId := integer_affinity E (bound (jget (quote_of message) "id"));
     quoteAuthor := text_affinity E (bound (jget (quote_of message) "author"));
     quoteText := text_affinity E (bound (jget (quote_of message) "text")) |}.

(** The requests for the attachments [atts], the first one made at clock
    reading [n]: request identifier and attachment identifier. *)
Fixpoint issued (E : Env) (n : nat) (atts : list json) : list (string * json) :=
  match atts with
  | [] => []
  | a :: rest =>
      (pretty (time_ms E n) +:+ py_str E (jget a "id"), jget a "id")
      :: issued E (S n) rest
  end.

(** [pending_attachments[request_id] = {...}] *)
Definition register (mid : Z) (p : gmap string pending_info)
    (r : string * json) : gmap string pending_info :=
  <[fst r := {| message_id := mid; attachment_id := snd r |}]> p.

(** No database, file or pipe operation fails from the [n]-th on. *)
Definition no_fault_from (E : Env) (n : nat) : Prop :=
  forall k, (n <= k)%nat -> io_fault E k = false.

(** Whether [request_id] is a key of the correlation table. *)
Definition outstanding (w : world) (request_id : json) : Prop :=
  match request_id with
  | JStr k => is_Some (pending_attachments w !! k)
  | _ => False
  end.

(** Lists and dicts cannot be dict keys. *)
Definition hashable (v : json) : bool :=
  match v with
  | JArr _ | JObj _ => false
  | _ => true
  end.

(** ** Relating the state before and after a computation *)

(** [keeps R m]: running [m] relates the state before to the state after by
    [R], whether [m] returns or raises. *)
Definition keeps {A} (R : relation world) (m : M A) : Prop :=
  forall w, R w (snd (m w)).

(** The part [f] of the state is left as it was. *)
Definition same {X} (f : world -> X) : relation world :=
  fun w w' => f w' = f w.

(** ** Frame classification *)

Inductive frame_kind : Type := Notification | Response | Unrecognized.

(** The Frame Decoder rule in the specification's words: a frame with a
    [method] is a notification, one without [method] but with [id] is a
    response, anything else is unrecognized. *)
Definition classify (items : list (string * json)) : frame_kind :=
  if dict_has items "method" then Notification
  else if dict_has items "id" then Response
  else Unrecognized.

(** The rule lines 112-120 apply: only the method [receive] makes a
    notification; any other frame with an [id] counts as a response. *)
Definition route (items : list (string * json)) : frame_kind :=
  if py_eq_str (default JNull (dict_get items "method")) "receive" then Notification
  else if dict_has items "id" then Response
  else Unrecognized.

(** What the loop does with a frame of each kind. *)
Definition handle (E : Env) (kind : frame_kind) (message : json)
    (attachment_dir : string) : M unit :=
  match kind with
  | Notification =>
      fun w => (Ok tt, process_incoming_message E message attachment_dir w)
  | Response =>
      fun w => (Ok tt, process_attachment_response E message (jget message "id")
                         attachment_dir w)
  | Unrecognized => logger WARNING (Unknown_message_type message)
  end.

(** The loop treats every frame as the kind [rule] gives it. *)
Definition dispatches_by (rule : list (string * json) -> frame_kind)
    (E : Env) (attachment_dir : string) : Prop :=
  forall items w,
    dispatch E (JObj items) attachment_dir w =
    (when (debug_enabled E) (logger DEBUG (Received_message (JObj items))) ;;;
     handle E (rule items) (JObj items) attachment_dir) w.

(** A line the loop can dispatch: blank, rejected by the decoder with a
    JSONDecodeError, or decoded to a dict. *)
Definition is_frame (l : stdout_line) : Prop :=
  match l with
  | Decoded m => is_obj m
  | Refused _ e => e = JSONDecodeError
  | Blank | Invalid _ => True
  end.

(** ** Attachment paths of a record *)

(** The paths the log reports as added to the record [mid], oldest first. *)
Fixpoint updated_paths (mid : Z) (l : list (level * log_msg)) : list string :=
  match l with
  | [] => []
  | (_, Updated_message m p) :: rest =>
      if Z.eqb m mid then p :: updated_paths mid rest
      else updated_paths mid rest
  | _ :: rest => updated_paths mid rest
  end.

(** The record [mid] exists and its attachment-path column holds the
    serialized list [paths]. *)
Definition has_paths (E : Env) (w : world) (mid : Z) (paths : list string) : Prop :=
  exists r, db_rows w !! mid = Some r /\
            attachmentPaths r = SText (json_dumps E (JArr (JStr <$> paths))).

(** What the engine needs of [json.dumps] and [json.loads]: a list of strs
    is read back as written, and its text is never empty. *)
Definition codec_roundtrip (E : Env) : Prop :=
  forall paths : list string,
    json_loads E (json_dumps E (JArr (JStr <$> paths))) = Some (JArr (JStr <$> paths)) /\
    json_dumps E (JArr (JStr <$> paths)) <> "".

(** From [w] to [w'] the log only grew, and the path list of the record
    [mid] grew by exactly the paths the new log records report for it. *)
Definition grows (E : Env) (mid : Z) : relation world :=
  fun w w' =>
    exists new, log w' = (log w ++ new)%list /\
      forall paths, has_paths E w mid paths ->
                    has_paths E w' mid (paths ++ updated_paths mid new).

(** ** A concrete machine for the examples *)

Module Sample.

(** [str.lower()] on ASCII letters. *)
Definition lower_ascii (c : ascii) : ascii :=
  let n := N_of_ascii c in
  if (65 <=? n)%N && (n <=? 90)%N then ascii_of_N (n + 32) else c.

Fixpoint lower (s : string) : string :=
  match s with
  | EmptyString => EmptyString
  | String c rest => String (lower_ascii c) (lower rest)
  end.

(** A few rows of the table behind [mimetypes.guess_extension], which
    looks the lower-cased type up. *)
Definition mime_table (content_type : string) : option string :=
  let type := lower content_type in
  if String.eqb type "image/png" then Some ".png"
  else if String.eqb type "image/jpeg" then Some ".jpg"
  else if String.eqb type "text/plain" then Some ".txt"
  else if String.eqb type "application/octet-stream" then Some ".bin"
  else None.

(** The value of a character of the base64 alphabet. *)
Definition b64_digit (c : ascii) : option N :=
  let n := N_of_ascii c in
  if (65 <=? n)%N && (n <=? 90)%N then Some (n - 65)%N
  else if (97 <=? n)%N && (n <=? 122)%N then Some (n - 71)%N
  else if (48 <=? n)%N && (n <=? 57)%N then Some (n + 4)%N
  else if (n =? 43)%N then Some 62%N
  else if (n =? 47)%N then Some 63%N
  else None.

Definition byte_of (n : N) : Byte.byte :=
  default Byte.x00 (Byte.of_N (n mod 256)%N).

(** [binascii.a2b_base64] without [strict_mode], from position [quad_pos]
    of a group of four with the bits [leftchar] left over and [pads]
    padding characters seen since the last digit: a character outside the
    alphabet is skipped, the padding that completes a group ends the data
    whatever follows it, and digits that do not fill a group raise. *)
Fixpoint a2b_base64 (l : list ascii) (quad_pos : nat) (leftchar : N) (pads : nat)
    : option (list Byte.byte) :=
  match l with
  | [] => match quad_pos with O => Some [] | _ => None end
  | c :: rest =>
      if Ascii.eqb c "="%char then
        if (2 <=? quad_pos)%nat then
          if (4 <=? quad_pos + S pads)%nat then Some []
          else a2b_base64 rest quad_pos leftchar (S pads)
        else a2b_base64 rest quad_pos leftchar pads
      else
        match b64_digit c with
        | None => a2b_base64 rest quad_pos leftchar pads
        | Some d =>
            match quad_pos with
            | 0%nat => a2b_base64 rest 1 d 0
            | 1%nat =>
                cons (byte_of (leftchar * 4 + d / 16))
                  <$> a2b_base64 rest 2 (d mod 16)%N 0
            | 2%nat =>
                cons (byte_of (leftchar * 16 + d / 4))
                  <$> a2b_base64 rest 3 (d mod 4)%N 0
            | _ =>
                cons (byte_of (leftchar * 64 + d)) <$> a2b_base64 rest 0 0%N 0
            end
        end
  end.

(** [base64.b64decode(s)] on a str, without [validate]: the str is encoded
    as ASCII, which raises when it has another character, and handed to
    [binascii.a2b_base64]. *)
Definition base64_decode (s : string) : option (list Byte.byte) :=
  let l := list_ascii_of_string s in
  if forallb (fun c => (N_of_ascii c <? 128)%N) l then a2b_base64 l 0 0%N 0
  else None.

(** JSON text of a list of strs, as [json.dumps] writes it for printable
    ASCII: items separated by a comma and a space, quotes and backslashes
    escaped. *)
Definition dquote : ascii := ascii_of_nat 34.
Definition backslash : ascii := ascii_of_nat 92.

Fixpoint escape (s : string) : string :=
  match s with
  | EmptyString => EmptyString
  | String c rest =>
      if Ascii.eqb c dquote || Ascii.eqb c backslash
      then String backslash (String c (escape rest))
      else String c (escape rest)
  end.

Definition dumps_str (s : string) : string :=
  String dquote (escape s +:+ String dquote EmptyString).

Fixpoint dumps_items (l : list string) : string :=
  match l with
  | [] => EmptyString
  | [x] => dumps_str x
  | x :: rest => dumps_str x +:+ ", " +:+ dumps_items rest
  end.

(** The strs of a list of strs; [None] when some element is not a str. *)
Fixpoint strs_of (l : list json) : option (list string) :=
  match l with
  | [] => Some []
  | JStr s :: rest => cons s <$> strs_of rest
  | _ :: _ => None
  end.

(** [json.dumps] on the values the engine hands it for the table; other
    values do not reach the examples and print as null. *)
Definition dumps (v : json) : string :=
  match v with
  | JArr l =>
      match strs_of l with
      | Some ss => "[" +:+ dumps_items ss +:+ "]"
      | None => "null"
      end
  | _ => "null"
  end.

(** After an opening quote: the str up to the closing quote, and the text
    that follows it. *)
Fixpoint read_str (s : string) : option (string * string) :=
  match s with
  | EmptyString => None
  | String c rest =>
      if Ascii.eqb c dquote then Some (EmptyString, rest)
      else if Ascii.eqb c backslash then
        match rest with
        | String c' rest' =>
            if Ascii.eqb c' dquote || Ascii.eqb c' backslash then
              match read_str rest' with
              | Some (x, tl) => Some (String c' x, tl)
              | None => None
              end
            else None
        | EmptyString => None
        end
      else
        match read_str rest with
        | Some (x, tl) => Some (String c x, tl)
        | None => None
        end
  end.

(** After the opening bracket of a non-empty list: its strs. *)
Fixpoint read_items (fuel : nat) (s : string) : option (list string) :=
  match fuel with
  | O => None
  | S fuel' =>
      match s with
      | String q body =>
          if Ascii.eqb q dquote then
            match read_str body with
            | Some (x, tl) =>
                if String.eqb tl "]" then Some [x]
                else
                  match tl with
                  | String c1 (String c2 tl') =>
                      if Ascii.eqb c1 ","%char && Ascii.eqb c2 " "%char
                      then cons x <$> read_items fuel' tl'
                      else None
                  | _ => None
                  end
            | None => None
            end
          else None
      | EmptyString => None
      end
  end.

(** [json.loads] on the texts [dumps] writes; other texts are
    rejected. *)
Definition loads (s : string) : option json :=
  if String.eqb s "[]" then Some (JArr [])
  else
    match s with
    | String c body =>
        if Ascii.eqb c "["%char
        then (fun ss => JArr (JStr <$> ss)) <$> read_items (String.length body) body
        else None
    | EmptyString => None
    end.

(** A machine whose clock advances one millisecond per reading and whose
    database, disk and pipe never fail. The examples apply [str] to strs
    only, store only strs in TEXT columns and only ints in INTEGER columns,
    so [py_repr], [real_to_text] and [text_to_numeric] are left
    placeholders. *)
Definition env : Env :=
  {| time_ms := fun n => 1700000000000 + Z.of_nat n;
     io_fault := fun _ => false;
     guess_extension := mime_table;
     b64decode := base64_decode;
     json_dumps := dumps;
     json_loads := loads;
     py_repr := fun _ => "?";
     real_to_text := fun _ => "?";
     text_to_numeric := SText;
     debug_enabled := false |}.

(** The same machine with a clock too coarse to tell two readings apart. *)
Definition env_same_ms : Env :=
  {| time_ms := fun _ => 1700000000000;
     io_fault := fun _ => false;
     guess_extension := mime_table;
     b64decode := base64_decode;
     json_dumps := dumps;
     json_loads := loads;
     py_repr := fun _ => "?";
     real_to_text := fun _ => "?";
     text_to_numeric := SText;
     debug_enabled := false |}.

(** The state [main] enters the loop with on a new database. *)
Definition start : world :=
  {| pending_attachments := ∅; db_rows := ∅; db_seq := 0; files := ∅;
     agent_stdin := []; log := []; clock_reads := 0; io_ops := 0 |}.

(** The end-to-end scenario: a group message with one attachment. *)
Definition hello : json :=
  JObj [("jsonrpc", JStr "2.0"); ("method", JStr "receive");
        ("params", JObj [("envelope", JObj [
           ("source", JStr "+15550100"); ("sourceName", JStr "Ann");
           ("timestamp", JInt 1700000000123);
           ("dataMessage", JObj [
              ("message", JStr "hello");
              ("attachments", JArr [JObj [("id", JStr "a1")]]);
              ("groupInfo", JObj [("groupId", JStr "G1");
                                  ("groupName", JStr "Team")])])])])].

Definition hello_response : json :=
  JObj [("jsonrpc", JStr "2.0");
        ("result", JObj [("data", JStr "WA=="); ("contentType", JStr "text/plain")]);
        ("id", JStr "1700000000000a1")].

(** A machine whose database fails on the first and on the eighth
    operation of the run. *)
Definition env_store_fails : Env :=
  {| time_ms := fun n => 1700000000000 + Z.of_nat n;
     io_fault := fun n => Nat.eqb n 0 || Nat.eqb n 7;
     guess_extension := mime_table;
     b64decode := base64_decode;
     json_dumps := dumps;
     json_loads := loads;
     py_repr := fun _ => "?";
     real_to_text := fun _ => "?";
     text_to_numeric := SText;
     debug_enabled := false |}.


(** A frame with a method other than [receive] and an id. *)
Definition ping : list (string * json) :=
  [("jsonrpc", JStr "2.0"); ("method", JStr "ping");
   ("id", JStr "1700000000000a1")].

(** A group message naming the attachment [a1] twice. *)
Definition twice : json :=
  JObj [("jsonrpc", JStr "2.0"); ("method", JStr "receive");
        ("params", JObj [("envelope", JObj [
           ("source", JStr "+15550100"); ("sourceName", JStr "Ann");
           ("timestamp", JInt 1700000000123);
           ("dataMessage", JObj [
              ("message", JStr "two copies");
              ("attachments", JArr [JObj [("id", JStr "a1")];
                                    JObj [("id", JStr "a1")]]);
              ("groupInfo", JObj [("groupId", JStr "G1");
                                  ("groupName", JStr "Team")])])])])].

(** A group message with the attachments [a1] and [a1.txt]. *)
Definition two_names : json :=
  JObj [("jsonrpc", JStr "2.0"); ("method", JStr "receive");
        ("params", JObj [("envelope", JObj [
           ("source", JStr "+15550100"); ("sourceName", JStr "Ann");
           ("timestamp", JInt 1700000000123);
           ("dataMessage", JObj [
              ("message", JStr "notes");
              ("attachments", JArr [JObj [("id", JStr "a1")];
                                    JObj [("id", JStr "a1.txt")]]);
              ("groupInfo", JObj [("groupId", JStr "G1");
                                  ("groupName", JStr "Team")])])])])].

(** A response carrying [data] as text/plain. *)
Definition response (request_id data : string) : json :=
  JObj [("jsonrpc", JStr "2.0");
        ("result", JObj [("data", JStr data); ("contentType", JStr "text/plain")]);
        ("id", JStr request_id)].

(** A delivery receipt: an envelope without a dataMessage. *)
Definition receipt : json :=
  JObj [("jsonrpc", JStr "2.0"); ("method", JStr "receive");
        ("params", JObj [("envelope", JObj [
           ("source", JStr "+15550100"); ("sourceName", JStr "Ann");
           ("timestamp", JInt 1700000000456);
           ("receiptMessage", JObj [("isDelivery", JBool true)])])])].

(** The state after [hello]: one record, one outstanding request. *)
Definition awaiting : world :=
  process_incoming_message env hello "attachments" start.

End Sample.


(** ** What a run never does *)

(** A row with its attachment-path column blanked: the columns the
    resolver has no statement for. *)
Definition without_paths (r : row) : row := set_attachmentPaths SNull r.

(** Every record of [w] is still there in [w'], the same in every column
    but the attachment paths. *)
Definition records_kept : relation world :=
  fun w w' =>
    forall k r, db_rows w !! k = Some r ->
      exists r', db_rows w' !! k = Some r' /\ without_paths r' = without_paths r.

(** A relation a transaction keeps whether it is committed or rolled back:
    it holds across the commit, and from a state reached from [w] back to
    the table of [w]. *)
Definition transactional (R : relation world) : Prop :=
  (forall w, R w (tick_io w)) /\
  (forall w w1, R w w1 -> R w (set_db (db_rows w) (db_seq w) (tick_io w1))).

(** A frame of the shape of lines 181-189. *)
Definition is_request (frame : json) : Prop :=
  exists request_id att group, frame = getAttachment_frame request_id att group.

(** What was written to the agent since [w] is a run of getAttachment
    requests. *)
Definition requests_only : relation world :=
  fun w w' =>
    exists new, agent_stdin w' = (agent_stdin w ++ new)%list /\ Forall is_request new.

(** The log of [w] is the beginning of the log of [w']. *)
Definition log_extends : relation world :=
  fun w w' => log w `prefix_of` log w'.

(** Every file of [w] still exists in [w']. *)
Definition files_kept : relation world :=
  fun w w' => dom (files w) ⊆ dom (files w').

(** The table of [w'] is the table of [w], or that table with one row
    added under the next rowid. *)
Definition one_more : relation world :=
  fun w w' =>
    db_rows w' = db_rows w \/
    exists r, db_rows w' = <[next_rowid w := r]> (db_rows w).

(** Every outstanding request of [w] is in [w'] as it was, or its entry
    holds a request of the record [mid]. *)
Definition kept_or_taken (mid : Z) : relation world :=
  fun w w' =>
    forall k info,
      pending_attachments w !! k = Some info ->
      pending_attachments w' !! k = Some info \/
      exists a, pending_attachments w' !! k
                = Some {| message_id := mid; attachment_id := a |}.

(** No request of [w'] is new: the table of [w'] is a part of that of [w]. *)
Definition pending_shrinks : relation world :=
  fun w w' => pending_attachments w' ⊆ pending_attachments w.

(** A value a [for] loop cannot iterate. *)
Definition not_iterable (v : json) : Prop :=
  match v with
  | JNull | JBool _ | JInt _ | JFloat _ => True
  | _ => False
  end.

(** The notification passes the three gates of lines 134-145 and its group
    descriptor and quote block are dicts where the code reads them. *)
Definition passes_gates (message : json) : Prop :=
  truthy (groupInfo_of message) = true /\
  is_obj (groupInfo_of message) /\
  truthy (jget (dataMessage_of message) "message")
    || truthy (jget (dataMessage_of message) "attachments") = true /\
  (truthy (quote_of message) = true -> is_obj (quote_of message)).

(** The values bound to the INSERT that come from the notification. *)
Definition bound_fields (message : json) : list json :=
  [jget (envelope_of message) "source";
   jget (envelope_of message) "sourceName";
   jget (envelope_of message) "timestamp";
   jget (dataMessage_of message) "message";
   jget (groupInfo_of message) "groupId";
   jget (groupInfo_of message) "groupName";
   jget (quote_of message) "id";
   jget (quote_of message) "author";
   jget (quote_of message) "text"].


(** A scalar that is not a str: [in] cannot search it. *)
Definition scalar_not_str (v : json) : Prop := not_iterable v.

(** The table of [w'] has the rowids of the table of [w]. *)
Definition same_rowids : relation world :=
  fun w w' => dom (db_rows w') = dom (db_rows w).

(** The response [message] carries payload data for the pending request
    [info]: the attachment identifier is the str [a], the data decodes to
    [bytes], and the file name derives to [name]. *)
Definition payload_for (E : Env) (message : json) (info : pending_info)
    (a : string) (bytes : list Byte.byte) (name : string) : Prop :=
  attachment_id info = JStr a /\
  exists ritems d,
    jget message "result" = JObj ritems /\
    jget (JObj ritems) "data" = JStr d /\ d <> "" /\
    b64decode E d = Some bytes /\
    forall w0, derive_file_name E (JStr a)
      (default (JStr "application/octet-stream") (dict_get ritems "contentType")) w0
      = (Ok (JStr name), w0).

(** A rowid SQLite can hold. *)
Definition rowid_in_range (mid : Z) : Prop := - 2 ^ 63 <= mid < 2 ^ 63.

(** [base64.b64decode] accepts [v]: a str that decodes. *)
Definition decodes (E : Env) (v : json) : Prop :=
  exists d bytes, v = JStr d /\ b64decode E d = Some bytes.


(** ** Startup and shutdown of [main] *)

(** [main] from the call of [load_config] on (lines 48-128): the arguments
    are parsed and the logging is set up before. A [KeyboardInterrupt]
    arrives from outside the program and is not modelled. *)

(** The log records written outside the loop. *)
Inductive startup_msg : Type :=
| Config_file_not_found (config_file : string)
| Invalid_JSON_in_config_file (config_file : string)
| Phone_number_not_specified
| Starting_signal_cli_subprocess.

(** What [open(config_file, 'r')] and reading the file give. *)
Inductive config_read : Type :=
| NoSuchFile                  (* FileNotFoundError *)
| ReadFails (e : exn)         (* any other exception *)
| Text (text : string).

(** What [main] does to the machine outside the loop. *)
Inductive action : Type :=
| MakeDirs (path : string)        (* os.makedirs(attachment_dir, exist_ok=True) *)
| Connect (database : string)     (* sqlite3.connect(db_path) *)
| CreateTable                     (* CREATE TABLE IF NOT EXISTS messages *)
| CommitSchema                    (* conn.commit() *)
| Popen (phone_number : string)   (* signal-cli -a phone_number jsonRpc *)
| Terminate                       (* signal_cli_process.terminate() *)
| Wait                            (* signal_cli_process.wait() *)
| Close.                          (* conn.close() *)

(** How [main] ends: it returns, [exit(code)] is called, or an exception
    leaves it. *)
Inductive main_exit : Type :=
| Returned
| SystemExit (code : Z)
| Propagated (e : exn).

Record boot : Type := {
  boot_log : list (level * startup_msg);
  boot_actions : list action;      (* oldest first *)
  boot_ops : nat                   (* database, file and process operations so far *)
}.

Definition B (A : Type) : Type := boot -> (main_exit + A) * boot.

Definition bret {A} (a : A) : B A := fun b => (inr a, b).
Definition bstop {A} (x : main_exit) : B A := fun b => (inl x, b).
Definition bbind {A C} (m : B A) (k : A -> B C) : B C :=
  fun b => match m b with
           | (inr a, b') => k a b'
           | (inl x, b') => (inl x, b')
           end.

Declare Scope boot_scope.
Delimit Scope boot_scope with boot.
Notation "x <-- m ;; k" := (bbind m (fun x => k))
  (at level 100, m at next level, right associativity) : boot_scope.
Notation "m ;;;; k" := (bbind m (fun _ => k))
  (at level 100, right associativity) : boot_scope.

Definition blog (lvl : level) (msg : startup_msg) : B unit :=
  fun b => (inr tt, {| boot_log := boot_log b ++ [(lvl, msg)];
                       boot_actions := boot_actions b;
                       boot_ops := boot_ops b |}).

(** One operation on the machine: it raises [e] when the machine makes it
    fail, and is done otherwise. *)
Definition attempt (E : Env) (e : exn) (a : action) : B unit :=
  fun b =>
    if io_fault E (boot_ops b)
    then (inl (Propagated e),
          {| boot_log := boot_log b; boot_actions := boot_actions b;
             boot_ops := S (boot_ops b) |})
    else (inr tt,
          {| boot_log := boot_log b; boot_actions := boot_actions b ++ [a];
             boot_ops := S (boot_ops b) |}).

(** An operation that takes a path or a program argument: a value that is
    not a str is a [TypeError]. *)
Definition attempt_str (E : Env) (e : exn) (a : string -> action) (v : json)
    : B string :=
  match v with
  | JStr s => bbind (attempt E e (a s)) (fun _ => bret s)
  | _ => bstop (Propagated TypeError)
  end.

Definition load_config (E : Env) (config_file : string) (disk : config_read)
    : B json :=
  match disk with
  | NoSuchFile =>
      bbind (blog ERROR (Config_file_not_found config_file))
            (fun _ => bstop (SystemExit 1))
  | ReadFails e => bstop (Propagated e)
  | Text text =>
      match json_loads E text with
      | Some config => bret config
      | None =>
          bbind (blog ERROR (Invalid_JSON_in_config_file config_file))
                (fun _ => bstop (SystemExit 1))
      end
  end.

(** [config.get(k, default)] *)
Definition config_get (config : json) (k : string) (default : json) : B json :=
  match config with
  | JObj items =>
      match dict_get items k with
      | Some v => bret v
      | None => bret default
      end
  | _ => bstop (Propagated AttributeError)
  end.

(** The state the loop starts in: no pending request, the table and the
    files as they are on the machine. *)
Definition loop_start (table : gmap Z row) (seq : Z)
    (disk_files : gmap string (list Byte.byte)) (ops : nat) : world :=
  {| pending_attachments := ∅; db_rows := table; db_seq := seq;
     files := disk_files; agent_stdin := []; log := [];
     clock_reads := 0; io_ops := ops |}.

(** The [finally] block: [returncode] is still [None], since nothing polled
    the process, so it is terminated and waited for; then the connection
    is closed. *)
Definition finally_block (E : Env) : B unit :=
  bbind (attempt E OSError Terminate) (fun _ =>
  bbind (attempt E OSError Wait) (fun _ =>
  attempt E Sqlite3Error Close)).

Record main_run : Type := {
  main_ended : main_exit;
  main_boot : boot;
  main_loop_state : option world   (* the state the loop left, if it ran *)
}.

Local Open Scope boot_scope.

(** Lines 48-93: everything before the loop. It gives the attachment
    directory. *)
Definition main_startup (E : Env) (config_file : string) (disk : config_read)
    : B string :=
  config <-- load_config E config_file disk ;;
  attachment_dir <-- config_get config "attachmentDirectory" (JStr "attachments") ;;
  db_path <-- config_get config "database" (JStr "messages.db") ;;
  phone_number <-- config_get config "phoneNumber" JNull ;;
  if negb (truthy phone_number) then
    blog ERROR Phone_number_not_specified ;;;;
    bstop (SystemExit 1)
  else
    attachment_dir <-- attempt_str E OSError MakeDirs attachment_dir ;;
    _ <-- attempt_str E Sqlite3Error Connect db_path ;;
    attempt E Sqlite3Error CreateTable ;;;;
    attempt E Sqlite3Error CommitSchema ;;;;
    blog INFO Starting_signal_cli_subprocess ;;;;
    _ <-- attempt_str E OSError Popen phone_number ;;
    bret attachment_dir.

Definition main (E : Env) (config_file : string) (disk : config_read)
    (table : gmap Z row) (seq : Z) (disk_files : gmap string (list Byte.byte))
    (lines : list stdout_line) : main_run :=
  match main_startup E config_file disk
          {| boot_log := []; boot_actions := []; boot_ops := 0 |} with
  | (inl x, b) => {| main_ended := x; main_boot := b; main_loop_state := None |}
  | (inr attachment_dir, b) =>
      let (ended, w) :=
        main_loop E lines attachment_dir
          (loop_start table seq disk_files (boot_ops b)) in
      let (cleanup, b') :=
        finally_block E {| boot_log := boot_log b;
                           boot_actions := boot_actions b;
                           boot_ops := io_ops w |} in
      {| main_ended :=
           match cleanup, ended with
           | inl x, _ => x
           | inr _, EOF => Returned
           | inr _, Uncaught e => Propagated e
           end;
         main_boot := b';
         main_loop_state := Some w |}
  end.

Local Close Scope boot_scope.


(** ** Further example inputs *)

Module Cases.

(** A notification shaped like [Sample.hello], with the given timestamp,
    text and value under [attachments]. *)
Definition notification (stamp text attachments : json) : json :=
  JObj [("jsonrpc", JStr "2.0"); ("method", JStr "receive");
        ("params", JObj [("envelope", JObj [
           ("source", JStr "+15550100"); ("sourceName", JStr "Ann");
           ("timestamp", stamp);
           ("dataMessage", JObj [
              ("message", text);
              ("attachments", attachments);
              ("groupInfo", JObj [("groupId", JStr "G1");
                                  ("groupName", JStr "Team")])])])])].

(** A timestamp one past the largest 64-bit integer. *)
Definition overflowing : json :=
  notification (JInt 9223372036854775808) (JStr "late") (JArr []).

(** [attachments] is present and null. *)
Definition null_attachments : json :=
  notification (JInt 1700000000123) (JStr "hi") JNull.

(** The second element of the attachment list is a str, not a dict. *)
Definition broken_list : json :=
  notification (JInt 1700000000123) (JStr "three")
    (JArr [JObj [("id", JStr "a1")]; JStr "a2"; JObj [("id", JStr "a3")]]).

(** An attachment without an [id]. *)
Definition nameless : json :=
  notification (JInt 1700000000123) (JStr "unnamed")
    (JArr [JObj [("contentType", JStr "image/png")]]).

(** An attachment whose identifier is an absolute path. *)
Definition absolute : json :=
  notification (JInt 1700000000123) (JStr "elsewhere")
    (JArr [JObj [("id", JStr "/tmp/x")]]).

(** [Sample.awaiting] after another program deleted the record. *)
Definition orphaned : world :=
  set_db ∅ (db_seq Sample.awaiting) Sample.awaiting.

(** [Sample.awaiting] with the attachment-path column of the record NULL. *)
Definition null_column : world :=
  set_db (alter (set_attachmentPaths SNull) 1 (db_rows Sample.awaiting))
         (db_seq Sample.awaiting) Sample.awaiting.

(** The states after [nameless] and after [absolute]. *)
Definition awaiting_nameless : world :=
  process_incoming_message Sample.env nameless "attachments" Sample.start.

Definition awaiting_absolute : world :=
  process_incoming_message Sample.env absolute "attachments" Sample.start.

(** The machine of [Sample.env], on which the third operation after
    [Sample.awaiting], the SELECT of the resolver, fails. *)
Definition env_select_fails : Env :=
  {| time_ms := fun n => 1700000000000 + Z.of_nat n;
     io_fault := fun n => Nat.eqb n (S (S (io_ops Sample.awaiting)));
     guess_extension := Sample.mime_table;
     b64decode := Sample.base64_decode;
     json_dumps := Sample.dumps;
     json_loads := Sample.loads;
     py_repr := fun _ => "?";
     real_to_text := fun _ => "?";
     text_to_numeric := SText;
     debug_enabled := false |}.

(** Three configuration files: an empty object, one that gives the phone
    number as a str, and one that gives it as a number. *)
Definition config_empty : string := "{}".

Definition config_str : string :=
  "{" +:+ Sample.dumps_str "phoneNumber" +:+ ": "
      +:+ Sample.dumps_str "+15550100" +:+ "}".

Definition config_number : string :=
  "{" +:+ Sample.dumps_str "phoneNumber" +:+ ": 15550100}".

(** [json.loads] on these three texts and on the texts [Sample.loads]
    reads. *)
Definition loads (s : string) : option json :=
  if String.eqb s config_empty then Some (JObj [])
  else if String.eqb s config_str then Some (JObj [("phoneNumber", JStr "+15550100")])
  else if String.eqb s config_number then Some (JObj [("phoneNumber", JInt 15550100)])
  else Sample.loads s.

Definition env : Env :=
  {| time_ms := fun n => 1700000000000 + Z.of_nat n;
     io_fault := fun _ => false;
     guess_extension := Sample.mime_table;
     b64decode := Sample.base64_decode;
     json_dumps := Sample.dumps;
     json_loads := loads;
     py_repr := fun _ => "?";
     real_to_text := fun _ => "?";
     text_to_numeric := SText;
     debug_enabled := false |}.

End Cases.

(** * Proofs *)

(** ** Reasoning about computations *)

Global Instance same_preorder {X} (f : world -> X) : PreOrder (same f).
Proof.
  split; [intros w; reflexivity|].
  intros w1 w2 w3 H1 H2. unfold same in *. congruence.
Qed.

Section Keeps.
Context {R : relation world} `{!PreOrder R}.

Lemma keeps_ret {A} (a : A) : keeps R (ret a).
Proof. intros w. simpl. reflexivity. Qed.

Lemma keeps_raise {A} (e : exn) : keeps R (@raise A e).
Proof. intros w. simpl. reflexivity. Qed.

Lemma keeps_lift {A} (r : exn + A) : keeps R (lift r).
Proof. destruct r; [apply keeps_raise | apply keeps_ret]. Qed.

Lemma keeps_bind {A B} (m : M A) (k : A -> M B) :
  keeps R m -> (forall a, keeps R (k a)) -> keeps R (bind m k).
Proof.
  intros Hm Hk w. unfold bind. specialize (Hm w).
  destruct (m w) as [[a|e] w1]; simpl in *; [|exact Hm].
  etransitivity; [exact Hm | apply Hk].
Qed.

(** A statement, its commit and what follows, from the start of the
    transaction. *)
Lemma keeps_transaction {A B} E (stmt : M A) (k : A -> M B) :
  transactional R ->
  keeps R stmt -> (forall a, keeps R (k a)) ->
  keeps R (bind begin_transaction (fun begun =>
           bind stmt (fun a => bind (conn_commit E begun) (fun _ => k a)))).
Proof.
  intros [Htick Hback] Hm Hk w. unfold bind, begin_transaction.
  specialize (Hm w). destruct (stmt w) as [[a|e] w1]; simpl in *; [|exact Hm].
  unfold conn_commit. destruct (io_fault E (io_ops w1)); simpl.
  - apply Hback, Hm.
  - etransitivity; [exact Hm|]. etransitivity; [apply Htick | apply Hk].
Qed.

Lemma keeps_when (b : bool) (m : M unit) : keeps R m -> keeps R (when b m).
Proof. intros Hm. destruct b; [exact Hm | apply keeps_ret]. Qed.

Lemma keeps_for_each {A} (l : list A) (body : A -> M unit) :
  (forall x, keeps R (body x)) -> keeps R (for_each l body).
Proof.
  intros Hb. induction l as [|x l IH]; simpl.
  - apply keeps_ret.
  - apply keeps_bind; [apply Hb | intros _; exact IH].
Qed.

Lemma keeps_py_get d k dflt : keeps R (py_get d k dflt).
Proof.
  unfold py_get. destruct d; try apply keeps_raise.
  destruct (dict_get items k); apply keeps_ret.
Qed.

Lemma keeps_py_in k v : keeps R (py_in k v).
Proof. destruct v; simpl; first [apply keeps_raise | apply keeps_ret]. Qed.

Lemma keeps_py_iter v : keeps R (py_iter v).
Proof. destruct v; simpl; first [apply keeps_raise | apply keeps_ret]. Qed.

Lemma keeps_py_append l x : keeps R (py_append l x).
Proof. destruct l; simpl; first [apply keeps_raise | apply keeps_ret]. Qed.

Lemma keeps_os_path_join a b : keeps R (os_path_join a b).
Proof. destruct b; simpl; first [apply keeps_raise | apply keeps_ret]. Qed.

Lemma keeps_base64_b64decode E v : keeps R (base64_b64decode E v).
Proof.
  destruct v; simpl; try apply keeps_raise.
  destruct (b64decode E s); [apply keeps_ret | apply keeps_raise].
Qed.

Lemma keeps_json_loads_col E v : keeps R (json_loads_col E v).
Proof.
  destruct v; simpl; try apply keeps_raise.
  destruct (json_loads E s); [apply keeps_ret | apply keeps_raise].
Qed.

Lemma keeps_get_extension E ct : keeps R (get_extension_from_content_type E ct).
Proof.
  destruct ct; simpl; try apply keeps_raise.
  destruct (guess_extension E s); apply keeps_ret.
Qed.

Lemma keeps_derive_file_name E a ct : keeps R (derive_file_name E a ct).
Proof.
  unfold derive_file_name. apply keeps_bind; [apply keeps_py_in|].
  intros [|]; [apply keeps_ret|].
  apply keeps_bind; [apply keeps_get_extension | intros; apply keeps_ret].
Qed.

End Keeps.

(** A primitive that does not touch the part of the state in question. *)
Ltac keeps_leaf :=
  let w := fresh "w" in
  intros w; unfold same, io, now_ms, logger; simpl;
  repeat case_match; reflexivity.

(** One step of a proof of [keeps], along the structure of the
    computation. *)
Ltac keeps_step :=
  lazymatch goal with
  | |- keeps _ (bind _ _) => apply keeps_bind; [|intros ?]
  | |- keeps _ (ret _) => apply keeps_ret
  | |- keeps _ (raise _) => apply keeps_raise
  | |- keeps _ (lift _) => apply keeps_lift
  | |- keeps _ (when _ _) => apply keeps_when
  | |- keeps _ (for_each _ _) => apply keeps_for_each; intros ?
  | |- keeps _ (py_get _ _ _) => apply keeps_py_get
  | |- keeps _ (py_in _ _) => apply keeps_py_in
  | |- keeps _ (py_iter _) => apply keeps_py_iter
  | |- keeps _ (py_append _ _) => apply keeps_py_append
  | |- keeps _ (os_path_join _ _) => apply keeps_os_path_join
  | |- keeps _ (base64_b64decode _ _) => apply keeps_base64_b64decode
  | |- keeps _ (json_loads_col _ _) => apply keeps_json_loads_col
  | |- keeps _ (derive_file_name _ _ _) => apply keeps_derive_file_name
  | |- keeps _ (if ?b then _ else _) => destruct b
  | |- keeps _ (match ?x with _ => _ end) => destruct x
  | |- keeps _ (request_attachment _ _ _ _) => unfold request_attachment
  | |- keeps _ (stdin_write _ _) => unfold stdin_write
  | |- keeps _ (stdin_flush _) => unfold stdin_flush
  | |- keeps _ (write_file _ _ _) => unfold write_file
  | |- keeps _ begin_transaction => unfold begin_transaction
  | |- keeps _ (conn_commit _ _) => unfold conn_commit
  | |- keeps _ (cursor_execute_insert _ _ _ _ _ _ _ _ _ _ _ _ _) =>
      unfold cursor_execute_insert
  | |- keeps _ (cursor_select_attachmentPaths _ _) =>
      unfold cursor_select_attachmentPaths
  | |- keeps _ (cursor_execute_update _ _ _) => unfold cursor_execute_update
  | |- keeps (same _) _ => keeps_leaf
  end.

Ltac keeps_auto := repeat keeps_step.

(** ** Running a computation along one path *)

Lemma bind_ok {A B} (m : M A) (k : A -> M B) w a w' :
  m w = (Ok a, w') -> bind m k w = k a w'.
Proof. intros H. unfold bind. rewrite H. reflexivity. Qed.

Lemma bind_raise {A B} (m : M A) (k : A -> M B) w e w' :
  m w = (Raise e, w') -> bind m k w = (Raise e, w').
Proof. intros H. unfold bind. rewrite H. reflexivity. Qed.

Lemma py_get_obj items k dflt w :
  py_get (JObj items) k dflt w = (Ok (default dflt (dict_get items k)), w).
Proof. unfold py_get. destruct (dict_get items k); reflexivity. Qed.

Lemma io_ok E e w :
  io_fault E (io_ops w) = false -> io E e w = (Ok tt, tick_io w).
Proof. intros H. unfold io. rewrite H. reflexivity. Qed.

Lemma conn_commit_ok E begun w :
  io_fault E (io_ops w) = false -> conn_commit E begun w = (Ok tt, tick_io w).
Proof. intros H. unfold conn_commit. rewrite H. reflexivity. Qed.


(** ** The correlation table *)

(** A response to no outstanding request only adds one error record. *)
Lemma unknown_response_run E message request_id dir w :
  ~ outstanding w request_id ->
  process_attachment_response E message request_id dir w =
  set_log (log w ++
    [(ERROR, if hashable request_id then Unknown_request_id request_id
             else Error_processing_attachment_response TypeError)]) w.
Proof.
  intros Hout. unfold process_attachment_response, process_attachment_response_try.
  destruct request_id; simpl in *; try reflexivity.
  erewrite bind_ok.
  2:{ rewrite bool_decide_false by exact Hout. reflexivity. }
  reflexivity.
Qed.

(** Whatever a matched response holds, its entry is removed and nothing is
    added to the table afterwards. *)
Lemma matched_response_pops E message k dir w info :
  pending_attachments w !! k = Some info ->
  pending_attachments (process_attachment_response E message (JStr k) dir w)
  = delete k (pending_attachments w).
Proof.
  intros Hk. unfold process_attachment_response, process_attachment_response_try.
  erewrite bind_ok.
  2:{ simpl. rewrite bool_decide_true by (rewrite Hk; eauto). reflexivity. }
  cbn [negb]. cbv iota.
  lazymatch goal with
  | |- context [bind (pending_pop ?r) ?K w] =>
      assert (forall a, keeps (same pending_attachments) (K a)) as HK
        by (intros a; keeps_auto);
      erewrite (bind_ok (pending_pop r) K) by (simpl; rewrite Hk; reflexivity);
      specialize (HK info (set_pending (delete k) w)); unfold same in HK
  end.
  simpl in HK.
  match goal with
  | |- context [match ?x with _ => _ end] => destruct x as [[[]|e] w1]
  end; simpl in *; exact HK.
Qed.

(** ** The message ingestor *)

Lemma max_rowid_bound (rows : gmap Z row) k :
  is_Some (rows !! k) -> k <= max_rowid rows.
Proof.
  unfold max_rowid. revert k.
  apply (map_fold_weak_ind (fun acc (m : gmap Z row) =>
           forall k, is_Some (m !! k) -> k <= acc)).
  - intros k [x Hx]. rewrite lookup_empty in Hx. discriminate.
  - intros i x m acc Hi IH k Hk.
    destruct (decide (i = k)) as [->|Hne]; [lia|].
    rewrite lookup_insert_ne in Hk by exact Hne.
    specialize (IH k Hk). lia.
Qed.

Lemma next_rowid_fresh w : db_rows w !! next_rowid w = None.
Proof.
  destruct (db_rows w !! next_rowid w) as [r|] eqn:Hr; [|reflexivity].
  assert (next_rowid w <= max_rowid (db_rows w))
    by (apply max_rowid_bound; rewrite Hr; eauto).
  unfold next_rowid in *. lia.
Qed.

Lemma jget_inv d k v :
  jget d k = v -> v <> JNull ->
  exists items, d = JObj items /\ dict_get items k = Some v.
Proof.
  intros H Hv. destruct d; simpl in H; try congruence.
  exists items. split; [reflexivity|].
  destruct (dict_get items k); simpl in H; congruence.
Qed.

Lemma py_get_found items k dflt v w :
  dict_get items k = Some v -> py_get (JObj items) k dflt w = (Ok v, w).
Proof. intros H. unfold py_get. rewrite H. reflexivity. Qed.

Lemma py_get_jget items k w :
  py_get (JObj items) k JNull w = (Ok (jget (JObj items) k), w).
Proof. apply py_get_obj. Qed.

Lemma truthy_attachments_of message :
  truthy (attachments_of message) = truthy (jget (dataMessage_of message) "attachments").
Proof.
  unfold attachments_of. destruct (dataMessage_of message); try reflexivity.
  simpl. destruct (dict_get items "attachments"); reflexivity.
Qed.

(** The quote fields the code extracts are what the quote block carries at
    those keys, whether the block is there or not. *)
Lemma quote_fields_run quote w :
  (truthy quote = true -> is_obj quote) ->
  (if truthy quote then
     quote_id <- py_get quote "id" JNull ;;
     quote_author <- py_get quote "author" JNull ;;
     quote_text <- py_get quote "text" JNull ;;
     ret (quote_id, quote_author, quote_text)
   else ret (JNull, JNull, JNull)) w
  = (Ok (jget quote "id", jget quote "author", jget quote "text"), w).
Proof.
  intros Hq. destruct (truthy quote) eqn:Ht.
  - destruct (Hq eq_refl) as [qi ->].
    repeat (erewrite bind_ok by apply py_get_jget). reflexivity.
  - destruct quote as [| | | | |[|]|[|]]; try discriminate; reflexivity.
Qed.

Lemma insert_run E p1 p2 p3 p4 p5 p6 p7 p8 p9 p10 p11 p12
    v1 v2 v3 v4 v5 v6 v7 v8 v9 v10 v11 v12 w :
  sqlite_bind p1 = inr v1 -> sqlite_bind p2 = inr v2 ->
  sqlite_bind p3 = inr v3 -> sqlite_bind p4 = inr v4 ->
  sqlite_bind p5 = inr v5 -> sqlite_bind p6 = inr v6 ->
  sqlite_bind p7 = inr v7 -> sqlite_bind p8 = inr v8 ->
  sqlite_bind p9 = inr v9 -> sqlite_bind p10 = inr v10 ->
  sqlite_bind p11 = inr v11 -> sqlite_bind p12 = inr v12 ->
  io_fault E (io_ops w) = false ->
  cursor_execute_insert E p1 p2 p3 p4 p5 p6 p7 p8 p9 p10 p11 p12 w =
  (Ok (next_rowid w),
   set_db (<[next_rowid w := stored_row E v1 v2 v3 v4 v5 v6 v7 v8 v9 v10 v11 v12]>
             (db_rows w)) (next_rowid w) (tick_io w)).
Proof.
  intros H1 H2 H3 H4 H5 H6 H7 H8 H9 H10 H11 H12 Hio.
  unfold cursor_execute_insert.
  rewrite H1, H2, H3, H4, H5, H6, H7, H8, H9, H10, H11, H12.
  repeat (erewrite bind_ok by reflexivity).
  erewrite bind_ok by (apply io_ok; exact Hio).
  reflexivity.
Qed.

(** A notification with a group descriptor and content runs up to the
    INSERT, which adds the row of the extracted values; what is left to run
    is the commit, the log record and the loop over the attachments. *)
Lemma ingest_reaches_insert E message w
    v_source v_sourceName v_timestamp v_message v_groupId v_groupName
    v_quoteId v_quoteAuthor v_quoteText :
  let envelope := envelope_of message in
  let dataMessage := dataMessage_of message in
  let groupInfo := groupInfo_of message in
  let quote := quote_of message in
  truthy groupInfo = true -> is_obj groupInfo ->
  truthy (jget dataMessage "message") || truthy (jget dataMessage "attachments") = true ->
  (truthy quote = true -> is_obj quote) ->
  sqlite_bind (jget envelope "source") = inr v_source ->
  sqlite_bind (jget envelope "sourceName") = inr v_sourceName ->
  sqlite_bind (jget envelope "timestamp") = inr v_timestamp ->
  sqlite_bind (jget dataMessage "message") = inr v_message ->
  sqlite_bind (jget groupInfo "groupId") = inr v_groupId ->
  sqlite_bind (jget groupInfo "groupName") = inr v_groupName ->
  sqlite_bind (jget quote "id") = inr v_quoteId ->
  sqlite_bind (jget quote "author") = inr v_quoteAuthor ->
  sqlite_bind (jget quote "text") = inr v_quoteText ->
  io_fault E (io_ops w) = false ->
  process_incoming_message_try E message w =
  (conn_commit E (db_rows w, db_seq w) ;;;
   logger INFO (Saved_message (jget envelope "source")
                  (jget groupInfo "groupName") (next_rowid w)) ;;;
   attachment_list <- py_iter (attachments_of message) ;;
   for_each attachment_list
     (request_attachment E (jget groupInfo "groupId") (next_rowid w)))
    (set_db
       (<[next_rowid w :=
            stored_row E v_source v_sourceName v_timestamp v_message
              v_groupId v_groupName
              (SText (json_dumps E (JArr []))) (SText "") SNull
              v_quoteId v_quoteAuthor v_quoteText]> (db_rows w))
       (next_rowid w) (tick_io w)).
Proof.
  intros envelope dataMessage groupInfo quote Hgi [gi Hgiobj] Hcontent Hq
    B1 B2 B3 B4 B5 B6 B7 B8 B9 Hio.
  assert (Hatt := truthy_attachments_of message).
  unfold attachments_of in *.
  subst envelope dataMessage groupInfo quote.
  unfold groupInfo_of, quote_of in *.
  destruct (jget_inv _ _ _ Hgiobj) as (dm & Hdm & Hgi_get); [discriminate|].
  rewrite Hdm in *. rewrite Hgiobj in *.
  unfold dataMessage_of in *.
  destruct (jget_inv _ _ _ Hdm) as (env & Henv & Hdm_get); [discriminate|].
  rewrite Henv in *.
  unfold envelope_of in *.
  destruct (jget_inv _ _ _ Henv) as (ps & Hps & Henv_get); [discriminate|].
  rewrite Hps in *.
  destruct (jget_inv _ _ _ Hps) as (ms & -> & Hps_get); [discriminate|].
  assert (Hdm_truthy : truthy (JObj dm) = true).
  { destruct dm; [discriminate | reflexivity]. }
  unfold process_incoming_message_try.
  erewrite bind_ok by (apply py_get_found; exact Hps_get).
  erewrite bind_ok by (apply py_get_found; exact Henv_get).
  erewrite bind_ok by (apply py_get_found; exact Hdm_get).
  rewrite Hdm_truthy. cbn [negb].
  erewrite bind_ok by (apply py_get_found; exact Hgi_get).
  rewrite Hgi. cbn [negb].
  erewrite bind_ok by apply py_get_jget.
  erewrite bind_ok by apply py_get_obj.
  rewrite Hatt.
  replace (negb (truthy (jget (JObj dm) "message")) &&
           negb (truthy (jget (JObj dm) "attachments"))) with false
    by (rewrite <- negb_orb, Hcontent; reflexivity).
  do 5 (erewrite bind_ok by apply py_get_jget).
  erewrite bind_ok by apply py_get_jget.
  erewrite bind_ok by (apply quote_fields_run; exact Hq).
  cbv iota beta.
  erewrite bind_ok by reflexivity.
  erewrite bind_ok.
  2:{ apply insert_run; try eassumption; reflexivity. }
  reflexivity.
Qed.


Lemma bindable_bound v : bindable v -> sqlite_bind v = inr (bound v).
Proof. intros [s Hs]. unfold bound. rewrite Hs. reflexivity. Qed.

Lemma group_message_reaches_insert E message w :
  group_message message ->
  io_fault E (io_ops w) = false ->
  process_incoming_message_try E message w =
  (conn_commit E (db_rows w, db_seq w) ;;;
   logger INFO (Saved_message (jget (envelope_of message) "source")
                  (jget (groupInfo_of message) "groupName") (next_rowid w)) ;;;
   attachment_list <- py_iter (attachments_of message) ;;
   for_each attachment_list
     (request_attachment E (jget (groupInfo_of message) "groupId") (next_rowid w)))
    (set_db (<[next_rowid w := message_record E message]> (db_rows w))
       (next_rowid w) (tick_io w)).
Proof.
  intros (Hgi & Hobj & Hcontent & Hq & Hb) Hio.
  repeat match goal with
         | H : Forall _ (_ :: _) |- _ => apply Forall_cons in H as [?%bindable_bound H]
         end.
  apply ingest_reaches_insert; assumption.
Qed.

Lemma handler_projection {X} (f : world -> X) E message dir w :
  (forall l w0, f (set_log l w0) = f w0) ->
  f (process_incoming_message E message dir w)
  = f (snd (process_incoming_message_try E message w)).
Proof.
  intros Hf. unfold process_incoming_message.
  destruct (process_incoming_message_try E message w) as [[[]|e] w1]; simpl;
    [reflexivity | apply Hf].
Qed.




Lemma when_debug_run E msg w :
  exists w1, when (debug_enabled E) (logger DEBUG msg) w = (Ok tt, w1) /\
    pending_attachments w1 = pending_attachments w /\
    agent_stdin w1 = agent_stdin w /\
    clock_reads w1 = clock_reads w /\ io_ops w1 = io_ops w.
Proof.
  destruct (debug_enabled E); eexists; (split; [reflexivity|]); repeat split.
Qed.

Lemma request_attachment_run E gid mid a w :
  is_obj a -> no_fault_from E (io_ops w) ->
  exists w1,
    request_attachment E gid mid a w = (Ok tt, w1) /\
    agent_stdin w1 = (agent_stdin w ++
      [getAttachment_frame (pretty (time_ms E (clock_reads w)) +:+ py_str E (jget a "id"))
         (jget a "id") gid])%list /\
    pending_attachments w1 =
      register mid (pending_attachments w)
        (pretty (time_ms E (clock_reads w)) +:+ py_str E (jget a "id"), jget a "id") /\
    clock_reads w1 = S (clock_reads w) /\
    io_ops w1 = S (S (io_ops w)).
Proof.
  intros [items ->] Hio. unfold request_attachment.
  erewrite bind_ok by apply py_get_jget.
  erewrite bind_ok by reflexivity.
  match goal with
  | |- context [when (debug_enabled E) (logger DEBUG ?m)] =>
      destruct (when_debug_run E m (tick_clock w)) as (w1 & Hrun & Hp & Hs & Hc & Hi)
  end.
  erewrite bind_ok by exact Hrun.
  unfold stdin_write, stdin_flush.
  erewrite bind_ok.
  2:{ erewrite bind_ok by (apply io_ok, Hio; rewrite Hi; simpl; lia). reflexivity. }
  erewrite bind_ok by (apply io_ok, Hio; simpl; rewrite Hi; simpl; lia).
  eexists. split; [reflexivity|]. simpl.
  rewrite Hp, Hs, Hc, Hi. repeat split.
Qed.

(** The loop over the attachments, when each is a dict and nothing fails. *)
Lemma request_loop_run E gid mid atts : forall w,
  Forall is_obj atts -> no_fault_from E (io_ops w) ->
  exists w1,
    for_each atts (request_attachment E gid mid) w = (Ok tt, w1) /\
    agent_stdin w1 = (agent_stdin w ++
      map (fun r => getAttachment_frame (fst r) (snd r) gid)
          (issued E (clock_reads w) atts))%list /\
    pending_attachments w1 =
      foldl (register mid) (pending_attachments w) (issued E (clock_reads w) atts).
Proof.
  induction atts as [|a atts IH]; intros w Hobj Hio.
  - exists w. simpl. rewrite app_nil_r. repeat split.
  - apply Forall_cons in Hobj as [Ha Hobj].
    destruct (request_attachment_run E gid mid a w Ha Hio)
      as (w1 & Hrun & Hs & Hp & Hc & Hi).
    destruct (IH w1 Hobj) as (w2 & Hrun2 & Hs2 & Hp2).
    { intros k Hk. apply Hio. rewrite Hi in Hk. lia. }
    exists w2. split.
    { simpl. erewrite bind_ok by exact Hrun. exact Hrun2. }
    rewrite Hs2, Hp2, Hs, Hp, Hc. simpl. rewrite <- app_assoc. split; reflexivity.
Qed.

(** What the code keeps of the request rule: for a persisted notification
    the fetch requests are written to the agent one per attachment, in the
    order of the attachment list; each request identifier is a new reading
    of the millisecond clock followed by the attachment's identifier, each
    frame is a getAttachment request for that attachment and the group, and
    each request is registered in the correlation table under its
    identifier with the record's rowid. Nothing makes two identifiers
    differ. *)
Theorem requests_issued_in_order E message dir w atts :
  group_message message ->
  jget (dataMessage_of message) "attachments" = JArr atts ->
  Forall is_obj atts ->
  no_fault_from E (io_ops w) ->
  let w' := process_incoming_message E message dir w in
  let requests := issued E (clock_reads w) atts in
  agent_stdin w' = (agent_stdin w ++
    map (fun r => getAttachment_frame (fst r) (snd r)
                    (jget (groupInfo_of message) "groupId")) requests)%list /\
  pending_attachments w' =
    foldl (register (next_rowid w)) (pending_attachments w) requests.
Proof.
  intros Hgm Hatts Hobj Hio w' requests. subst w' requests.
  assert (Hlist : attachments_of message = JArr atts).
  { unfold attachments_of.
    destruct (jget_inv _ _ _ Hatts) as (dm & Hdm & Hget); [discriminate|].
    rewrite Hdm, Hget. reflexivity. }
  rewrite (handler_projection agent_stdin) by reflexivity.
  rewrite (handler_projection pending_attachments) by reflexivity.
  rewrite group_message_reaches_insert by (try apply Hio; auto).
  rewrite Hlist.
  erewrite bind_ok by (apply conn_commit_ok, Hio; simpl; lia).
  erewrite bind_ok by reflexivity.
  erewrite bind_ok by reflexivity.
  match goal with
  | |- context [for_each atts ?body ?w1] =>
      destruct (request_loop_run E (jget (groupInfo_of message) "groupId")
                  (next_rowid w) atts w1 Hobj) as (w2 & Hrun & Hs & Hp)
  end.
  { intros k Hk. apply Hio. simpl in Hk. lia. }
  rewrite Hrun. simpl. rewrite Hs, Hp. split; reflexivity.
Qed.

Lemma requests_issued_in_order_witness :
  let w' := process_incoming_message Sample.env Sample.two_names "attachments" Sample.start in
  agent_stdin w' =
    [getAttachment_frame "1700000000000a1" (JStr "a1") (JStr "G1");
     getAttachment_frame "1700000000001a1.txt" (JStr "a1.txt") (JStr "G1")] /\
  pending_attachments w' =
    <["1700000000001a1.txt" := {| message_id := 1; attachment_id := JStr "a1.txt" |}]>
      (<["1700000000000a1" := {| message_id := 1; attachment_id := JStr "a1" |}]> ∅).
Proof.
  apply (requests_issued_in_order Sample.env Sample.two_names "attachments"
           Sample.start [JObj [("id", JStr "a1")]; JObj [("id", JStr "a1.txt")]]).
  - repeat split; try reflexivity.
    + eexists; reflexivity.
    + intros H; discriminate H.
    + repeat constructor; eexists; reflexivity.
  - reflexivity.
  - repeat constructor; eexists; reflexivity.
  - intros k _. reflexivity.
Defined.

(** C9 at its failing input: the notification [Sample.twice] names the
    attachment [a1] twice and both requests are made within one
    millisecond. The frames are written in order and addressed as the claim
    says, but the second request identifier is not fresh: it is the
    identifier of the first, so the two frames carry one identifier and the
    second registration takes the entry of the first. *)
Theorem second_request_identifier_is_not_fresh :
  let atts := [JObj [("id", JStr "a1")]; JObj [("id", JStr "a1")]] in
  let requests := issued Sample.env_same_ms (clock_reads Sample.start) atts in
  let w' := process_incoming_message Sample.env_same_ms Sample.twice
              "attachments" Sample.start in
  attachments_of Sample.twice = JArr atts /\
  agent_stdin w' =
    [getAttachment_frame "1700000000000a1" (JStr "a1") (JStr "G1");
     getAttachment_frame "1700000000000a1" (JStr "a1") (JStr "G1")] /\
  map fst requests = ["1700000000000a1"; "1700000000000a1"] /\
  ~ NoDup (map fst requests) /\
  pending_attachments w' =
    <["1700000000000a1" := {| message_id := 1; attachment_id := JStr "a1" |}]> ∅.
Proof.
  repeat split; try (vm_compute; reflexivity).
  intros H. apply NoDup_cons in H as [Hin _]. apply Hin. left.
Qed.

(** ** The attachment resolver *)

Lemma derive_file_name_str E a ct w :
  derive_file_name E (JStr a) (JStr ct) w =
  (Ok (JStr (if contains_str "." a then a
             else a +:+ default "" (guess_extension E ct))), w).
Proof.
  unfold derive_file_name. erewrite bind_ok by reflexivity.
  destruct (contains_str "." a); [reflexivity|].
  unfold get_extension_from_content_type.
  destruct (guess_extension E ct) as [ext|]; simpl; [|reflexivity].
  unfold bind, ret. simpl. destruct (String.eqb_spec ext ""); subst; reflexivity.
Qed.

Lemma derive_file_name_dotted E a ct w :
  contains_str "." a = true ->
  derive_file_name E (JStr a) ct w = (Ok (JStr a), w).
Proof.
  intros H. unfold derive_file_name. erewrite bind_ok by reflexivity.
  rewrite H. reflexivity.
Qed.

Lemma write_file_ok E p data w :
  io_fault E (io_ops w) = false -> io_fault E (S (io_ops w)) = false ->
  write_file E p data w =
  (Ok tt, set_files (<[p := data]> (files w)) (tick_io (tick_io w))).
Proof.
  intros H1 H2. unfold write_file.
  erewrite bind_ok by (apply io_ok; exact H1).
  erewrite bind_ok by reflexivity.
  erewrite bind_ok by (apply io_ok; exact H2).
  simpl. rewrite insert_insert_eq. reflexivity.
Qed.

(** A matched response with payload data that decodes, for an attachment
    whose identifier is a str: the decoded bytes are written under the
    derived name in the attachment directory. *)
Lemma matched_response_writes_file E message k dir w info a ritems d bytes name :
  pending_attachments w !! k = Some info ->
  attachment_id info = JStr a ->
  jget message "result" = JObj ritems ->
  jget (JObj ritems) "data" = JStr d -> d <> "" ->
  b64decode E d = Some bytes ->
  (forall w', derive_file_name E (JStr a)
     (default (JStr "application/octet-stream") (dict_get ritems "contentType")) w'
     = (Ok (JStr name), w')) ->
  io_fault E (io_ops w) = false -> io_fault E (S (io_ops w)) = false ->
  files (process_attachment_response E message (JStr k) dir w)
  = <[path_join dir name := bytes]> (files w).
Proof.
  intros Hk Ha Hres Hdata Hd Hdec Hname Hio1 Hio2.
  destruct (jget_inv _ _ _ Hres) as (mitems & -> & Hr); [discriminate|].
  assert (Htr : truthy (JObj ritems) = true).
  { destruct ritems; [discriminate | reflexivity]. }
  assert (Htd : truthy (JStr d) = true).
  { simpl. destruct (String.eqb_spec d ""); [contradiction | reflexivity]. }
  unfold process_attachment_response, process_attachment_response_try.
  erewrite bind_ok.
  2:{ simpl. rewrite bool_decide_true by (rewrite Hk; eauto). reflexivity. }
  cbn [negb]. cbv iota.
  erewrite bind_ok by (simpl; rewrite Hk; reflexivity).
  erewrite bind_ok by (apply py_get_found; exact Hr).
  rewrite Htr.
  erewrite bind_ok by apply py_get_jget.
  rewrite Hdata.
  erewrite bind_ok by apply py_get_obj.
  rewrite Htd.
  erewrite bind_ok by (simpl; rewrite Hdec; reflexivity).
  rewrite Ha. erewrite bind_ok by apply Hname.
  erewrite bind_ok by reflexivity.
  lazymatch goal with
  | |- context [bind (write_file E ?p ?b) ?K ?w0] =>
      assert (forall u, keeps (same files) (K u)) as HK
        by (intros u; keeps_auto);
      erewrite (bind_ok (write_file E p b) K) by (apply write_file_ok; assumption);
      specialize (HK tt (set_files (<[p := b]> (files w0)) (tick_io (tick_io w0))));
      unfold same in HK
  end.
  cbv beta in *. revert HK.
  match goal with
  | |- context [match ?x with _ => _ end] => destruct x as [[[]|e] w2]
  end; simpl; intros ->; reflexivity.
Qed.

(** C6: for a matched response with payload data, the file is written under
    the attachment identifier itself when the identifier contains a dot,
    and otherwise under the identifier followed by the extension guessed
    from the declared content type, the empty extension when the type is
    unknown. *)
Theorem derived_file_name_of_attachment
    E message k dir w info a ritems d bytes ct :
  pending_attachments w !! k = Some info ->
  attachment_id info = JStr a ->
  jget message "result" = JObj ritems ->
  jget (JObj ritems) "data" = JStr d -> d <> "" ->
  b64decode E d = Some bytes ->
  (contains_str "." a = false -> jget (JObj ritems) "contentType" = JStr ct) ->
  io_fault E (io_ops w) = false -> io_fault E (S (io_ops w)) = false ->
  let file_name :=
    if contains_str "." a then a
    else a +:+ default "" (guess_extension E ct) in
  files (process_attachment_response E message (JStr k) dir w)
  = <[path_join dir file_name := bytes]> (files w).
Proof.
  intros Hk Ha Hres Hdata Hd Hdec Hct Hio1 Hio2 file_name.
  eapply matched_response_writes_file; try eassumption.
  intros w'. subst file_name.
  destruct (contains_str "." a) eqn:Hdot.
  - apply derive_file_name_dotted. exact Hdot.
  - destruct (jget_inv _ _ _ (Hct eq_refl)) as (items & Heq & Hget); [discriminate|].
    injection Heq as <-. rewrite Hget. cbn [default from_option id].
    rewrite derive_file_name_str, Hdot. reflexivity.
Qed.

Lemma derived_file_name_of_attachment_witness :
  files (process_attachment_response Sample.env Sample.hello_response
           (JStr "1700000000000a1") "attachments" Sample.awaiting)
  = <[ "attachments/a1.txt" := [Byte.x58] ]> (files Sample.awaiting).
Proof.
  apply (derived_file_name_of_attachment Sample.env Sample.hello_response
           "1700000000000a1" "attachments" Sample.awaiting
           {| message_id := 1; attachment_id := JStr "a1" |} "a1"
           [("data", JStr "WA=="); ("contentType", JStr "text/plain")]
           "WA==" [Byte.x58] "text/plain").
  - vm_compute. reflexivity.
  - reflexivity.
  - reflexivity.
  - reflexivity.
  - discriminate.
  - vm_compute. reflexivity.
  - intros _. reflexivity.
  - reflexivity.
  - reflexivity.
Defined.

Example file_name_photo_png w :
  derive_file_name Sample.env (JStr "photo.png") (JStr "image/jpeg") w
  = (Ok (JStr "photo.png"), w).
Proof. reflexivity. Qed.

Example file_name_abc123_png w :
  derive_file_name Sample.env (JStr "abc123") (JStr "image/png") w
  = (Ok (JStr "abc123.png"), w).
Proof. reflexivity. Qed.

Example file_name_abc123_unknown w :
  derive_file_name Sample.env (JStr "abc123") (JStr "application/x-nothing") w
  = (Ok (JStr "abc123"), w).
Proof. reflexivity. Qed.

(** C10: when the result of a matched response carries payload data and no
    contentType key, the content type is taken to be
    application/octet-stream: an attachment identifier without a dot gets
    the extension guessed for that type. *)
Theorem missing_content_type_is_octet_stream
    E message k dir w info a ritems d bytes :
  pending_attachments w !! k = Some info ->
  attachment_id info = JStr a ->
  contains_str "." a = false ->
  jget message "result" = JObj ritems ->
  jget (JObj ritems) "data" = JStr d -> d <> "" ->
  b64decode E d = Some bytes ->
  dict_get ritems "contentType" = None ->
  io_fault E (io_ops w) = false -> io_fault E (S (io_ops w)) = false ->
  files (process_attachment_response E message (JStr k) dir w)
  = <[path_join dir
        (a +:+ default "" (guess_extension E "application/octet-stream")) := bytes]>
      (files w).
Proof.
  intros Hk Ha Hdot Hres Hdata Hd Hdec Hct Hio1 Hio2.
  eapply matched_response_writes_file; try eassumption.
  intros w'. rewrite Hct. cbn [default from_option id].
  rewrite derive_file_name_str, Hdot. reflexivity.
Qed.

Lemma missing_content_type_is_octet_stream_witness :
  files (process_attachment_response Sample.env
           (JObj [("result", JObj [("data", JStr "WA==")]);
                  ("id", JStr "1700000000000a1")])
           (JStr "1700000000000a1") "attachments" Sample.awaiting)
  = <[ "attachments/a1.bin" := [Byte.x58] ]> (files Sample.awaiting).
Proof.
  apply (missing_content_type_is_octet_stream Sample.env
           (JObj [("result", JObj [("data", JStr "WA==")]);
                  ("id", JStr "1700000000000a1")])
           "1700000000000a1" "attachments" Sample.awaiting
           {| message_id := 1; attachment_id := JStr "a1" |} "a1"
           [("data", JStr "WA==")] "WA==" [Byte.x58]).
  - vm_compute. reflexivity.
  - reflexivity.
  - reflexivity.
  - reflexivity.
  - reflexivity.
  - discriminate.
  - vm_compute. reflexivity.
  - reflexivity.
  - reflexivity.
  - reflexivity.
Defined.

(** C7: a response whose id is a key of the correlation table removes that
    entry, whatever the response holds (the [pop] comes before the result
    is read); a second response with the same id finds no entry, is logged
    as a response to an unknown request and changes nothing else. *)
Theorem matched_response_consumes_entry E message message2 k dir w info :
  pending_attachments w !! k = Some info ->
  let w1 := process_attachment_response E message (JStr k) dir w in
  pending_attachments w1 = delete k (pending_attachments w) /\
  pending_attachments w1 !! k = None /\
  process_attachment_response E message2 (JStr k) dir w1
  = set_log (log w1 ++ [(ERROR, Unknown_request_id (JStr k))]) w1.
Proof.
  intros Hk w1.
  assert (Hpop : pending_attachments w1 = delete k (pending_attachments w))
    by exact (matched_response_pops E message k dir w info Hk).
  assert (Hgone : pending_attachments w1 !! k = None)
    by (rewrite Hpop; apply lookup_delete_eq).
  repeat split; [exact Hpop | exact Hgone |].
  rewrite unknown_response_run; [reflexivity|].
  simpl. rewrite Hgone. intros [x Hx]. discriminate.
Qed.

Lemma matched_response_consumes_entry_witness :
  let w1 := process_attachment_response Sample.env Sample.hello_response
              (JStr "1700000000000a1") "attachments" Sample.awaiting in
  pending_attachments w1
  = delete "1700000000000a1" (pending_attachments Sample.awaiting) /\
  pending_attachments w1 !! "1700000000000a1" = None /\
  process_attachment_response Sample.env Sample.hello_response
    (JStr "1700000000000a1") "attachments" w1
  = set_log (log w1 ++ [(ERROR, Unknown_request_id (JStr "1700000000000a1"))]) w1.
Proof.
  apply (matched_response_consumes_entry Sample.env Sample.hello_response
           Sample.hello_response "1700000000000a1" "attachments" Sample.awaiting
           {| message_id := 1; attachment_id := JStr "a1" |}).
  vm_compute. reflexivity.
Defined.

(** C8: a response whose id is not a key of the correlation table is logged
    as an error and nothing else happens: the correlation table, the
    database, the files and the agent's stdin are as before. *)
Theorem unknown_response_mutates_nothing E message request_id dir w :
  ~ outstanding w request_id ->
  let w' := process_attachment_response E message request_id dir w in
  (exists msg, log w' = (log w ++ [(ERROR, msg)])%list) /\
  pending_attachments w' = pending_attachments w /\
  db_rows w' = db_rows w /\ db_seq w' = db_seq w /\
  files w' = files w /\
  agent_stdin w' = agent_stdin w /\
  clock_reads w' = clock_reads w /\ io_ops w' = io_ops w.
Proof.
  intros Hout w'. subst w'. rewrite unknown_response_run by exact Hout.
  simpl. split; [eexists; reflexivity|]. repeat split.
Qed.

Lemma unknown_response_mutates_nothing_witness :
  let w' := process_attachment_response Sample.env Sample.hello_response
              (JStr "1700000000000a1") "attachments" Sample.start in
  (exists msg, log w' = (log Sample.start ++ [(ERROR, msg)])%list) /\
  pending_attachments w' = pending_attachments Sample.start /\
  db_rows w' = db_rows Sample.start /\ db_seq w' = db_seq Sample.start /\
  files w' = files Sample.start /\
  agent_stdin w' = agent_stdin Sample.start /\
  clock_reads w' = clock_reads Sample.start /\ io_ops w' = io_ops Sample.start.
Proof.
  apply (unknown_response_mutates_nothing Sample.env Sample.hello_response
           (JStr "1700000000000a1") "attachments" Sample.start).
  simpl. rewrite lookup_empty. intros [x Hx]. discriminate.
Defined.

(** ** The frame dispatch *)

Lemma when_debug_ok E msg w :
  exists w1, when (debug_enabled E) (logger DEBUG msg) w = (Ok tt, w1).
Proof. destruct (debug_enabled E); eexists; reflexivity. Qed.

Lemma dispatch_run E items dir w :
  dispatch E (JObj items) dir w =
  (when (debug_enabled E) (logger DEBUG (Received_message (JObj items))) ;;;
   handle E (route items) (JObj items) dir) w.
Proof.
  unfold dispatch, route.
  destruct (when_debug_ok E (Received_message (JObj items)) w) as [w1 Hw1].
  rewrite !(bind_ok _ _ _ _ _ Hw1).
  erewrite bind_ok by apply py_get_obj.
  destruct (py_eq_str (default JNull (dict_get items "method")) "receive");
    [reflexivity|].
  erewrite bind_ok by reflexivity.
  destruct (dict_has items "id"); [|reflexivity].
  erewrite bind_ok by apply py_get_obj. reflexivity.
Qed.

(** C2, as the code has it: a frame whose method is [receive] goes to the
    ingestor; any other frame that has an [id], with or without a method,
    goes to the resolver as a response; every remaining frame, one with
    another method included, is logged as unknown and dropped. *)
Theorem dispatch_follows_route E dir : dispatches_by route E dir.
Proof.
  intros items w. unfold handle.
  rewrite dispatch_run.
  destruct (route items); reflexivity.
Qed.

(** C2 as stated fails: a frame with the method [ping] and an id is a
    notification by the Frame Decoder rule, yet the loop handles it as a
    response and consumes the pending request of that id. *)
Lemma method_with_id_is_taken_for_a_response :
  ~ dispatches_by classify Sample.env "attachments".
Proof.
  intros H. specialize (H Sample.ping Sample.awaiting).
  apply (f_equal (fun r => size (pending_attachments (snd r)))) in H.
  vm_compute in H. discriminate.
Qed.

(** ** Failures inside the loop *)

Lemma dispatch_frame_returns E items dir w :
  exists w', dispatch E (JObj items) dir w = (Ok tt, w').
Proof.
  rewrite dispatch_run.
  destruct (when_debug_ok E (Received_message (JObj items)) w) as [w1 Hw1].
  rewrite (bind_ok _ _ _ _ _ Hw1).
  destruct (route items); eexists; reflexivity.
Qed.

(** A decoded line that is not a dict ends the loop: [message.get] raises
    outside every handler. *)
Lemma non_object_frame_stops_the_loop E message rest dir w :
  ~ is_obj message ->
  fst (main_loop E (Decoded message :: rest) dir w) = Uncaught AttributeError.
Proof.
  intros Hobj. simpl. unfold dispatch.
  destruct (when_debug_ok E (Received_message message) w) as [w1 Hw1].
  rewrite (bind_ok _ _ _ _ _ Hw1).
  destruct message; try (erewrite bind_raise by reflexivity; reflexivity).
  contradiction Hobj. eexists; reflexivity.
Qed.

(** C3, as the code has it: an exception raised while a notification is
    ingested or a response is resolved, a failing store operation
    included, is caught by the function's own handler and logged; the loop
    goes on with the next line and ends at end of file. *)
Theorem failures_are_caught_and_logged E :
  (forall message dir w e w1,
     process_incoming_message_try E message w = (Raise e, w1) ->
     process_incoming_message E message dir w
     = set_log (log w1 ++ [(ERROR, Error_processing_message e)]) w1) /\
  (forall message request_id dir w e w1,
     process_attachment_response_try E message request_id dir w = (Raise e, w1) ->
     process_attachment_response E message request_id dir w
     = set_log (log w1 ++ [(ERROR, Error_processing_attachment_response e)]) w1) /\
  (forall lines dir w,
     Forall is_frame lines -> fst (main_loop E lines dir w) = EOF).
Proof.
  repeat split.
  - intros message dir w e w1 H. unfold process_incoming_message.
    rewrite H. reflexivity.
  - intros message request_id dir w e w1 H. unfold process_attachment_response.
    rewrite H. reflexivity.
  - intros lines dir. induction lines as [|l lines IH]; intros w Hall.
    + reflexivity.
    + apply Forall_cons in Hall as [Hl Hall].
      destruct l as [|line|line e|message]; simpl.
      * apply IH, Hall.
      * apply IH, Hall.
      * simpl in Hl. subst e. apply IH, Hall.
      * destruct Hl as [items ->].
        destruct (dispatch_frame_returns E items dir w) as [w' ->].
        apply IH, Hall.
Qed.

Lemma failures_are_caught_and_logged_witness :
  fst (main_loop Sample.env_store_fails
         [Decoded Sample.hello; Blank; Invalid "{"; Decoded Sample.hello_response]
         "attachments" Sample.start) = EOF.
Proof.
  apply (proj2 (proj2 (failures_are_caught_and_logged Sample.env_store_fails))).
  repeat constructor; eexists; reflexivity.
Defined.

(** C3 as stated fails: the INSERT of the first notification and the SELECT
    for the response both raise, each failure is logged by the handler of
    its function, and the loop reads on to end of file and stores the
    notifications that follow. *)
Lemma store_failure_does_not_stop_the_loop :
  let run := main_loop Sample.env_store_fails
               [Decoded Sample.hello; Decoded Sample.hello;
                Decoded Sample.hello_response; Decoded Sample.hello]
               "attachments" Sample.start in
  fst (process_incoming_message_try Sample.env_store_fails Sample.hello Sample.start)
    = Raise Sqlite3Error /\
  fst run = EOF /\
  log (snd run) =
    [(ERROR, Error_processing_message Sqlite3Error);
     (INFO, Saved_message (JStr "+15550100") (JStr "Team") 1);
     (INFO, Downloaded_attachment (JStr "a1") "attachments/a1.txt");
     (ERROR, Error_processing_attachment_response Sqlite3Error);
     (INFO, Saved_message (JStr "+15550100") (JStr "Team") 2)] /\
  size (db_rows (snd run)) = 2%nat.
Proof. vm_compute. repeat split. Qed.

(** ** Request identifiers *)

(** C4 at its failing input: two attachments with one identifier, requested
    within one millisecond, get one request identifier; the second
    registration replaces the first, so two requests are outstanding under
    a single table entry and the second response finds none. *)
Theorem repeated_attachment_id_overwrites_entry :
  let w := process_incoming_message Sample.env_same_ms Sample.twice
             "attachments" Sample.start in
  let w' := snd (main_loop Sample.env_same_ms
                   [Decoded (Sample.response "1700000000000a1" "WA==");
                    Decoded (Sample.response "1700000000000a1" "WA==")]
                   "attachments" w) in
  map (fun frame => jget frame "id") (agent_stdin w)
    = [JStr "1700000000000a1"; JStr "1700000000000a1"] /\
  size (pending_attachments w) = 1%nat /\
  log w' = (log w ++
    [(INFO, Downloaded_attachment (JStr "a1") "attachments/a1.txt");
     (INFO, Updated_message 1 "attachments/a1.txt");
     (ERROR, Unknown_request_id (JStr "1700000000000a1"))])%list.
Proof. vm_compute. repeat split. Qed.

(** ** Attachment paths *)

Lemma updated_paths_app mid l1 l2 :
  updated_paths mid (l1 ++ l2) = (updated_paths mid l1 ++ updated_paths mid l2)%list.
Proof.
  induction l1 as [|[lvl msg] l1 IH]; [reflexivity|].
  simpl. destruct msg; try exact IH.
  destruct (mid0 =? mid); simpl; rewrite IH; reflexivity.
Qed.

Global Instance grows_preorder E mid : PreOrder (grows E mid).
Proof.
  split.
  - intros w. exists []. split; [symmetry; apply app_nil_r|].
    intros paths Hp. simpl. rewrite app_nil_r. exact Hp.
  - intros w1 w2 w3 (n1 & Hl1 & H1) (n2 & Hl2 & H2).
    exists (n1 ++ n2)%list. split.
    + rewrite Hl2, Hl1, app_assoc. reflexivity.
    + intros paths Hp. rewrite updated_paths_app, app_assoc. apply H2, H1, Hp.
Qed.

Section Paths.

Variable E : Env.
Variable mid : Z.
Hypothesis Hcodec : codec_roundtrip E.
Hypothesis Hio : forall n, io_fault E n = false.

(** A step that touches neither the log nor the table. *)
Lemma grows_quiet w w' :
  log w' = log w -> db_rows w' = db_rows w -> grows E mid w w'.
Proof.
  intros Hl Hd. exists []. split; [rewrite Hl; symmetry; apply app_nil_r|].
  intros paths (r & Hr & Hp). simpl. rewrite app_nil_r.
  exists r. rewrite Hd. split; assumption.
Qed.

(** A log record that reports no added path. *)
Lemma grows_logger lvl msg :
  updated_paths mid [(lvl, msg)] = [] -> keeps (grows E mid) (logger lvl msg).
Proof.
  intros Hu w. exists [(lvl, msg)]. split; [reflexivity|].
  intros paths Hp. rewrite Hu, app_nil_r. exact Hp.
Qed.

Lemma grows_logged lvl msg w :
  updated_paths mid [(lvl, msg)] = [] ->
  grows E mid w (set_log (log w ++ [(lvl, msg)]) w).
Proof. intros Hu. exact (grows_logger lvl msg Hu w). Qed.

Lemma grows_io e : keeps (grows E mid) (io E e).
Proof.
  intros w. unfold io. destruct (io_fault E (io_ops w)); apply grows_quiet; reflexivity.
Qed.

(** A new row never takes the place of the record [mid]. *)
Lemma grows_insert w r :
  grows E mid w (set_db (<[next_rowid w := r]> (db_rows w)) (next_rowid w) w).
Proof.
  exists []. split; [symmetry; apply app_nil_r|].
  intros paths (r0 & Hr0 & Hp). simpl. rewrite app_nil_r.
  exists r0. split; [|exact Hp]. simpl.
  rewrite lookup_insert_ne; [exact Hr0|].
  intros Heq. rewrite <- Heq, next_rowid_fresh in Hr0. discriminate.
Qed.

Lemma grows_commit begun : keeps (grows E mid) (conn_commit E begun).
Proof.
  intros w. rewrite conn_commit_ok by apply Hio. apply grows_quiet; reflexivity.
Qed.

Lemma update_run xs m s p w :
  sqlite_bind (JInt m) = inr s ->
  (begun <- begin_transaction ;;
   cursor_execute_update E (json_dumps E (JArr (xs ++ [JStr p]))) m ;;;
   conn_commit E begun ;;;
   logger INFO (Updated_message m p)) w
  = (Ok tt,
     set_log (log w ++ [(INFO, Updated_message m p)])
       (tick_io (tick_io
          (set_db (alter (set_attachmentPaths
                            (SText (json_dumps E (JArr (xs ++ [JStr p]))))) m
                         (db_rows w)) (db_seq w) w)))).
Proof.
  intros Hm. erewrite bind_ok by reflexivity.
  unfold cursor_execute_update.
  erewrite bind_ok.
  2:{ erewrite bind_ok by reflexivity. rewrite Hm.
      erewrite bind_ok by reflexivity.
      erewrite bind_ok by (apply io_ok, Hio). reflexivity. }
  erewrite bind_ok by (apply conn_commit_ok, Hio).
  reflexivity.
Qed.

(** The read-modify-write of lines 239-248. *)
Lemma grows_update_tail m p :
  keeps (grows E mid)
    (fetched <- cursor_select_attachmentPaths E m ;;
     match fetched with
     | Some col =>
         attachmentPaths <-
           (if sql_truthy col then json_loads_col E col else ret (JArr [])) ;;
         attachmentPaths <- py_append attachmentPaths (JStr p) ;;
         begun <- begin_transaction ;;
         cursor_execute_update E (json_dumps E attachmentPaths) m ;;;
         conn_commit E begun ;;;
         logger INFO (Updated_message m p)
     | None => logger ERROR (Message_id_not_found m)
     end).
Proof.
  intros w. unfold cursor_select_attachmentPaths.
  destruct (sqlite_bind (JInt m)) as [e|s] eqn:Hm.
  { erewrite bind_raise by reflexivity. reflexivity. }
  erewrite bind_ok.
  2:{ erewrite bind_ok by reflexivity.
      erewrite bind_ok by (apply io_ok, Hio). reflexivity. }
  change (db_rows (tick_io w)) with (db_rows w).
  destruct (db_rows w !! m) as [r|] eqn:Hr; cbn [fmap option_fmap option_map].
  2:{ etransitivity; [apply grows_quiet with (w' := tick_io w); reflexivity|].
      apply grows_logger. reflexivity. }
  (* what the column loads to *)
  assert (Hload : forall paths,
            m = mid -> has_paths E w mid paths ->
            (if sql_truthy (attachmentPaths r)
             then json_loads_col E (attachmentPaths r) else ret (JArr [])) (tick_io w)
            = (Ok (JArr (JStr <$> paths)), tick_io w)).
  { intros paths -> (r0 & Hr0 & Hp). rewrite Hr in Hr0. injection Hr0 as <-.
    rewrite Hp. destruct (Hcodec paths) as [Hrt Hne].
    simpl. destruct (String.eqb_spec (json_dumps E (JArr (JStr <$> paths))) "");
      [contradiction|].
    simpl. rewrite Hrt. reflexivity. }
  destruct ((if sql_truthy (attachmentPaths r)
             then json_loads_col E (attachmentPaths r) else ret (JArr []))
              (tick_io w)) as [[j|e] w1] eqn:Hrun.
  2:{ assert (Hw1 : log w1 = log w /\ db_rows w1 = db_rows w).
      { destruct (sql_truthy (attachmentPaths r)).
        - unfold json_loads_col in Hrun.
          destruct (attachmentPaths r); try (injection Hrun as _ <-; split; reflexivity).
          destruct (json_loads E s0); injection Hrun as _ <-; split; reflexivity.
        - discriminate Hrun. }
      erewrite bind_raise by exact Hrun.
      apply grows_quiet; apply Hw1. }
  assert (Hw1 : w1 = tick_io w).
  { destruct (sql_truthy (attachmentPaths r)).
    - unfold json_loads_col in Hrun.
      destruct (attachmentPaths r); try discriminate Hrun.
      destruct (json_loads E s0); [|discriminate Hrun].
      injection Hrun as _ <-. reflexivity.
    - injection Hrun as _ <-. reflexivity. }
  subst w1. erewrite bind_ok by exact Hrun.
  destruct j as [| | | | |xs|]; try (erewrite bind_raise by reflexivity;
                                      apply grows_quiet; reflexivity).
  erewrite bind_ok by reflexivity.
  rewrite (update_run xs m s p (tick_io w) Hm).
  exists [(INFO, Updated_message m p)]. split; [reflexivity|].
  intros paths Hp. cbn [updated_paths snd].
  destruct (Z.eqb_spec m mid) as [Heq|Hne].
  - specialize (Hload paths Heq Hp). injection Hload as ->. subst m.
    destruct Hp as (r0 & Hr0 & Hp0). rewrite Hr in Hr0. injection Hr0 as <-.
    exists (set_attachmentPaths
              (SText (json_dumps E (JArr ((JStr <$> paths) ++ [JStr p])))) r).
    split.
    + simpl. rewrite lookup_alter_eq, Hr. reflexivity.
    + simpl. rewrite fmap_app. reflexivity.
  - rewrite app_nil_r. destruct Hp as (r0 & Hr0 & Hp0).
    exists r0. split; [|exact Hp0].
    simpl. rewrite lookup_alter_ne by exact Hne. exact Hr0.
Qed.


(** The steps of a proof of [keeps (grows E mid)]. *)
Ltac grows_leaf :=
  let w := fresh "w" in
  intros w; unfold now_ms; simpl;
  repeat case_match; apply grows_quiet; reflexivity.

Ltac grows_step :=
  lazymatch goal with
  | |- keeps (grows _ _) (bind (cursor_select_attachmentPaths _ _) _) =>
      apply grows_update_tail
  | |- keeps (grows _ _) (logger _ _) => apply grows_logger; reflexivity
  | |- keeps (grows _ _) (io _ _) => apply grows_io
  | |- keeps (grows _ _) (conn_commit _ _) => apply grows_commit
  | |- keeps (grows _ _) (fun w => (Ok (next_rowid w), _)) =>
      let w := fresh "w" in intros w; apply grows_insert
  | |- keeps (grows _ _) (bind _ _) => apply keeps_bind; [|intros ?]
  | |- keeps (grows _ _) (pending_contains ?r) =>
      unfold pending_contains; destruct r
  | |- keeps (grows _ _) (pending_pop ?r) => unfold pending_pop; destruct r
  | |- keeps (grows _ _) (now_ms _) => grows_leaf
  | |- keeps (grows _ _) (fun _ => _) => grows_leaf
  | |- _ => keeps_step
  end.

Lemma ingest_grows message :
  keeps (grows E mid) (process_incoming_message_try E message).
Proof.
  unfold process_incoming_message_try. repeat grows_step.
Qed.

Lemma resolve_grows message request_id dir :
  keeps (grows E mid) (process_attachment_response_try E message request_id dir).
Proof.
  unfold process_attachment_response_try. repeat grows_step.
Qed.

Lemma dispatch_grows message dir : keeps (grows E mid) (dispatch E message dir).
Proof.
  unfold dispatch. repeat grows_step.
  - intros w. simpl. unfold process_incoming_message.
    pose proof (ingest_grows message w) as H.
    destruct (process_incoming_message_try E message w) as [[[]|e] w1];
      simpl in *; [exact H|].
    etransitivity; [exact H | apply grows_logged; reflexivity].
  - intros w. simpl. unfold process_attachment_response.
    match goal with
    | |- context [process_attachment_response_try E ?m ?r ?d w] =>
        pose proof (resolve_grows m r d w) as H;
        destruct (process_attachment_response_try E m r d w) as [[[]|e] w1]
    end; simpl in *; [exact H|].
    etransitivity; [exact H | apply grows_logged; reflexivity].
Qed.

Lemma main_loop_grows lines dir : forall w,
  grows E mid w (snd (main_loop E lines dir w)).
Proof.
  induction lines as [|l lines IH]; intros w.
  - reflexivity.
  - destruct l as [|line|line e|message]; simpl.
    + apply IH.
    + etransitivity; [|apply IH]. apply grows_logged. reflexivity.
    + destruct e; simpl; try reflexivity.
      etransitivity; [|apply IH]. apply grows_logged. reflexivity.
    + pose proof (dispatch_grows message dir w) as H.
      destruct (dispatch E message dir w) as [[[]|e] w1]; simpl in *.
      * etransitivity; [exact H | apply IH].
      * exact H.
Qed.

End Paths.

(** ** The sample codec reads back what it writes *)

Module SampleFacts.
Import Sample.

Lemma append_cons c s t : String c s +:+ t = String c (s +:+ t).
Proof. reflexivity. Qed.

Lemma append_empty t : EmptyString +:+ t = t.
Proof. reflexivity. Qed.

Lemma append_assoc (a b c : string) : (a +:+ b) +:+ c = a +:+ (b +:+ c).
Proof.
  induction a as [|x a IH]; [reflexivity|].
  rewrite !append_cons, IH. reflexivity.
Qed.

Ltac norm_append :=
  repeat (rewrite append_assoc || rewrite append_cons || rewrite append_empty).

Lemma read_str_escape x tail :
  read_str (escape x +:+ String dquote tail) = Some (x, tail).
Proof.
  induction x as [|c x IH].
  - reflexivity.
  - cbn [escape].
    destruct (Ascii.eqb c dquote || Ascii.eqb c backslash) eqn:Hc.
    + rewrite !append_cons. cbn [read_str].
      change (Ascii.eqb backslash dquote) with false.
      change (Ascii.eqb backslash backslash) with true.
      cbv iota. rewrite Hc, IH. reflexivity.
    + rewrite append_cons. cbn [read_str].
      apply orb_false_elim in Hc as [-> ->]. rewrite IH. reflexivity.
Qed.

Lemma strs_of_fmap paths : strs_of (JStr <$> paths) = Some paths.
Proof.
  induction paths as [|p paths IH]; [reflexivity|].
  cbn [fmap list_fmap strs_of]. change (list_fmap _ _ JStr paths) with (JStr <$> paths).
  rewrite IH. reflexivity.
Qed.

Lemma read_items_dumps x rest : forall fuel,
  (length (x :: rest) <= fuel)%nat ->
  read_items fuel (dumps_items (x :: rest) +:+ "]") = Some (x :: rest).
Proof.
  revert x. induction rest as [|y rest IH]; intros x fuel Hfuel.
  - destruct fuel as [|fuel]; [simpl in Hfuel; lia|].
    cbn [dumps_items]. unfold dumps_str. norm_append.
    cbn [read_items]. change (Ascii.eqb dquote dquote) with true. cbv iota.
    rewrite read_str_escape. reflexivity.
  - destruct fuel as [|fuel]; [simpl in Hfuel; lia|].
    change (dumps_items (x :: y :: rest))
      with (dumps_str x +:+ ", " +:+ dumps_items (y :: rest)).
    unfold dumps_str at 1. norm_append.
    cbn [read_items]. change (Ascii.eqb dquote dquote) with true. cbv iota.
    rewrite read_str_escape.
    change (String.eqb (String "," _) "]") with false. cbv iota.
    change (Ascii.eqb "," "," && Ascii.eqb " " " ") with true. cbv iota.
    rewrite IH by (simpl in *; lia). reflexivity.
Qed.

Lemma dumps_items_length ss :
  (length ss <= String.length (dumps_items ss +:+ "]"))%nat.
Proof.
  assert (Hlen : forall a b, String.length (a +:+ b) = (String.length a + String.length b)%nat).
  { intros a b. induction a as [|c a IH]; [reflexivity|].
    rewrite append_cons. simpl. rewrite IH. reflexivity. }
  induction ss as [|x [|y rest] IH].
  - simpl. lia.
  - simpl. lia.
  - change (dumps_items (x :: y :: rest))
      with (dumps_str x +:+ ", " +:+ dumps_items (y :: rest)).
    rewrite append_assoc, Hlen, append_assoc, Hlen.
    unfold dumps_str. simpl in *. lia.
Qed.

Lemma codec_roundtrip_sample (E : Env) :
  json_dumps E = dumps -> json_loads E = loads -> codec_roundtrip E.
Proof.
  intros Hd Hl paths. rewrite Hd, Hl. unfold dumps. rewrite strs_of_fmap.
  split; [|destruct paths; discriminate].
  destruct paths as [|x rest]; [reflexivity|].
  unfold loads.
  replace (String.eqb ("[" +:+ dumps_items (x :: rest) +:+ "]") "[]") with false.
  2:{ destruct rest; reflexivity. }
  rewrite append_cons, append_empty.
  change (Ascii.eqb "[" "[") with true. cbv iota.
  rewrite read_items_dumps by apply dumps_items_length.
  reflexivity.
Qed.

(** The sample decoders on a few texts, as the libraries answer them. *)
Example base64_decode_examples :
  base64_decode "WA==" = Some [Byte.x58] /\
  base64_decode "@@@@" = Some [] /\
  base64_decode "W A = =" = Some [Byte.x58] /\
  base64_decode "WA==junk" = Some [Byte.x58] /\
  base64_decode "=WA==" = Some [Byte.x58] /\
  base64_decode "WAA=" = Some [Byte.x58; Byte.x00] /\
  base64_decode "WA" = None /\
  base64_decode "WA=" = None /\
  base64_decode "WA=A" = None /\
  base64_decode "W" = None.
Proof. repeat split. Qed.

Example mime_table_examples :
  mime_table "IMAGE/PNG" = Some ".png" /\
  mime_table "text/plain" = Some ".txt" /\
  mime_table "application/x-unknown" = None.
Proof. repeat split. Qed.

(** The integers INTEGER columns store for the reals 2.0, -0.0, 2^62 and
    0.5, 2^63, -2^63. *)
Example real_as_integer_examples :
  real_as_integer (S754_finite false 1 1) = Some 2 /\
  real_as_integer (S754_zero true) = Some 0 /\
  real_as_integer (S754_finite false 1 62) = Some (2 ^ 62) /\
  real_as_integer (S754_finite false 1 (-1)) = None /\
  real_as_integer (S754_finite false 1 63) = None /\
  real_as_integer (S754_finite true 1 63) = None.
Proof. repeat split. Qed.


End SampleFacts.

(** ** The attachment-path list of a record *)

(** A record just created has the empty path list. *)
Lemma new_record_has_no_paths E message dir w :
  group_message message ->
  io_fault E (io_ops w) = false -> io_fault E (S (io_ops w)) = false ->
  has_paths E (process_incoming_message E message dir w) (next_rowid w) [].
Proof.
  intros Hgm Hio Hcommit. exists (message_record E message). split; [|reflexivity].
  rewrite (handler_projection db_rows) by reflexivity.
  rewrite group_message_reaches_insert by assumption.
  erewrite bind_ok by (apply conn_commit_ok; exact Hcommit).
  lazymatch goal with
  | |- db_rows (snd (?T ?w1)) !! _ = _ =>
      assert (keeps (same db_rows) T) as HT by keeps_auto;
      rewrite (HT w1)
  end.
  simpl. apply lookup_insert_eq.
Qed.

(** The end-to-end scenario: the message [hello] with the attachment [a1],
    then the response carrying the byte [X] as text/plain. *)
Example end_to_end_hello :
  let w := snd (main_loop Sample.env
                  [Decoded Sample.hello; Decoded Sample.hello_response]
                  "attachments" Sample.start) in
  has_paths Sample.env w 1 ["attachments/a1.txt"] /\
  message <$> db_rows w !! 1 = Some (SText "hello") /\
  files w !! "attachments/a1.txt" = Some [Byte.x58] /\
  agent_stdin w = [getAttachment_frame "1700000000000a1" (JStr "a1") (JStr "G1")] /\
  pending_attachments w = ∅.
Proof.
  repeat split; try (vm_compute; reflexivity).
  eexists. split; vm_compute; reflexivity.
Qed.

(** The end-to-end scenario without a dataMessage: no record, no request,
    no log record. *)
Example end_to_end_receipt :
  main_loop Sample.env [Decoded Sample.receipt] "attachments" Sample.start
  = (EOF, Sample.start).
Proof. reflexivity. Qed.

(** A matched response without a result, or whose result has no payload
    data, only consumes its table entry and leaves a log record. *)
Lemma failed_response_run E message k dir w info :
  pending_attachments w !! k = Some info ->
  truthy (jget message "result") = false \/
  truthy (jget (jget message "result") "data") = false ->
  exists l, process_attachment_response E message (JStr k) dir w
            = set_log l (set_pending (delete k) w).
Proof.
  intros Hk Hfail.
  unfold process_attachment_response, process_attachment_response_try.
  erewrite bind_ok.
  2:{ simpl. rewrite bool_decide_true by (rewrite Hk; eauto). reflexivity. }
  cbn [negb]. cbv iota.
  erewrite bind_ok by (simpl; rewrite Hk; reflexivity).
  destruct message as [| | | | | |ms];
    try (erewrite bind_raise by reflexivity; eexists; reflexivity).
  erewrite bind_ok by apply py_get_jget.
  destruct (truthy (jget (JObj ms) "result")) eqn:Hres;
    [|eexists; reflexivity].
  destruct Hfail as [Hfail|Hfail]; [discriminate|].
  destruct (jget (JObj ms) "result") as [| | | | | |rs];
    try (erewrite bind_raise by reflexivity; eexists; reflexivity).
  erewrite bind_ok by apply py_get_jget.
  erewrite bind_ok by apply py_get_obj.
  rewrite Hfail. eexists; reflexivity.
Qed.

(** A matched response with payload data that decodes, for an attachment
    whose identifier is a str and whose record exists: the derived path is
    appended to the record's list and the update is logged. *)
Lemma resolved_attachment_is_appended
    E message k dir w info a ritems d bytes name paths :
  codec_roundtrip E ->
  (forall n, io_fault E n = false) ->
  pending_attachments w !! k = Some info ->
  attachment_id info = JStr a ->
  jget message "result" = JObj ritems ->
  jget (JObj ritems) "data" = JStr d -> d <> "" ->
  b64decode E d = Some bytes ->
  (forall w0, derive_file_name E (JStr a)
     (default (JStr "application/octet-stream") (dict_get ritems "contentType")) w0
     = (Ok (JStr name), w0)) ->
  - 2 ^ 63 <= message_id info < 2 ^ 63 ->
  has_paths E w (message_id info) paths ->
  let w' := process_attachment_response E message (JStr k) dir w in
  log w' = (log w ++
    [(INFO, Downloaded_attachment (JStr a) (path_join dir name));
     (INFO, Updated_message (message_id info) (path_join dir name))])%list /\
  has_paths E w' (message_id info) (paths ++ [path_join dir name]).
Proof.
  intros Hcodec Hio Hk Ha Hres Hdata Hd Hdec Hname Hrange (r & Hr & Hp) w'.
  subst w'.
  destruct (jget_inv _ _ _ Hres) as (mitems & -> & Hget); [discriminate|].
  assert (Htr : truthy (JObj ritems) = true).
  { destruct ritems; [discriminate | reflexivity]. }
  assert (Htd : truthy (JStr d) = true).
  { simpl. destruct (String.eqb_spec d ""); [contradiction | reflexivity]. }
  assert (Hbind : sqlite_bind (JInt (message_id info)) = inr (SInt (message_id info))).
  { simpl. destruct Hrange as [Hlo Hhi].
    apply Z.leb_le in Hlo. apply Z.ltb_lt in Hhi. rewrite Hlo, Hhi. reflexivity. }
  destruct (Hcodec paths) as [Hrt Hne].
  unfold process_attachment_response, process_attachment_response_try.
  erewrite bind_ok.
  2:{ simpl. rewrite bool_decide_true by (rewrite Hk; eauto). reflexivity. }
  cbn [negb]. cbv iota.
  erewrite bind_ok by (simpl; rewrite Hk; reflexivity).
  erewrite bind_ok by (apply py_get_found; exact Hget).
  rewrite Htr.
  erewrite bind_ok by apply py_get_jget.
  rewrite Hdata.
  erewrite bind_ok by apply py_get_obj.
  rewrite Htd.
  erewrite bind_ok by (simpl; rewrite Hdec; reflexivity).
  rewrite Ha. erewrite bind_ok by apply Hname.
  erewrite bind_ok by reflexivity.
  erewrite bind_ok by (apply write_file_ok; apply Hio).
  erewrite bind_ok by reflexivity.
  erewrite bind_ok.
  2:{ unfold cursor_select_attachmentPaths. rewrite Hbind.
      erewrite bind_ok by reflexivity.
      erewrite bind_ok by (apply io_ok, Hio).
      simpl. rewrite Hr. reflexivity. }
  cbn [fmap option_fmap option_map]. rewrite Hp.
  erewrite bind_ok.
  2:{ simpl. destruct (String.eqb_spec (json_dumps E (JArr (JStr <$> paths))) "");
        [contradiction|].
      simpl. rewrite Hrt. reflexivity. }
  erewrite bind_ok by reflexivity.
  rewrite (update_run E Hio _ _ _ _ _ Hbind).
  split; [simpl; rewrite <- app_assoc; reflexivity|].
  exists (set_attachmentPaths
            (SText (json_dumps E (JArr ((JStr <$> paths) ++ [JStr (path_join dir name)])))) r).
  split.
  - simpl. rewrite lookup_alter_eq, Hr. reflexivity.
  - simpl. rewrite fmap_app. reflexivity.
Qed.

(** C5, as the code has it: over any run of the loop the attachment-path
    list of a record grows by exactly the paths the log reports as added to
    it, one per successfully resolved attachment and in the order of
    resolution, so that its length is the number of those attachments; a
    successful resolution appends the derived path of its file; a matched
    response without a result or without payload data adds nothing to the
    table, the files or the agent's stdin (no retry) and only consumes its
    table entry. The list can hold one path twice. *)
Theorem attachment_paths_follow_resolutions E mid :
  codec_roundtrip E ->
  (forall n, io_fault E n = false) ->
  (forall lines dir w paths,
     has_paths E w mid paths ->
     let w' := snd (main_loop E lines dir w) in
     exists new,
       log w' = (log w ++ new)%list /\
       has_paths E w' mid (paths ++ updated_paths mid new)) /\
  (forall message k dir w info a ritems d bytes name paths,
     pending_attachments w !! k = Some info ->
     message_id info = mid ->
     attachment_id info = JStr a ->
     jget message "result" = JObj ritems ->
     jget (JObj ritems) "data" = JStr d -> d <> "" ->
     b64decode E d = Some bytes ->
     (forall w0, derive_file_name E (JStr a)
        (default (JStr "application/octet-stream")
           (dict_get ritems "contentType")) w0
        = (Ok (JStr name), w0)) ->
     - 2 ^ 63 <= mid < 2 ^ 63 ->
     has_paths E w mid paths ->
     let w' := process_attachment_response E message (JStr k) dir w in
     log w' = (log w ++
       [(INFO, Downloaded_attachment (JStr a) (path_join dir name));
        (INFO, Updated_message mid (path_join dir name))])%list /\
     has_paths E w' mid (paths ++ [path_join dir name])) /\
  (forall message k dir w info,
     pending_attachments w !! k = Some info ->
     truthy (jget message "result") = false \/
     truthy (jget (jget message "result") "data") = false ->
     let w' := process_attachment_response E message (JStr k) dir w in
     db_rows w' = db_rows w /\ files w' = files w /\
     agent_stdin w' = agent_stdin w /\
     pending_attachments w' = delete k (pending_attachments w)).
Proof.
  intros Hcodec Hio. repeat apply conj.
  - intros lines dir w paths Hp w'.
    destruct (main_loop_grows E mid Hcodec Hio lines dir w) as (new & Hlog & Hgrow).
    exists new. split; [exact Hlog | apply Hgrow, Hp].
  - intros message k dir w info a ritems d bytes name paths
      Hk Hmid Ha Hres Hdata Hd Hdec Hname Hrange Hp. subst mid.
    eapply resolved_attachment_is_appended; eassumption.
  - intros message k dir w info Hk Hfail w'. subst w'.
    destruct (failed_response_run E message k dir w info Hk Hfail) as [l ->].
    repeat split.
Qed.

Lemma attachment_paths_follow_resolutions_witness :
  let w' := snd (main_loop Sample.env
                   [Decoded Sample.hello_response; Decoded Sample.hello_response]
                   "attachments" Sample.awaiting) in
  exists new,
    log w' = (log Sample.awaiting ++ new)%list /\
    has_paths Sample.env w' 1 ([] ++ updated_paths 1 new).
Proof.
  apply (proj1 (attachment_paths_follow_resolutions Sample.env 1
                  (SampleFacts.codec_roundtrip_sample Sample.env eq_refl eq_refl)
                  (fun n => eq_refl))).
  eexists. split; vm_compute; reflexivity.
Defined.

(** C5 as stated fails: the attachments [a1] (text/plain) and [a1.txt] of
    one message resolve to the same file path, and the record's list holds
    that path twice. *)
Lemma resolved_paths_can_repeat :
  let w := snd (main_loop Sample.env
                  [Decoded Sample.two_names;
                   Decoded (Sample.response "1700000000000a1" "WA==");
                   Decoded (Sample.response "1700000000001a1.txt" "WQ==")]
                  "attachments" Sample.start) in
  has_paths Sample.env w 1 ["attachments/a1.txt"; "attachments/a1.txt"] /\
  ~ NoDup ["attachments/a1.txt"; "attachments/a1.txt"].
Proof.
  split.
  - eexists. split; vm_compute; reflexivity.
  - intros H. apply NoDup_cons in H as [Hin _]. apply Hin. left.
Qed.

(** * More of the engine *)

(** ** Invariants of a run *)

Global Instance records_kept_preorder : PreOrder records_kept.
Proof.
  split.
  - intros w k r H. exists r. split; [exact H | reflexivity].
  - intros w1 w2 w3 H12 H23 k r H.
    destruct (H12 k r H) as (r2 & H2 & E2).
    destruct (H23 k r2 H2) as (r3 & H3 & E3).
    exists r3. split; [exact H3 | congruence].
Qed.

Global Instance requests_only_preorder : PreOrder requests_only.
Proof.
  split.
  - intros w. exists []. split; [symmetry; apply app_nil_r | constructor].
  - intros w1 w2 w3 (n1 & H1 & F1) (n2 & H2 & F2).
    exists (n1 ++ n2)%list. split.
    + rewrite H2, H1, app_assoc. reflexivity.
    + apply Forall_app. split; assumption.
Qed.

Global Instance log_extends_preorder : PreOrder log_extends.
Proof.
  split.
  - intros w. unfold log_extends. reflexivity.
  - intros w1 w2 w3 H1 H2. unfold log_extends in *. etransitivity; eassumption.
Qed.

Global Instance files_kept_preorder : PreOrder files_kept.
Proof.
  split.
  - intros w. unfold files_kept. reflexivity.
  - intros w1 w2 w3 H1 H2. unfold files_kept in *. etransitivity; eassumption.
Qed.

Create HintDb transactions.

(** A proof of [keeps R m] along the structure of [m]; [leaf] settles the
    primitives. *)
Ltac walk leaf :=
  repeat lazymatch goal with
  | |- keeps _ (bind begin_transaction _) =>
      first [ apply keeps_transaction; [solve [auto with transactions]| |intros ?]
            | apply keeps_bind; [|intros ?] ]
  | |- keeps _ (bind _ _) => apply keeps_bind; [|intros ?]
  | |- keeps _ (ret _) => apply keeps_ret
  | |- keeps _ (raise _) => apply keeps_raise
  | |- keeps _ (lift _) => apply keeps_lift
  | |- keeps _ (when _ _) => apply keeps_when
  | |- keeps _ (for_each _ _) => apply keeps_for_each; intros ?
  | |- keeps _ (py_get _ _ _) => apply keeps_py_get
  | |- keeps _ (py_in _ _) => apply keeps_py_in
  | |- keeps _ (py_iter _) => apply keeps_py_iter
  | |- keeps _ (py_append _ _) => apply keeps_py_append
  | |- keeps _ (os_path_join _ _) => apply keeps_os_path_join
  | |- keeps _ (base64_b64decode _ _) => apply keeps_base64_b64decode
  | |- keeps _ (json_loads_col _ _) => apply keeps_json_loads_col
  | |- keeps _ (derive_file_name _ _ _) => apply keeps_derive_file_name
  | |- keeps _ (if ?b then _ else _) => destruct b
  | |- keeps _ (match ?x with _ => _ end) => destruct x
  | |- keeps _ (request_attachment _ _ _ _) => unfold request_attachment
  | |- keeps _ (stdin_write _ _) => unfold stdin_write
  | |- keeps _ (stdin_flush _) => unfold stdin_flush
  | |- keeps _ (write_file _ _ _) => unfold write_file
  | |- keeps _ begin_transaction => unfold begin_transaction
  | |- keeps _ (conn_commit _ _) => unfold conn_commit
  | |- keeps _ (cursor_execute_insert _ _ _ _ _ _ _ _ _ _ _ _ _) =>
      unfold cursor_execute_insert
  | |- keeps _ (cursor_select_attachmentPaths _ _) =>
      unfold cursor_select_attachmentPaths
  | |- keeps _ (cursor_execute_update _ _ _) => unfold cursor_execute_update
  | |- keeps _ (pending_contains ?r) => unfold pending_contains; destruct r
  | |- keeps _ (pending_pop ?r) => unfold pending_pop; destruct r
  | |- keeps _ _ => leaf
  end.

(** The state a primitive leaves, laid bare. *)
Ltac expose :=
  let w := fresh "w" in
  intros w; unfold io, now_ms, logger; simpl; repeat case_match; simpl.

Section Run.

Variable E : Env.
Variable R : relation world.
Context `{!PreOrder R}.

(** [R] survives one more log record. *)
Hypothesis R_logged : forall w entry, R w (set_log (log w ++ [entry]) w).
Hypothesis R_ingest : forall message, keeps R (process_incoming_message_try E message).
Hypothesis R_resolve : forall message request_id dir,
  keeps R (process_attachment_response_try E message request_id dir).

Lemma process_incoming_message_keeps message dir w :
  R w (process_incoming_message E message dir w).
Proof.
  unfold process_incoming_message. pose proof (R_ingest message w) as H.
  destruct (process_incoming_message_try E message w) as [[[]|e] w1];
    simpl in H; [exact H|].
  etransitivity; [exact H | apply R_logged].
Qed.

Lemma process_attachment_response_keeps message request_id dir w :
  R w (process_attachment_response E message request_id dir w).
Proof.
  unfold process_attachment_response.
  pose proof (R_resolve message request_id dir w) as H.
  destruct (process_attachment_response_try E message request_id dir w)
    as [[[]|e] w1]; simpl in H; [exact H|].
  etransitivity; [exact H | apply R_logged].
Qed.

Lemma dispatch_keeps message dir : keeps R (dispatch E message dir).
Proof.
  intros w. unfold dispatch.
  assert (Hdbg : exists w1,
            when (debug_enabled E) (logger DEBUG (Received_message message)) w
            = (Ok tt, w1) /\ R w w1).
  { destruct (debug_enabled E); eexists; (split; [reflexivity|]);
      [apply R_logged | reflexivity]. }
  destruct Hdbg as (w1 & Hrun & Hw1).
  erewrite bind_ok by exact Hrun.
  etransitivity; [exact Hw1|].
  destruct message as [| | | | | |items];
    try (erewrite bind_raise by reflexivity; reflexivity).
  erewrite bind_ok by apply py_get_obj.
  destruct (py_eq_str (default JNull (dict_get items "method")) "receive").
  { apply process_incoming_message_keeps. }
  erewrite bind_ok by reflexivity.
  destruct (dict_has items "id").
  - erewrite bind_ok by apply py_get_obj. apply process_attachment_response_keeps.
  - apply R_logged.
Qed.

Lemma main_loop_keeps lines dir : forall w, R w (snd (main_loop E lines dir w)).
Proof.
  induction lines as [|l lines IH]; intros w.
  - reflexivity.
  - destruct l as [|line|line e|message]; simpl.
    + apply IH.
    + etransitivity; [apply R_logged | apply IH].
    + destruct e; simpl; try reflexivity.
      etransitivity; [apply R_logged | apply IH].
    + pose proof (dispatch_keeps message dir w) as H.
      destruct (dispatch E message dir w) as [[[]|e] w1]; simpl in *.
      * etransitivity; [exact H | apply IH].
      * exact H.
Qed.

End Run.

Lemma records_kept_same_rows w w' :
  db_rows w' = db_rows w -> records_kept w w'.
Proof. intros H k r Hr. exists r. rewrite H. split; [exact Hr | reflexivity]. Qed.

Lemma records_kept_insert w r :
  records_kept w (set_db (<[next_rowid w := r]> (db_rows w)) (next_rowid w) w).
Proof.
  intros k r0 Hr0. exists r0. split; [|reflexivity]. simpl.
  rewrite lookup_insert_ne; [exact Hr0|].
  intros Heq. rewrite <- Heq, next_rowid_fresh in Hr0. discriminate.
Qed.

Lemma records_kept_update w v mid :
  records_kept w (set_db (alter (set_attachmentPaths v) mid (db_rows w)) (db_seq w) w).
Proof.
  intros k r Hr. simpl. destruct (decide (mid = k)) as [->|Hne].
  - exists (set_attachmentPaths v r). rewrite lookup_alter_eq, Hr.
    split; reflexivity.
  - exists r. rewrite lookup_alter_ne by exact Hne. split; [exact Hr | reflexivity].
Qed.

Lemma records_kept_transactional : transactional records_kept.
Proof. split; intros; apply records_kept_same_rows; reflexivity. Qed.

#[local] Hint Resolve records_kept_transactional : transactions.

Ltac records_leaf :=
  expose;
  first [ apply records_kept_insert
        | apply records_kept_update
        | apply records_kept_same_rows; reflexivity ].

Lemma ingest_keeps_records E message :
  keeps records_kept (process_incoming_message_try E message).
Proof. unfold process_incoming_message_try. walk records_leaf. Qed.

Lemma resolve_keeps_records E message request_id dir :
  keeps records_kept (process_attachment_response_try E message request_id dir).
Proof. unfold process_attachment_response_try. walk records_leaf. Qed.

Ltac requests_leaf :=
  expose;
  first [ exists []; split; [symmetry; apply app_nil_r | constructor]
        | eexists [_]; split;
          [reflexivity | repeat constructor; do 3 eexists; reflexivity] ].

Lemma ingest_writes_requests E message :
  keeps requests_only (process_incoming_message_try E message).
Proof. unfold process_incoming_message_try. walk requests_leaf. Qed.

Lemma resolve_writes_requests E message request_id dir :
  keeps requests_only (process_attachment_response_try E message request_id dir).
Proof. unfold process_attachment_response_try. walk requests_leaf. Qed.

Ltac log_leaf :=
  expose; unfold log_extends; simpl;
  first [ reflexivity | apply prefix_app_r; reflexivity ].

Lemma ingest_extends_log E message :
  keeps log_extends (process_incoming_message_try E message).
Proof. unfold process_incoming_message_try. walk log_leaf. Qed.

Lemma resolve_extends_log E message request_id dir :
  keeps log_extends (process_attachment_response_try E message request_id dir).
Proof. unfold process_attachment_response_try. walk log_leaf. Qed.

Ltac files_leaf :=
  expose; unfold files_kept; simpl;
  first [ reflexivity | rewrite dom_insert_L; set_solver ].

Lemma ingest_keeps_files E message :
  keeps files_kept (process_incoming_message_try E message).
Proof. unfold process_incoming_message_try. walk files_leaf. Qed.

Lemma resolve_keeps_files E message request_id dir :
  keeps files_kept (process_attachment_response_try E message request_id dir).
Proof. unfold process_attachment_response_try. walk files_leaf. Qed.

(** X1: over any run of the loop no record is deleted and no column other
    than the attachment paths is changed. *)
Theorem run_keeps_records E lines dir w k r :
  db_rows w !! k = Some r ->
  exists r', db_rows (snd (main_loop E lines dir w)) !! k = Some r' /\
             without_paths r' = without_paths r.
Proof.
  intros Hr.
  apply (main_loop_keeps E records_kept) with (lines := lines) (dir := dir) (w := w);
    [ intros w0 entry; apply records_kept_same_rows; reflexivity
    | apply ingest_keeps_records
    | apply resolve_keeps_records
    | exact Hr ].
Qed.

Lemma run_keeps_records_witness :
  exists r',
    db_rows (snd (main_loop Sample.env
                    [Decoded Sample.hello_response; Decoded Sample.twice]
                    "attachments" Sample.awaiting)) !! 1 = Some r' /\
    without_paths r' = without_paths (message_record Sample.env Sample.hello).
Proof.
  apply (run_keeps_records Sample.env
           [Decoded Sample.hello_response; Decoded Sample.twice]
           "attachments" Sample.awaiting 1 (message_record Sample.env Sample.hello)).
  vm_compute. reflexivity.
Defined.

(** X2: whatever the lines hold, everything the loop writes to the agent is
    a getAttachment request. *)
Theorem run_writes_only_requests E lines dir w :
  exists new,
    agent_stdin (snd (main_loop E lines dir w)) = (agent_stdin w ++ new)%list /\
    Forall is_request new.
Proof.
  apply (main_loop_keeps E requests_only);
    [ intros w0 entry; exists []; split; [symmetry; apply app_nil_r | constructor]
    | apply ingest_writes_requests
    | apply resolve_writes_requests ].
Qed.

(** X3: the loop never drops a log record and never removes a file. *)
Theorem run_keeps_log_and_files E lines dir w :
  log w `prefix_of` log (snd (main_loop E lines dir w)) /\
  dom (files w) ⊆ dom (files (snd (main_loop E lines dir w))).
Proof.
  split.
  - apply (main_loop_keeps E log_extends);
      [ intros w0 entry; unfold log_extends; simpl; apply prefix_app_r; reflexivity
      | apply ingest_extends_log
      | apply resolve_extends_log ].
  - apply (main_loop_keeps E files_kept);
      [ intros w0 entry; unfold files_kept; reflexivity
      | apply ingest_keeps_files
      | apply resolve_keeps_files ].
Qed.


(** ** Lines and frames *)

Lemma dispatch_non_object E message dir w :
  ~ is_obj message ->
  exists w1, dispatch E message dir w = (Raise AttributeError, w1).
Proof.
  intros Hobj. unfold dispatch.
  destruct (when_debug_ok E (Received_message message) w) as [w1 Hw1].
  rewrite (bind_ok _ _ _ _ _ Hw1).
  destruct message; try (erewrite bind_raise by reflexivity; eexists; reflexivity).
  contradiction Hobj. eexists; reflexivity.
Qed.

Lemma frames_then E pre dir w :
  Forall is_frame pre ->
  exists w1, forall rest, main_loop E (pre ++ rest) dir w = main_loop E rest dir w1.
Proof.
  revert w. induction pre as [|l pre IH]; intros w Hall.
  - exists w. reflexivity.
  - apply Forall_cons in Hall as [Hl Hall].
    destruct l as [|line|line e|message]; simpl; try (apply IH, Hall).
    + simpl in Hl. subst e. apply IH, Hall.
    + destruct Hl as [items ->].
      destruct (dispatch_frame_returns E items dir w) as [w' ->].
      apply IH, Hall.
Qed.

(** X6: a decoded line that is not a JSON object ends the loop with an
    AttributeError that no handler catches, and none of the lines after it
    is read. *)
Theorem loop_stops_at_first_non_object E pre message rest dir w :
  Forall is_frame pre ->
  ~ is_obj message ->
  fst (main_loop E (pre ++ Decoded message :: rest) dir w) = Uncaught AttributeError /\
  main_loop E (pre ++ Decoded message :: rest) dir w
  = main_loop E (pre ++ [Decoded message]) dir w.
Proof.
  intros Hpre Hobj.
  destruct (frames_then E pre dir w Hpre) as [w1 Hrun].
  rewrite !Hrun. simpl. destruct (dispatch_non_object E message dir w1 Hobj) as [w2 ->].
  split; reflexivity.
Qed.

Lemma loop_stops_at_first_non_object_witness :
  fst (main_loop Sample.env
         ([Decoded Sample.hello] ++ Decoded (JArr []) :: [Decoded Sample.hello_response])
         "attachments" Sample.start) = Uncaught AttributeError /\
  main_loop Sample.env
    ([Decoded Sample.hello] ++ Decoded (JArr []) :: [Decoded Sample.hello_response])
    "attachments" Sample.start
  = main_loop Sample.env ([Decoded Sample.hello] ++ [Decoded (JArr [])])
      "attachments" Sample.start.
Proof.
  apply (loop_stops_at_first_non_object Sample.env [Decoded Sample.hello]
           (JArr []) [Decoded Sample.hello_response] "attachments" Sample.start).
  - repeat constructor. eexists; reflexivity.
  - intros [items H]. discriminate H.
Defined.


(** ** More on the ingestor *)

Lemma one_more_refl w : one_more w w.
Proof. left. reflexivity. Qed.

Lemma one_more_after_same {A B} (m : M A) (k : A -> M B) :
  keeps (same (fun w => (db_rows w, db_seq w))) m ->
  (forall a, keeps one_more (k a)) ->
  keeps one_more (bind m k).
Proof.
  intros Hm Hk w. unfold bind. specialize (Hm w). unfold same in Hm.
  destruct (m w) as [[a|e] w1]; simpl in *.
  - injection Hm as Hrows Hseq.
    assert (Hnext : next_rowid w1 = next_rowid w)
      by (unfold next_rowid; rewrite Hrows, Hseq; reflexivity).
    destruct (Hk a w1) as [H|[r H]].
    + left. congruence.
    + right. exists r. rewrite H, Hnext, Hrows. reflexivity.
  - injection Hm as Hrows _. left. exact Hrows.
Qed.

Lemma one_more_then_same {A B} (m : M A) (k : A -> M B) :
  keeps one_more m ->
  (forall a, keeps (same db_rows) (k a)) ->
  keeps one_more (bind m k).
Proof.
  intros Hm Hk w. unfold bind. specialize (Hm w).
  destruct (m w) as [[a|e] w1]; simpl in *; [|exact Hm].
  specialize (Hk a w1). unfold same in Hk.
  destruct Hm as [H|[r H]]; [left | right; exists r]; congruence.
Qed.

Lemma insert_one_more E p1 p2 p3 p4 p5 p6 p7 p8 p9 p10 p11 p12 :
  keeps one_more (cursor_execute_insert E p1 p2 p3 p4 p5 p6 p7 p8 p9 p10 p11 p12).
Proof.
  unfold cursor_execute_insert.
  repeat (apply one_more_after_same; [keeps_auto | intros ?]).
  intros w. right. eexists. reflexivity.
Qed.

(** The INSERT, its commit and what follows: the row is added, or the
    table is back where the transaction began. *)
Lemma transaction_one_more {B} E p1 p2 p3 p4 p5 p6 p7 p8 p9 p10 p11 p12
    (k : Z -> M B) :
  (forall a, keeps (same db_rows) (k a)) ->
  keeps one_more
    (bind begin_transaction (fun begun =>
     bind (cursor_execute_insert E p1 p2 p3 p4 p5 p6 p7 p8 p9 p10 p11 p12)
       (fun a => bind (conn_commit E begun) (fun _ => k a)))).
Proof.
  intros Hk w. unfold bind, begin_transaction.
  pose proof (insert_one_more E p1 p2 p3 p4 p5 p6 p7 p8 p9 p10 p11 p12 w) as H.
  destruct (cursor_execute_insert E p1 p2 p3 p4 p5 p6 p7 p8 p9 p10 p11 p12 w)
    as [[a|e] w1]; simpl in *; [|exact H].
  unfold conn_commit. destruct (io_fault E (io_ops w1)); simpl.
  - left. reflexivity.
  - specialize (Hk a (tick_io w1)). unfold same in Hk. simpl in Hk.
    destruct H as [H|[r H]]; [left | right; exists r]; congruence.
Qed.

Ltac one_more_step :=
  lazymatch goal with
  | |- keeps one_more (bind begin_transaction _) =>
      apply transaction_one_more; intros ?; keeps_auto
  | |- keeps one_more (bind _ _) =>
      apply one_more_after_same; [keeps_auto | intros ?]
  | |- keeps one_more (ret _) => intros ?; apply one_more_refl
  | |- keeps one_more (if ?b then _ else _) => destruct b
  | |- keeps one_more (match ?x with _ => _ end) => destruct x
  end.

Lemma ingest_one_more E message :
  keeps one_more (process_incoming_message_try E message).
Proof. unfold process_incoming_message_try. repeat one_more_step. Qed.

(** X7: whatever the frame holds and whatever fails, one notification adds
    at most one record, under a rowid the table did not have, and leaves
    every other record as it was. *)
Theorem at_most_one_record E message dir w :
  let w' := process_incoming_message E message dir w in
  db_rows w !! next_rowid w = None /\
  (db_rows w' = db_rows w \/
   exists r, db_rows w' = <[next_rowid w := r]> (db_rows w)).
Proof.
  intros w'. split; [apply next_rowid_fresh|]. subst w'.
  rewrite (handler_projection db_rows) by reflexivity.
  apply ingest_one_more.
Qed.

Global Instance kept_or_taken_preorder mid : PreOrder (kept_or_taken mid).
Proof.
  split.
  - intros w k info Hk. left. exact Hk.
  - intros w1 w2 w3 H12 H23 k info Hk.
    destruct (H12 k info Hk) as [H2|[a H2]].
    + apply (H23 k info H2).
    + destruct (H23 k _ H2) as [H3|[a' H3]]; right; eauto.
Qed.

Lemma kept_or_taken_same mid w w' :
  pending_attachments w' = pending_attachments w -> kept_or_taken mid w w'.
Proof. intros H k info Hk. left. rewrite H. exact Hk. Qed.

Lemma kept_or_taken_register mid request_id a w :
  kept_or_taken mid w
    (set_pending (<[request_id := {| message_id := mid; attachment_id := a |}]>) w).
Proof.
  intros k info Hk. simpl. destruct (decide (request_id = k)) as [->|Hne].
  - right. exists a. apply lookup_insert_eq.
  - left. rewrite lookup_insert_ne by exact Hne. exact Hk.
Qed.

Ltac kept_or_taken_leaf :=
  expose;
  first [ apply kept_or_taken_register
        | apply kept_or_taken_same; reflexivity ].

(** The requests of one record, after its INSERT: every entry they replace
    is replaced by a request of that record. *)
Lemma requests_keep_or_take E src grp gid mid attachments :
  keeps (kept_or_taken mid)
    (logger INFO (Saved_message src grp mid) ;;;
     attachment_list <- py_iter attachments ;;
     for_each attachment_list (request_attachment E gid mid)).
Proof. walk kept_or_taken_leaf. Qed.

(** The INSERT returns the next rowid and does not touch the correlation
    table. *)
Lemma insert_returns_next_rowid E p1 p2 p3 p4 p5 p6 p7 p8 p9 p10 p11 p12 w :
  match cursor_execute_insert E p1 p2 p3 p4 p5 p6 p7 p8 p9 p10 p11 p12 w with
  | (Ok a, w1) =>
      a = next_rowid w /\ pending_attachments w1 = pending_attachments w
  | (Raise _, w1) => pending_attachments w1 = pending_attachments w
  end.
Proof.
  unfold cursor_execute_insert.
  repeat lazymatch goal with
  | |- context [bind (lift (sqlite_bind ?p)) _ w] =>
      destruct (sqlite_bind p) as [?|?];
      [ erewrite bind_raise by reflexivity; reflexivity
      | erewrite bind_ok by reflexivity ]
  end.
  unfold bind, io. destruct (io_fault E (io_ops w)); simpl; [reflexivity|].
  split; reflexivity.
Qed.

(** The steps before the INSERT leave the tables as they are. *)
Lemma kept_or_taken_after_same {A B} (m : M A) (k : A -> M B) :
  keeps (same (fun w => (db_rows w, db_seq w, pending_attachments w))) m ->
  (forall a w, kept_or_taken (next_rowid w) w (snd (k a w))) ->
  forall w, kept_or_taken (next_rowid w) w (snd (bind m k w)).
Proof.
  intros Hm Hk w. unfold bind. specialize (Hm w). unfold same in Hm.
  destruct (m w) as [[a|e] w1]; simpl in *; injection Hm as Hrows Hseq Hpending.
  - assert (Hnext : next_rowid w1 = next_rowid w)
      by (unfold next_rowid; rewrite Hrows, Hseq; reflexivity).
    specialize (Hk a w1). rewrite Hnext in Hk.
    intros k0 info Hk0. rewrite <- Hpending in Hk0. exact (Hk k0 info Hk0).
  - apply kept_or_taken_same. exact Hpending.
Qed.

Lemma ingest_keeps_or_takes E message w :
  kept_or_taken (next_rowid w) w (snd (process_incoming_message_try E message w)).
Proof.
  revert w. unfold process_incoming_message_try.
  repeat lazymatch goal with
  | |- forall w, kept_or_taken _ w (snd (bind begin_transaction _ w)) => idtac
  | |- forall w, kept_or_taken _ w (snd (bind _ _ w)) =>
      apply kept_or_taken_after_same; [keeps_auto | intros ?]
  | |- forall w, kept_or_taken _ w (snd ((if ?b then _ else _) w)) => destruct b
  | |- forall w, kept_or_taken _ w (snd ((let '(_, _) := ?x in _) w)) =>
      destruct x as [[? ?] ?]
  | |- forall w, kept_or_taken _ w (snd (ret _ w)) => intros w; reflexivity
  end.
  intros w. unfold bind at 1 2. unfold begin_transaction.
  lazymatch goal with
  | |- context [cursor_execute_insert E ?p1 ?p2 ?p3 ?p4 ?p5 ?p6 ?p7 ?p8 ?p9 ?p10 ?p11 ?p12 w] =>
      pose proof (insert_returns_next_rowid E p1 p2 p3 p4 p5 p6 p7 p8 p9 p10 p11 p12 w) as H;
      destruct (cursor_execute_insert E p1 p2 p3 p4 p5 p6 p7 p8 p9 p10 p11 p12 w)
        as [[mid|e] w1]
  end; simpl; [|apply kept_or_taken_same; exact H].
  destruct H as [-> Hpending].
  unfold bind at 1. unfold conn_commit.
  destruct (io_fault E (io_ops w1)); simpl.
  - apply kept_or_taken_same. exact Hpending.
  - lazymatch goal with
    | |- kept_or_taken _ _ (snd (?T (tick_io w1))) =>
        pose proof (requests_keep_or_take E _ _ _ _ _ (tick_io w1) : 
                      kept_or_taken (next_rowid w) (tick_io w1) (snd (T (tick_io w1)))) as H
    end.
    intros k info Hk. apply H. simpl. rewrite Hpending. exact Hk.
Qed.

(** X8: ingesting a notification never writes or removes a file, and never
    removes a key of the correlation table: an outstanding request is left
    as it was, or its entry is overwritten by a request of the record this
    notification adds. *)
Theorem ingest_keeps_files_and_request_keys E message dir w :
  let w' := process_incoming_message E message dir w in
  files w' = files w /\
  forall k info,
    pending_attachments w !! k = Some info ->
    pending_attachments w' !! k = Some info \/
    exists a, pending_attachments w' !! k
              = Some {| message_id := next_rowid w; attachment_id := a |}.
Proof.
  intros w'. subst w'. split.
  - rewrite (handler_projection files) by reflexivity.
    assert (keeps (same files) (process_incoming_message_try E message)) as H
      by (unfold process_incoming_message_try; keeps_auto).
    apply H.
  - rewrite (handler_projection pending_attachments) by reflexivity.
    apply ingest_keeps_or_takes.
Qed.


(** A notification that passes the gates runs up to the INSERT with the
    values it carries. *)
Lemma ingest_reaches_insert_call E message w :
  passes_gates message ->
  process_incoming_message_try E message w =
  (begun <- begin_transaction ;;
   message_id <- cursor_execute_insert E
     (jget (envelope_of message) "source")
     (jget (envelope_of message) "sourceName")
     (jget (envelope_of message) "timestamp")
     (jget (dataMessage_of message) "message")
     (jget (groupInfo_of message) "groupId")
     (jget (groupInfo_of message) "groupName")
     (JStr (json_dumps E (JArr []))) (JStr "") JNull
     (jget (quote_of message) "id")
     (jget (quote_of message) "author")
     (jget (quote_of message) "text") ;;
   conn_commit E begun ;;;
   logger INFO (Saved_message (jget (envelope_of message) "source")
                  (jget (groupInfo_of message) "groupName") message_id) ;;;
   attachment_list <- py_iter (attachments_of message) ;;
   for_each attachment_list
     (request_attachment E (jget (groupInfo_of message) "groupId") message_id)) w.
Proof.
  intros (Hgi & [gi Hgiobj] & Hcontent & Hq).
  assert (Hatt := truthy_attachments_of message).
  unfold attachments_of in *.
  unfold groupInfo_of, quote_of in *.
  destruct (jget_inv _ _ _ Hgiobj) as (dm & Hdm & Hgi_get); [discriminate|].
  rewrite Hdm in *. rewrite Hgiobj in *.
  unfold dataMessage_of in *.
  destruct (jget_inv _ _ _ Hdm) as (env & Henv & Hdm_get); [discriminate|].
  rewrite Henv in *.
  unfold envelope_of in *.
  destruct (jget_inv _ _ _ Henv) as (ps & Hps & Henv_get); [discriminate|].
  rewrite Hps in *.
  destruct (jget_inv _ _ _ Hps) as (ms & -> & Hps_get); [discriminate|].
  assert (Hdm_truthy : truthy (JObj dm) = true).
  { destruct dm; [discriminate | reflexivity]. }
  unfold process_incoming_message_try.
  erewrite bind_ok by (apply py_get_found; exact Hps_get).
  erewrite bind_ok by (apply py_get_found; exact Henv_get).
  erewrite bind_ok by (apply py_get_found; exact Hdm_get).
  rewrite Hdm_truthy. cbn [negb].
  erewrite bind_ok by (apply py_get_found; exact Hgi_get).
  rewrite Hgi. cbn [negb].
  erewrite bind_ok by apply py_get_jget.
  erewrite bind_ok by apply py_get_obj.
  rewrite Hatt.
  replace (negb (truthy (jget (JObj dm) "message")) &&
           negb (truthy (jget (JObj dm) "attachments"))) with false
    by (rewrite <- negb_orb, Hcontent; reflexivity).
  do 5 (erewrite bind_ok by apply py_get_jget).
  erewrite bind_ok by apply py_get_jget.
  erewrite bind_ok by (apply quote_fields_run; exact Hq).
  reflexivity.
Qed.

Lemma sqlite_bind_error v e :
  sqlite_bind v = inl e -> e = Sqlite3Error \/ e = OverflowError.
Proof.
  destruct v as [| |z|f| | |]; simpl; try discriminate.
  - destruct (_ && _); [discriminate|]. intros [= <-]. right. reflexivity.
  - destruct f; discriminate.
  - intros [= <-]. left. reflexivity.
  - intros [= <-]. left. reflexivity.
Qed.

Lemma insert_unbindable E p1 p2 p3 p4 p5 p6 p7 p8 p9 p10 p11 p12 w :
  ~ Forall bindable [p1; p2; p3; p4; p5; p6; p7; p8; p9; p10; p11; p12] ->
  exists e,
    (e = Sqlite3Error \/ e = OverflowError) /\
    cursor_execute_insert E p1 p2 p3 p4 p5 p6 p7 p8 p9 p10 p11 p12 w = (Raise e, w).
Proof.
  intros Hnot. unfold cursor_execute_insert.
  repeat lazymatch goal with
  | |- context [bind (lift (sqlite_bind ?p)) _ w] =>
      let Hp := fresh "Hp" in
      destruct (sqlite_bind p) as [e|?] eqn:Hp;
      [ exists e; split; [exact (sqlite_bind_error _ _ Hp) | reflexivity]
      | erewrite bind_ok by reflexivity ]
  end.
  exfalso. apply Hnot. repeat constructor; eexists; eassumption.
Qed.

(** X9: when a field of a notification cannot be bound to the INSERT (a
    list, a dict, an integer outside 64 bits), the notification is dropped
    whole: no record, no request, no clock reading; the error is logged. *)
Theorem unbindable_field_drops_notification E message dir w :
  passes_gates message ->
  ~ Forall bindable (bound_fields message) ->
  exists e,
    (e = Sqlite3Error \/ e = OverflowError) /\
    process_incoming_message E message dir w
    = set_log (log w ++ [(ERROR, Error_processing_message e)]) w.
Proof.
  intros Hgates Hnot. unfold process_incoming_message.
  rewrite ingest_reaches_insert_call by exact Hgates.
  erewrite bind_ok by reflexivity.
  match goal with
  | |- context [bind (cursor_execute_insert E ?p1 ?p2 ?p3 ?p4 ?p5 ?p6 ?p7 ?p8 ?p9 ?p10 ?p11 ?p12) _ w] =>
      destruct (insert_unbindable E p1 p2 p3 p4 p5 p6 p7 p8 p9 p10 p11 p12 w)
        as (e & He & Hrun)
  end.
  { intros Hall. apply Hnot. unfold bound_fields.
    repeat match goal with
           | H : Forall _ (_ :: _) |- _ => apply Forall_cons in H as [? H]
           end.
    repeat constructor; assumption. }
  exists e. split; [exact He|].
  erewrite bind_raise by exact Hrun. reflexivity.
Qed.

Lemma unbindable_field_drops_notification_witness :
  exists e,
    (e = Sqlite3Error \/ e = OverflowError) /\
    process_incoming_message Sample.env Cases.overflowing "attachments" Sample.start
    = set_log (log Sample.start ++ [(ERROR, Error_processing_message e)]) Sample.start.
Proof.
  apply (unbindable_field_drops_notification Sample.env Cases.overflowing
           "attachments" Sample.start).
  - repeat split; try reflexivity.
    + eexists; reflexivity.
    + intros H; discriminate H.
  - intros H.
    apply Forall_cons in H as [_ H]. apply Forall_cons in H as [_ H].
    apply Forall_cons in H as [[s Hs] _]. vm_compute in Hs. discriminate Hs.
Defined.


Lemma for_each_app {A} (l1 l2 : list A) (body : A -> M unit) w :
  for_each (l1 ++ l2) body w = (for_each l1 body ;;; for_each l2 body) w.
Proof.
  revert w. induction l1 as [|x l1 IH]; intros w.
  - reflexivity.
  - simpl. unfold bind. destruct (body x w) as [[[]|e] w1]; [|reflexivity].
    rewrite IH. reflexivity.
Qed.

(** The state after the INSERT, the commit and the log record of a group
    message, when neither operation fails. *)
Lemma group_message_saved E message w :
  group_message message ->
  io_fault E (io_ops w) = false -> io_fault E (S (io_ops w)) = false ->
  process_incoming_message_try E message w =
  (attachment_list <- py_iter (attachments_of message) ;;
   for_each attachment_list
     (request_attachment E (jget (groupInfo_of message) "groupId") (next_rowid w)))
    (set_log (log w ++
       [(INFO, Saved_message (jget (envelope_of message) "source")
                 (jget (groupInfo_of message) "groupName") (next_rowid w))])
       (tick_io (tick_io
          (set_db (<[next_rowid w := message_record E message]> (db_rows w))
             (next_rowid w) w)))).
Proof.
  intros Hgm Hio1 Hio2.
  rewrite group_message_reaches_insert by assumption.
  erewrite bind_ok by (apply conn_commit_ok; exact Hio2).
  erewrite bind_ok by reflexivity.
  reflexivity.
Qed.

(** X10: the attachment list is read with [dataMessage.get('attachments', [])]:
    a group message without the key, or with an empty list, is stored
    without any request and without an error; one whose key holds null, a
    number or a boolean is stored too, but the loop over it raises
    TypeError, which is logged, and no request is made. *)
Theorem attachments_key_absent_or_not_a_list E message dir w :
  group_message message ->
  io_fault E (io_ops w) = false -> io_fault E (S (io_ops w)) = false ->
  let w' := process_incoming_message E message dir w in
  let saved := (INFO, Saved_message (jget (envelope_of message) "source")
                        (jget (groupInfo_of message) "groupName") (next_rowid w)) in
  db_rows w' = <[next_rowid w := message_record E message]> (db_rows w) /\
  (attachments_of message = JArr [] ->
   agent_stdin w' = agent_stdin w /\
   pending_attachments w' = pending_attachments w /\
   log w' = (log w ++ [saved])%list) /\
  (not_iterable (attachments_of message) ->
   agent_stdin w' = agent_stdin w /\
   pending_attachments w' = pending_attachments w /\
   log w' = (log w ++ [saved; (ERROR, Error_processing_message TypeError)])%list).
Proof.
  intros Hgm Hio1 Hio2 w' saved. subst w' saved. split.
  { rewrite (handler_projection db_rows) by reflexivity.
    rewrite group_message_reaches_insert by assumption.
    erewrite bind_ok by (apply conn_commit_ok; exact Hio2).
    lazymatch goal with
    | |- db_rows (snd (?T ?w1)) = _ =>
        assert (keeps (same db_rows) T) as HT by keeps_auto; exact (HT w1)
    end. }
  unfold process_incoming_message.
  rewrite group_message_saved by assumption.
  destruct (attachments_of message) as [| | | | |l|] eqn:Hatts;
    (split; [try discriminate | try (intros [])]).
  1-4: (erewrite bind_raise by reflexivity; simpl;
        repeat split; rewrite <- app_assoc; reflexivity).
  intros [= ->]. simpl. repeat split.
Qed.

Lemma attachments_key_absent_or_not_a_list_witness :
  let w' := process_incoming_message Sample.env Cases.null_attachments
              "attachments" Sample.start in
  let saved := (INFO, Saved_message
                        (jget (envelope_of Cases.null_attachments) "source")
                        (jget (groupInfo_of Cases.null_attachments) "groupName")
                        (next_rowid Sample.start)) in
  db_rows w' = <[next_rowid Sample.start :=
                   message_record Sample.env Cases.null_attachments]>
                 (db_rows Sample.start) /\
  (attachments_of Cases.null_attachments = JArr [] ->
   agent_stdin w' = agent_stdin Sample.start /\
   pending_attachments w' = pending_attachments Sample.start /\
   log w' = (log Sample.start ++ [saved])%list) /\
  (not_iterable (attachments_of Cases.null_attachments) ->
   agent_stdin w' = agent_stdin Sample.start /\
   pending_attachments w' = pending_attachments Sample.start /\
   log w' = (log Sample.start ++
             [saved; (ERROR, Error_processing_message TypeError)])%list).
Proof.
  apply (attachments_key_absent_or_not_a_list Sample.env Cases.null_attachments
           "attachments" Sample.start).
  - repeat split; try reflexivity.
    + eexists; reflexivity.
    + intros H; discriminate H.
    + repeat constructor; eexists; reflexivity.
  - reflexivity.
  - reflexivity.
Defined.

(** X11: the record and the requests are not one transaction: when an element
    of the attachment list is not a dict, the record stays, the requests
    for the attachments before it stay written and registered, the
    AttributeError is logged and no request is made for the attachments
    after it. *)
Theorem bad_attachment_keeps_record_and_earlier_requests
    E message dir w pre bad post :
  group_message message ->
  attachments_of message = JArr (pre ++ bad :: post) ->
  Forall is_obj pre ->
  ~ is_obj bad ->
  no_fault_from E (io_ops w) ->
  let w' := process_incoming_message E message dir w in
  let requests := issued E (clock_reads w) pre in
  db_rows w' = <[next_rowid w := message_record E message]> (db_rows w) /\
  agent_stdin w' = (agent_stdin w ++
    map (fun r => getAttachment_frame (fst r) (snd r)
                    (jget (groupInfo_of message) "groupId")) requests)%list /\
  pending_attachments w' =
    foldl (register (next_rowid w)) (pending_attachments w) requests /\
  last (log w') = Some (ERROR, Error_processing_message AttributeError).
Proof.
  intros Hgm Hatts Hpre Hbad Hio w' requests. subst w' requests. split.
  { rewrite (handler_projection db_rows) by reflexivity.
    rewrite group_message_reaches_insert by (try apply Hio; auto).
    erewrite bind_ok by (apply conn_commit_ok, Hio; simpl; lia).
    lazymatch goal with
    | |- db_rows (snd (?T ?w1)) = _ =>
        assert (keeps (same db_rows) T) as HT by keeps_auto; exact (HT w1)
    end. }
  unfold process_incoming_message.
  rewrite group_message_saved by (try apply Hio; auto; lia).
  rewrite Hatts.
  erewrite bind_ok by reflexivity.
  rewrite for_each_app.
  match goal with
  | |- context [bind (for_each pre ?body) _ ?w1] =>
      destruct (request_loop_run E (jget (groupInfo_of message) "groupId")
                  (next_rowid w) pre w1 Hpre) as (w2 & Hrun & Hs & Hp)
  end.
  { intros k Hk. apply Hio. simpl in Hk. lia. }
  erewrite bind_ok by exact Hrun.
  simpl for_each.
  assert (Hraise : request_attachment E (jget (groupInfo_of message) "groupId")
                     (next_rowid w) bad w2 = (Raise AttributeError, w2)).
  { unfold request_attachment.
    destruct bad; try (erewrite bind_raise by reflexivity; reflexivity).
    contradiction Hbad. eexists; reflexivity. }
  erewrite bind_raise by exact Hraise.
  simpl. rewrite Hs, Hp. repeat split. apply last_snoc.
Qed.

Lemma bad_attachment_keeps_record_and_earlier_requests_witness :
  let w' := process_incoming_message Sample.env Cases.broken_list
              "attachments" Sample.start in
  let requests := issued Sample.env (clock_reads Sample.start)
                    [JObj [("id", JStr "a1")]] in
  db_rows w' = <[next_rowid Sample.start :=
                   message_record Sample.env Cases.broken_list]>
                 (db_rows Sample.start) /\
  agent_stdin w' = (agent_stdin Sample.start ++
    map (fun r => getAttachment_frame (fst r) (snd r)
                    (jget (groupInfo_of Cases.broken_list) "groupId")) requests)%list /\
  pending_attachments w' =
    foldl (register (next_rowid Sample.start))
          (pending_attachments Sample.start) requests /\
  last (log w') = Some (ERROR, Error_processing_message AttributeError).
Proof.
  apply (bad_attachment_keeps_record_and_earlier_requests Sample.env
           Cases.broken_list "attachments" Sample.start
           [JObj [("id", JStr "a1")]] (JStr "a2") [JObj [("id", JStr "a3")]]).
  - repeat split; try reflexivity.
    + eexists; reflexivity.
    + intros H; discriminate H.
    + repeat constructor; eexists; reflexivity.
  - reflexivity.
  - repeat constructor. eexists; reflexivity.
  - intros [items H]. discriminate H.
  - intros k _. reflexivity.
Defined.


(** ** More on the resolver *)

Lemma resolver_projection {X} (f : world -> X) E message request_id dir w :
  (forall l w0, f (set_log l w0) = f w0) ->
  f (process_attachment_response E message request_id dir w)
  = f (snd (process_attachment_response_try E message request_id dir w)).
Proof.
  intros Hf. unfold process_attachment_response.
  destruct (process_attachment_response_try E message request_id dir w)
    as [[[]|e] w1]; simpl; [reflexivity | apply Hf].
Qed.

Global Instance pending_shrinks_preorder : PreOrder pending_shrinks.
Proof.
  split.
  - intros w. unfold pending_shrinks. reflexivity.
  - intros w1 w2 w3 H1 H2. unfold pending_shrinks in *. etransitivity; eassumption.
Qed.

Global Instance same_rowids_preorder : PreOrder same_rowids.
Proof.
  split.
  - intros w. reflexivity.
  - intros w1 w2 w3 H1 H2. unfold same_rowids in *. congruence.
Qed.

Lemma same_rowids_transactional : transactional same_rowids.
Proof. split; intros; reflexivity. Qed.

Lemma same_db_seq_transactional : transactional (same db_seq).
Proof. split; intros; reflexivity. Qed.

#[local] Hint Resolve same_rowids_transactional same_db_seq_transactional
  : transactions.

Ltac shrinks_leaf :=
  expose; unfold pending_shrinks; simpl;
  first [ reflexivity | apply delete_subseteq ].

Ltac rowids_leaf :=
  expose; unfold same_rowids; simpl;
  first [ reflexivity | apply dom_alter_L ].

(** X12: resolving a response never writes to the agent (a failed fetch is
    not requested again), never reads the clock, never registers a request
    and never adds or deletes a record. *)
Theorem resolver_only_consumes E message request_id dir w :
  let w' := process_attachment_response E message request_id dir w in
  agent_stdin w' = agent_stdin w /\
  clock_reads w' = clock_reads w /\
  pending_attachments w' ⊆ pending_attachments w /\
  dom (db_rows w') = dom (db_rows w) /\
  db_seq w' = db_seq w.
Proof.
  intros w'. subst w'.
  rewrite (resolver_projection agent_stdin) by reflexivity.
  rewrite (resolver_projection clock_reads) by reflexivity.
  rewrite (resolver_projection pending_attachments) by reflexivity.
  rewrite (resolver_projection db_rows) by reflexivity.
  rewrite (resolver_projection db_seq) by reflexivity.
  repeat split.
  - assert (keeps (same agent_stdin)
              (process_attachment_response_try E message request_id dir)) as H
      by (unfold process_attachment_response_try; walk keeps_leaf).
    apply H.
  - assert (keeps (same clock_reads)
              (process_attachment_response_try E message request_id dir)) as H
      by (unfold process_attachment_response_try; walk keeps_leaf).
    apply H.
  - assert (keeps pending_shrinks
              (process_attachment_response_try E message request_id dir)) as H
      by (unfold process_attachment_response_try; walk shrinks_leaf).
    apply H.
  - assert (keeps same_rowids
              (process_attachment_response_try E message request_id dir)) as H
      by (unfold process_attachment_response_try; walk rowids_leaf).
    apply H.
  - assert (keeps (same db_seq)
              (process_attachment_response_try E message request_id dir)) as H
      by (unfold process_attachment_response_try; walk keeps_leaf).
    apply H.
Qed.

(** A matched response with payload data that decodes, for an attachment
    whose identifier is a str, runs up to the SELECT: the entry is consumed,
    the file is written and the download is logged. *)
Lemma resolve_reaches_select E message k dir w info a ritems d bytes name :
  pending_attachments w !! k = Some info ->
  attachment_id info = JStr a ->
  jget message "result" = JObj ritems ->
  jget (JObj ritems) "data" = JStr d -> d <> "" ->
  b64decode E d = Some bytes ->
  (forall w0, derive_file_name E (JStr a)
     (default (JStr "application/octet-stream") (dict_get ritems "contentType")) w0
     = (Ok (JStr name), w0)) ->
  io_fault E (io_ops w) = false -> io_fault E (S (io_ops w)) = false ->
  process_attachment_response_try E message (JStr k) dir w =
  (fetched <- cursor_select_attachmentPaths E (message_id info) ;;
   match fetched with
   | Some col =>
       attachmentPaths <-
         (if sql_truthy col then json_loads_col E col else ret (JArr [])) ;;
       attachmentPaths <- py_append attachmentPaths (JStr (path_join dir name)) ;;
       begun <- begin_transaction ;;
       cursor_execute_update E (json_dumps E attachmentPaths) (message_id info) ;;;
       conn_commit E begun ;;;
       logger INFO (Updated_message (message_id info) (path_join dir name))
   | None => logger ERROR (Message_id_not_found (message_id info))
   end)
    (set_log (log w ++ [(INFO, Downloaded_attachment (JStr a) (path_join dir name))])
       (set_files (<[path_join dir name := bytes]> (files w))
          (tick_io (tick_io (set_pending (delete k) w))))).
Proof.
  intros Hk Ha Hres Hdata Hd Hdec Hname Hio1 Hio2.
  destruct (jget_inv _ _ _ Hres) as (mitems & -> & Hr); [discriminate|].
  assert (Htr : truthy (JObj ritems) = true).
  { destruct ritems; [discriminate | reflexivity]. }
  assert (Htd : truthy (JStr d) = true).
  { simpl. destruct (String.eqb_spec d ""); [contradiction | reflexivity]. }
  unfold process_attachment_response_try.
  erewrite bind_ok.
  2:{ simpl. rewrite bool_decide_true by (rewrite Hk; eauto). reflexivity. }
  cbn [negb]. cbv iota.
  erewrite bind_ok by (simpl; rewrite Hk; reflexivity).
  erewrite bind_ok by (apply py_get_found; exact Hr).
  rewrite Htr.
  erewrite bind_ok by apply py_get_jget.
  rewrite Hdata.
  erewrite bind_ok by apply py_get_obj.
  rewrite Htd.
  erewrite bind_ok by (simpl; rewrite Hdec; reflexivity).
  rewrite Ha. erewrite bind_ok by apply Hname.
  erewrite bind_ok by reflexivity.
  erewrite bind_ok by (apply write_file_ok; assumption).
  erewrite bind_ok by reflexivity.
  reflexivity.
Qed.


Lemma rowid_binds mid :
  rowid_in_range mid -> sqlite_bind (JInt mid) = inr (SInt mid).
Proof.
  intros [Hlo Hhi]. simpl.
  apply Z.leb_le in Hlo. apply Z.ltb_lt in Hhi. rewrite Hlo, Hhi. reflexivity.
Qed.

Lemma select_run E mid w :
  rowid_in_range mid -> io_fault E (io_ops w) = false ->
  cursor_select_attachmentPaths E mid w
  = (Ok (attachmentPaths <$> db_rows w !! mid), tick_io w).
Proof.
  intros Hmid Hio. unfold cursor_select_attachmentPaths.
  rewrite (rowid_binds mid Hmid).
  erewrite bind_ok by reflexivity.
  erewrite bind_ok by (apply io_ok; exact Hio).
  reflexivity.
Qed.

Lemma select_found E mid w r :
  rowid_in_range mid -> io_fault E (io_ops w) = false ->
  db_rows w !! mid = Some r ->
  cursor_select_attachmentPaths E mid w = (Ok (Some (attachmentPaths r)), tick_io w).
Proof.
  intros Hmid Hio Hr. rewrite select_run by assumption. rewrite Hr. reflexivity.
Qed.

(** X13: when the record of a resolved attachment is no longer in the table,
    the file stays on disk, the table is left as it was, and the missing
    record is logged as an error. *)
Theorem orphaned_attachment_keeps_file E message k dir w info a bytes name :
  pending_attachments w !! k = Some info ->
  payload_for E message info a bytes name ->
  db_rows w !! message_id info = None ->
  rowid_in_range (message_id info) ->
  no_fault_from E (io_ops w) ->
  let w' := process_attachment_response E message (JStr k) dir w in
  files w' = <[path_join dir name := bytes]> (files w) /\
  db_rows w' = db_rows w /\
  pending_attachments w' = delete k (pending_attachments w) /\
  log w' = (log w ++
    [(INFO, Downloaded_attachment (JStr a) (path_join dir name));
     (ERROR, Message_id_not_found (message_id info))])%list.
Proof.
  intros Hk (Ha & ritems & d & Hres & Hdata & Hd & Hdec & Hname) Hrow Hmid Hio w'.
  subst w'. unfold process_attachment_response.
  erewrite resolve_reaches_select; try eassumption; try (apply Hio; lia).
  erewrite bind_ok by (apply select_run; [exact Hmid | apply Hio; simpl; lia]).
  simpl. rewrite Hrow. simpl. rewrite <- app_assoc. repeat split.
Qed.

Lemma orphaned_attachment_keeps_file_witness :
  let w' := process_attachment_response Sample.env Sample.hello_response
              (JStr "1700000000000a1") "attachments" Cases.orphaned in
  files w' = <[path_join "attachments" "a1.txt" := [Byte.x58]]> (files Cases.orphaned) /\
  db_rows w' = db_rows Cases.orphaned /\
  pending_attachments w' =
    delete "1700000000000a1" (pending_attachments Cases.orphaned) /\
  log w' = (log Cases.orphaned ++
    [(INFO, Downloaded_attachment (JStr "a1") (path_join "attachments" "a1.txt"));
     (ERROR, Message_id_not_found 1)])%list.
Proof.
  apply (orphaned_attachment_keeps_file Sample.env Sample.hello_response
           "1700000000000a1" "attachments" Cases.orphaned
           {| message_id := 1; attachment_id := JStr "a1" |} "a1" [Byte.x58] "a1.txt").
  - vm_compute. reflexivity.
  - split; [reflexivity|].
    exists [("data", JStr "WA=="); ("contentType", JStr "text/plain")], "WA==".
    repeat split; try reflexivity. intros H; discriminate H.
  - reflexivity.
  - unfold rowid_in_range. simpl. lia.
  - intros k _. reflexivity.
Defined.

(** X14: a record whose attachment-path column is NULL or the empty text is
    taken to have no paths: the resolved path becomes its whole list. *)
Theorem empty_column_starts_the_list E message k dir w info a bytes name r :
  pending_attachments w !! k = Some info ->
  payload_for E message info a bytes name ->
  db_rows w !! message_id info = Some r ->
  sql_truthy (attachmentPaths r) = false ->
  rowid_in_range (message_id info) ->
  (forall n, io_fault E n = false) ->
  let w' := process_attachment_response E message (JStr k) dir w in
  db_rows w' !! message_id info
  = Some (set_attachmentPaths
            (SText (json_dumps E (JArr [JStr (path_join dir name)]))) r) /\
  last (log w') = Some (INFO, Updated_message (message_id info) (path_join dir name)).
Proof.
  intros Hk (Ha & ritems & d & Hres & Hdata & Hd & Hdec & Hname) Hrow Hcol Hmid Hio w'.
  subst w'. unfold process_attachment_response.
  erewrite resolve_reaches_select; try eassumption; try apply Hio.
  erewrite bind_ok by (apply select_found; [exact Hmid | apply Hio | exact Hrow]).
  cbv iota. rewrite Hcol.
  erewrite bind_ok by reflexivity.
  erewrite bind_ok by reflexivity.
  rewrite (update_run E Hio [] _ _ _ _ (rowid_binds _ Hmid)).
  simpl. rewrite lookup_alter_eq, Hrow. split; [reflexivity | apply last_snoc].
Qed.

Lemma empty_column_starts_the_list_witness :
  let w' := process_attachment_response Sample.env Sample.hello_response
              (JStr "1700000000000a1") "attachments" Cases.null_column in
  db_rows w' !! 1
  = Some (set_attachmentPaths
            (SText (json_dumps Sample.env
                      (JArr [JStr (path_join "attachments" "a1.txt")])))
            (set_attachmentPaths SNull (message_record Sample.env Sample.hello))) /\
  last (log w') = Some (INFO, Updated_message 1 (path_join "attachments" "a1.txt")).
Proof.
  apply (empty_column_starts_the_list Sample.env Sample.hello_response
           "1700000000000a1" "attachments" Cases.null_column
           {| message_id := 1; attachment_id := JStr "a1" |} "a1" [Byte.x58] "a1.txt"
           (set_attachmentPaths SNull (message_record Sample.env Sample.hello))).
  - vm_compute. reflexivity.
  - split; [reflexivity|].
    exists [("data", JStr "WA=="); ("contentType", JStr "text/plain")], "WA==".
    repeat split; try reflexivity. intros H; discriminate H.
  - vm_compute. reflexivity.
  - reflexivity.
  - unfold rowid_in_range. simpl. lia.
  - intros n. reflexivity.
Defined.

(** X15: the file is written before the table is read: when the SELECT
    fails, the file is on disk, the record does not list it, the pending
    entry is gone and the failure is logged. *)
Theorem failed_select_leaves_file_unlisted E message k dir w info a bytes name :
  pending_attachments w !! k = Some info ->
  payload_for E message info a bytes name ->
  rowid_in_range (message_id info) ->
  io_fault E (io_ops w) = false ->
  io_fault E (S (io_ops w)) = false ->
  io_fault E (S (S (io_ops w))) = true ->
  let w' := process_attachment_response E message (JStr k) dir w in
  files w' = <[path_join dir name := bytes]> (files w) /\
  db_rows w' = db_rows w /\
  pending_attachments w' = delete k (pending_attachments w) /\
  log w' = (log w ++
    [(INFO, Downloaded_attachment (JStr a) (path_join dir name));
     (ERROR, Error_processing_attachment_response Sqlite3Error)])%list.
Proof.
  intros Hk (Ha & ritems & d & Hres & Hdata & Hd & Hdec & Hname) Hmid Hio1 Hio2 Hio3 w'.
  subst w'. unfold process_attachment_response.
  erewrite resolve_reaches_select; try eassumption.
  erewrite bind_raise.
  2:{ unfold cursor_select_attachmentPaths. rewrite (rowid_binds _ Hmid).
      erewrite bind_ok by reflexivity.
      erewrite bind_raise; [reflexivity|].
      unfold io. simpl. rewrite Hio3. reflexivity. }
  simpl. rewrite <- app_assoc. repeat split.
Qed.

Lemma failed_select_leaves_file_unlisted_witness :
  let w' := process_attachment_response Cases.env_select_fails Sample.hello_response
              (JStr "1700000000000a1") "attachments" Sample.awaiting in
  files w' = <[path_join "attachments" "a1.txt" := [Byte.x58]]> (files Sample.awaiting) /\
  db_rows w' = db_rows Sample.awaiting /\
  pending_attachments w' =
    delete "1700000000000a1" (pending_attachments Sample.awaiting) /\
  log w' = (log Sample.awaiting ++
    [(INFO, Downloaded_attachment (JStr "a1") (path_join "attachments" "a1.txt"));
     (ERROR, Error_processing_attachment_response Sqlite3Error)])%list.
Proof.
  apply (failed_select_leaves_file_unlisted Cases.env_select_fails
           Sample.hello_response "1700000000000a1" "attachments" Sample.awaiting
           {| message_id := 1; attachment_id := JStr "a1" |} "a1" [Byte.x58] "a1.txt").
  - vm_compute. reflexivity.
  - split; [reflexivity|].
    exists [("data", JStr "WA=="); ("contentType", JStr "text/plain")], "WA==".
    repeat split; try reflexivity. intros H; discriminate H.
  - unfold rowid_in_range. simpl. lia.
  - reflexivity.
  - reflexivity.
  - reflexivity.
Defined.


(** X16: a matched response whose payload data is not a str, or does not
    decode, consumes its table entry and the exception is logged; no file
    is written and the table is left as it was. *)
Theorem undecodable_payload_only_consumes E message k dir w info ritems :
  pending_attachments w !! k = Some info ->
  jget message "result" = JObj ritems ->
  truthy (jget (JObj ritems) "data") = true ->
  ~ decodes E (jget (JObj ritems) "data") ->
  exists e,
    process_attachment_response E message (JStr k) dir w
    = set_log (log w ++ [(ERROR, Error_processing_attachment_response e)])
        (set_pending (delete k) w).
Proof.
  intros Hk Hres Hdata Hnot.
  destruct (jget_inv _ _ _ Hres) as (mitems & -> & Hr); [discriminate|].
  assert (Htr : truthy (JObj ritems) = true).
  { destruct ritems; [discriminate | reflexivity]. }
  unfold process_attachment_response, process_attachment_response_try.
  erewrite bind_ok.
  2:{ simpl. rewrite bool_decide_true by (rewrite Hk; eauto). reflexivity. }
  cbn [negb]. cbv iota.
  erewrite bind_ok by (simpl; rewrite Hk; reflexivity).
  erewrite bind_ok by (apply py_get_found; exact Hr).
  rewrite Htr.
  erewrite bind_ok by apply py_get_jget.
  erewrite bind_ok by apply py_get_obj.
  rewrite Hdata.
  destruct (jget (JObj ritems) "data") as [| | | |d| |] eqn:Hd;
    try (exists TypeError;
         erewrite bind_raise by reflexivity; reflexivity).
  destruct (b64decode E d) as [bytes|] eqn:Hdec.
  - contradiction Hnot. exists d, bytes. split; [reflexivity | exact Hdec].
  - exists BinasciiError.
    erewrite bind_raise by (simpl; rewrite Hdec; reflexivity). reflexivity.
Qed.

Lemma undecodable_payload_only_consumes_witness :
  exists e,
    process_attachment_response Sample.env
      (Sample.response "1700000000000a1" "WA") (JStr "1700000000000a1")
      "attachments" Sample.awaiting
    = set_log (log Sample.awaiting ++
               [(ERROR, Error_processing_attachment_response e)])
        (set_pending (delete "1700000000000a1") Sample.awaiting).
Proof.
  apply (undecodable_payload_only_consumes Sample.env
           (Sample.response "1700000000000a1" "WA") "1700000000000a1"
           "attachments" Sample.awaiting
           {| message_id := 1; attachment_id := JStr "a1" |}
           [("data", JStr "WA"); ("contentType", JStr "text/plain")]).
  - vm_compute. reflexivity.
  - reflexivity.
  - reflexivity.
  - intros (d & bytes & Hd & Hb). injection Hd as <-. vm_compute in Hb. discriminate Hb.
Defined.

(** X17: an attachment whose identifier is not a str, a list or a dict (null
    when the notification named none, a number, a boolean) can never be
    stored: the test ['.' in attachment_id] raises TypeError, so even a
    response with good payload data only consumes the entry and is logged. *)
Theorem attachment_without_str_id_is_never_stored
    E message k dir w info ritems d bytes :
  pending_attachments w !! k = Some info ->
  scalar_not_str (attachment_id info) ->
  jget message "result" = JObj ritems ->
  jget (JObj ritems) "data" = JStr d -> d <> "" ->
  b64decode E d = Some bytes ->
  process_attachment_response E message (JStr k) dir w
  = set_log (log w ++ [(ERROR, Error_processing_attachment_response TypeError)])
      (set_pending (delete k) w).
Proof.
  intros Hk Hid Hres Hdata Hd Hdec.
  destruct (jget_inv _ _ _ Hres) as (mitems & -> & Hr); [discriminate|].
  assert (Htr : truthy (JObj ritems) = true).
  { destruct ritems; [discriminate | reflexivity]. }
  assert (Htd : truthy (JStr d) = true).
  { simpl. destruct (String.eqb_spec d ""); [contradiction | reflexivity]. }
  unfold process_attachment_response, process_attachment_response_try.
  erewrite bind_ok.
  2:{ simpl. rewrite bool_decide_true by (rewrite Hk; eauto). reflexivity. }
  cbn [negb]. cbv iota.
  erewrite bind_ok by (simpl; rewrite Hk; reflexivity).
  erewrite bind_ok by (apply py_get_found; exact Hr).
  rewrite Htr.
  erewrite bind_ok by apply py_get_jget.
  rewrite Hdata.
  erewrite bind_ok by apply py_get_obj.
  rewrite Htd.
  erewrite bind_ok by (simpl; rewrite Hdec; reflexivity).
  assert (Hraise : forall ct w1,
            derive_file_name E (attachment_id info) ct w1 = (Raise TypeError, w1)).
  { intros ct w1. unfold derive_file_name.
    destruct (attachment_id info); try contradiction;
      erewrite bind_raise by reflexivity; reflexivity. }
  erewrite bind_raise by apply Hraise.
  reflexivity.
Qed.

Lemma attachment_without_str_id_is_never_stored_witness :
  process_attachment_response Sample.env
    (Sample.response "1700000000000None" "WA==") (JStr "1700000000000None")
    "attachments" Cases.awaiting_nameless
  = set_log (log Cases.awaiting_nameless ++
             [(ERROR, Error_processing_attachment_response TypeError)])
      (set_pending (delete "1700000000000None") Cases.awaiting_nameless).
Proof.
  apply (attachment_without_str_id_is_never_stored Sample.env
           (Sample.response "1700000000000None" "WA==") "1700000000000None"
           "attachments" Cases.awaiting_nameless
           {| message_id := 1; attachment_id := JNull |}
           [("data", JStr "WA=="); ("contentType", JStr "text/plain")]
           "WA==" [Byte.x58]).
  - vm_compute. reflexivity.
  - exact I.
  - reflexivity.
  - reflexivity.
  - intros H; discriminate H.
  - reflexivity.
Defined.

Lemma starts_with_slash_append a s :
  starts_with_slash a = true -> starts_with_slash (a +:+ s) = true.
Proof. destruct a as [|c a]; [discriminate|]. intros H. exact H. Qed.

Lemma path_join_absolute dir name :
  starts_with_slash name = true -> path_join dir name = name.
Proof. intros H. unfold path_join. rewrite H. reflexivity. Qed.

Lemma derive_file_name_extends E a ct name w :
  derive_file_name E (JStr a) ct w = (Ok (JStr name), w) ->
  exists suffix, name = a +:+ suffix.
Proof.
  unfold derive_file_name. erewrite bind_ok by reflexivity.
  destruct (contains_str "." a).
  - intros [= <-]. exists "". clear. induction a as [|c a IH]; [reflexivity|].
    change (String c a +:+ "") with (String c (a +:+ "")). rewrite <- IH. reflexivity.
  - unfold bind. destruct (get_extension_from_content_type E ct w) as [[ext|e] w1];
      [|discriminate].
    intros [= <- _]. exists ext. reflexivity.
Qed.

(** X18: [os.path.join] lets an absolute second component win: for an
    attachment identifier that begins with a slash the file is written at
    the path the derived name spells, outside the attachment directory. *)
Theorem absolute_attachment_id_escapes_directory
    E message k dir w info a bytes name :
  pending_attachments w !! k = Some info ->
  payload_for E message info a bytes name ->
  starts_with_slash a = true ->
  io_fault E (io_ops w) = false -> io_fault E (S (io_ops w)) = false ->
  starts_with_slash name = true /\
  files (process_attachment_response E message (JStr k) dir w)
  = <[name := bytes]> (files w).
Proof.
  intros Hk (Ha & ritems & d & Hres & Hdata & Hd & Hdec & Hname) Hslash Hio1 Hio2.
  assert (Habs : starts_with_slash name = true).
  { destruct (derive_file_name_extends E a _ name w (Hname w)) as [suffix ->].
    apply starts_with_slash_append, Hslash. }
  split; [exact Habs|].
  rewrite <- (path_join_absolute dir name Habs) at 1.
  eapply matched_response_writes_file; eassumption.
Qed.

Lemma absolute_attachment_id_escapes_directory_witness :
  starts_with_slash "/tmp/x.txt" = true /\
  files (process_attachment_response Sample.env
           (Sample.response "1700000000000/tmp/x" "WA==")
           (JStr "1700000000000/tmp/x") "attachments" Cases.awaiting_absolute)
  = <["/tmp/x.txt" := [Byte.x58]]> (files Cases.awaiting_absolute).
Proof.
  apply (absolute_attachment_id_escapes_directory Sample.env
           (Sample.response "1700000000000/tmp/x" "WA==") "1700000000000/tmp/x"
           "attachments" Cases.awaiting_absolute
           {| message_id := 1; attachment_id := JStr "/tmp/x" |}
           "/tmp/x" [Byte.x58] "/tmp/x.txt").
  - vm_compute. reflexivity.
  - split; [reflexivity|].
    exists [("data", JStr "WA=="); ("contentType", JStr "text/plain")], "WA==".
    repeat split; try reflexivity. intros H; discriminate H.
  - reflexivity.
  - reflexivity.
  - reflexivity.
Defined.


(** ** Startup and shutdown *)

Lemma bbind_ok {A C} (m : B A) (k : A -> B C) b a b' :
  m b = (inr a, b') -> bbind m k b = k a b'.
Proof. intros H. unfold bbind. rewrite H. reflexivity. Qed.

Lemma bbind_stop {A C} (m : B A) (k : A -> B C) b x b' :
  m b = (inl x, b') -> bbind m k b = (inl x, b').
Proof. intros H. unfold bbind. rewrite H. reflexivity. Qed.

Lemma config_get_obj items k dflt b :
  config_get (JObj items) k dflt b = (inr (default dflt (dict_get items k)), b).
Proof. unfold config_get. destruct (dict_get items k); reflexivity. Qed.

Lemma attempt_ok E e a b :
  io_fault E (boot_ops b) = false ->
  attempt E e a b =
  (inr tt, {| boot_log := boot_log b; boot_actions := boot_actions b ++ [a];
              boot_ops := S (boot_ops b) |}).
Proof. intros H. unfold attempt. rewrite H. reflexivity. Qed.

Lemma attempt_str_ok E e a s b :
  io_fault E (boot_ops b) = false ->
  attempt_str E e a (JStr s) b =
  (inr s, {| boot_log := boot_log b; boot_actions := boot_actions b ++ [a s];
             boot_ops := S (boot_ops b) |}).
Proof.
  intros H. unfold attempt_str. erewrite bbind_ok by (apply attempt_ok; exact H).
  reflexivity.
Qed.



Lemma startup_ok E config_file text items dir db phone :
  json_loads E text = Some (JObj items) ->
  default (JStr "attachments") (dict_get items "attachmentDirectory") = JStr dir ->
  default (JStr "messages.db") (dict_get items "database") = JStr db ->
  dict_get items "phoneNumber" = Some (JStr phone) -> phone <> "" ->
  (forall n, (n < 5)%nat -> io_fault E n = false) ->
  main_startup E config_file (Text text)
    {| boot_log := []; boot_actions := []; boot_ops := 0 |}
  = (inr dir,
     {| boot_log := [(INFO, Starting_signal_cli_subprocess)];
        boot_actions := [MakeDirs dir; Connect db; CreateTable; CommitSchema;
                         Popen phone];
        boot_ops := 5 |}).
Proof.
  intros Hcfg Hdir Hdb Hphone Hne Hio.
  unfold main_startup, load_config. rewrite Hcfg.
  erewrite bbind_ok by reflexivity.
  do 3 (erewrite bbind_ok by apply config_get_obj).
  rewrite Hdir, Hdb, Hphone. cbn [default from_option id].
  assert (Ht : truthy (JStr phone) = true).
  { simpl. destruct (String.eqb_spec phone ""); [contradiction | reflexivity]. }
  rewrite Ht. cbn [negb].
  erewrite bbind_ok by (apply attempt_str_ok, Hio; simpl; lia).
  erewrite bbind_ok by (apply attempt_str_ok, Hio; simpl; lia).
  erewrite bbind_ok by (apply attempt_ok, Hio; simpl; lia).
  erewrite bbind_ok by (apply attempt_ok, Hio; simpl; lia).
  erewrite bbind_ok by reflexivity.
  erewrite bbind_ok by (apply attempt_str_ok, Hio; simpl; lia).
  reflexivity.
Qed.

(** X20: with a usable configuration and a machine on which starting up and
    shutting down do not fail, [main] creates the attachment directory,
    opens the database, creates the table and commits, and only then starts
    signal-cli; the directory and the database default to [attachments] and
    [messages.db]; the loop starts with no pending request; and however the
    loop ends, at end of file or by an uncaught exception, the process is
    terminated and waited for and the connection is closed before [main]
    returns or lets the exception through. *)
Theorem main_starts_in_order_and_cleans_up
    E config_file text items dir db phone table seq disk_files lines :
  json_loads E text = Some (JObj items) ->
  default (JStr "attachments") (dict_get items "attachmentDirectory") = JStr dir ->
  default (JStr "messages.db") (dict_get items "database") = JStr db ->
  dict_get items "phoneNumber" = Some (JStr phone) -> phone <> "" ->
  (forall n, (n < 5)%nat -> io_fault E n = false) ->
  let loop := main_loop E lines dir (loop_start table seq disk_files 5) in
  (forall n, (io_ops (snd loop) <= n)%nat -> io_fault E n = false) ->
  let run := main E config_file (Text text) table seq disk_files lines in
  boot_actions (main_boot run) =
    [MakeDirs dir; Connect db; CreateTable; CommitSchema; Popen phone;
     Terminate; Wait; Close] /\
  main_loop_state run = Some (snd loop) /\
  main_ended run = match fst loop with
                   | EOF => Returned
                   | Uncaught e => Propagated e
                   end.
Proof.
  intros Hcfg Hdir Hdb Hphone Hne Hio loop Hio2 run. subst run. unfold main.
  rewrite (startup_ok E config_file text items dir db phone) by assumption.
  cbn [boot_ops boot_log boot_actions]. fold loop.
  destruct loop as [ended w] eqn:Hloop. cbn [fst snd] in *.
  unfold finally_block.
  erewrite bbind_ok by (apply attempt_ok, Hio2; simpl; lia).
  erewrite bbind_ok by (apply attempt_ok, Hio2; simpl; lia).
  rewrite attempt_ok by (apply Hio2; simpl; lia).
  simpl. repeat split.
Qed.

Lemma main_starts_in_order_and_cleans_up_witness :
  let loop := main_loop Cases.env [Decoded Sample.hello; Decoded Sample.hello_response]
                "attachments" (loop_start ∅ 0 ∅ 5) in
  let run := main Cases.env "config.json" (Text Cases.config_str) ∅ 0 ∅
               [Decoded Sample.hello; Decoded Sample.hello_response] in
  boot_actions (main_boot run) =
    [MakeDirs "attachments"; Connect "messages.db"; CreateTable; CommitSchema;
     Popen "+15550100"; Terminate; Wait; Close] /\
  main_loop_state run = Some (snd loop) /\
  main_ended run = match fst loop with
                   | EOF => Returned
                   | Uncaught e => Propagated e
                   end.
Proof.
  apply (main_starts_in_order_and_cleans_up Cases.env "config.json"
           Cases.config_str [("phoneNumber", JStr "+15550100")]
           "attachments" "messages.db" "+15550100" ∅ 0 ∅
           [Decoded Sample.hello; Decoded Sample.hello_response]).
  - reflexivity.
  - reflexivity.
  - reflexivity.
  - reflexivity.
  - intros H; discriminate H.
  - intros n _. reflexivity.
  - intros n _. reflexivity.
Defined.

(** X21: the [try ... finally] begins after signal-cli is started: when the
    phone number is a value that is not a str (a JSON number, say), which
    passes the test for a missing number, or when starting signal-cli
    fails, the exception leaves [main] after the directory and the database
    were set up, and the connection is never closed. *)
Theorem failed_spawn_leaves_connection_open
    E config_file text items dir db phone table seq disk_files lines :
  json_loads E text = Some (JObj items) ->
  default (JStr "attachments") (dict_get items "attachmentDirectory") = JStr dir ->
  default (JStr "messages.db") (dict_get items "database") = JStr db ->
  dict_get items "phoneNumber" = Some phone -> truthy phone = true ->
  (forall n, (n < 4)%nat -> io_fault E n = false) ->
  (forall s, phone = JStr s -> io_fault E 4 = true) ->
  let run := main E config_file (Text text) table seq disk_files lines in
  (exists e, main_ended run = Propagated e) /\
  boot_actions (main_boot run) = [MakeDirs dir; Connect db; CreateTable; CommitSchema] /\
  main_loop_state run = None.
Proof.
  intros Hcfg Hdir Hdb Hphone Ht Hio Hspawn run. subst run.
  unfold main, main_startup, load_config. rewrite Hcfg.
  erewrite bbind_ok by reflexivity.
  do 3 (erewrite bbind_ok by apply config_get_obj).
  rewrite Hdir, Hdb, Hphone. cbn [default from_option id].
  rewrite Ht. cbn [negb].
  erewrite bbind_ok by (apply attempt_str_ok, Hio; simpl; lia).
  erewrite bbind_ok by (apply attempt_str_ok, Hio; simpl; lia).
  erewrite bbind_ok by (apply attempt_ok, Hio; simpl; lia).
  erewrite bbind_ok by (apply attempt_ok, Hio; simpl; lia).
  erewrite bbind_ok by reflexivity.
  destruct phone as [| | | |s| |];
    try (simpl; split; [eexists; reflexivity | split; reflexivity]).
  specialize (Hspawn s eq_refl).
  unfold attempt_str, attempt, bbind. simpl. rewrite Hspawn. simpl.
  split; [eexists; reflexivity | split; reflexivity].
Qed.

Lemma failed_spawn_leaves_connection_open_witness :
  let run := main Cases.env "config.json" (Text Cases.config_number) ∅ 0 ∅
               [Decoded Sample.hello] in
  (exists e, main_ended run = Propagated e) /\
  boot_actions (main_boot run) =
    [MakeDirs "attachments"; Connect "messages.db"; CreateTable; CommitSchema] /\
  main_loop_state run = None.
Proof.
  apply (failed_spawn_leaves_connection_open Cases.env "config.json"
           Cases.config_number [("phoneNumber", JInt 15550100)]
           "attachments" "messages.db" (JInt 15550100) ∅ 0 ∅ [Decoded Sample.hello]).
  - reflexivity.
  - reflexivity.
  - reflexivity.
  - reflexivity.
  - reflexivity.
  - intros n _. reflexivity.
  - intros s H. discriminate H.
Defined.
